(** * UkiyoFusion backend: a shallow embedding of the transformation pipeline

    The development follows the layout of [backend/]:
    - [Py]               the fragment of Python the sources rely on
                         (exceptions, [try]/[except]/[finally], floats, [str] methods);
    - [Validators]       [utils/validators.py];
    - [DiffusionService] [services/diffusion_service.py];
    - [Models]           [models/__init__.py];
    - [ImageProcessing]  [tasks/image_processing.py];
    - [TransformRoutes]  [routes/transform.py];
    - [GalleryRoutes]    [routes/gallery.py];
    - [ImageTools]       [utils/validators.py], the functions on decoded images;
    - [StorageService]   [services/storage_service.py], the local backend.

    Calls that leave the repository (the database session, the task queue,
    the socket, PIL, torch, the object store) are modelled by an explicit
    environment that says, for every call site, whether the call raises and
    what it returns. *)

From Stdlib Require Import ZArith QArith Qround Qabs String Ascii List Bool Lia DecimalString.
Import ListNotations.

Open Scope string_scope.
Open Scope Z_scope.

(* ================================================================== *)
(** ** Python fragment *)
(* ================================================================== *)

Module Py.

(** An exception is identified with its message, [str(e)]. Only exceptions
    deriving from [Exception] are modelled: those are the ones the
    [except Exception] clauses of the sources catch. *)
Definition exn := string.

Inductive result (A : Type) : Type :=
| Ok (a : A)
| Raise (e : exn).
Arguments Ok {A} a.
Arguments Raise {A} e.

(** Stateful code that may raise: a state-and-exception monad. *)
Definition M (S A : Type) : Type := S -> result A * S.

Definition ret {S A} (a : A) : M S A := fun s => (Ok a, s).

Definition bind {S A B} (m : M S A) (k : A -> M S B) : M S B :=
  fun s => match m s with
           | (Ok a, s') => k a s'
           | (Raise e, s') => (Raise e, s')
           end.

Definition raise {S A} (e : exn) : M S A := fun s => (Raise e, s).

Definition lift {S A} (r : result A) : M S A := fun s => (r, s).

Definition get {S} : M S S := fun s => (Ok s, s).

Definition modify {S} (f : S -> S) : M S unit := fun s => (Ok tt, f s).

(** [try: body except Exception as e: handler e] *)
Definition try_except {S A} (body : M S A) (handler : exn -> M S A) : M S A :=
  fun s => match body s with
           | (Ok a, s') => (Ok a, s')
           | (Raise e, s') => handler e s'
           end.

(** [try: body finally: fin]. The [finally] block runs on every exit of
    [body]; an exception of [fin] replaces the outcome of [body]. *)
Definition try_finally {S A} (body : M S A) (fin : M S unit) : M S A :=
  fun s => let (r, s') := body s in
           match fin s' with
           | (Ok _, s'') => (r, s'')
           | (Raise e, s'') => (Raise e, s'')
           end.

(** Python floats, with the IEEE comparisons: every comparison with NaN is
    false. A finite double is the rational it denotes; the thresholds of the
    sources ([0.1], [1.0], [4.0], [20.0]) are written as the decimal they
    abbreviate, which orders doubles the same way as the nearest double. *)
Inductive pyfloat : Type :=
| Finite (q : Q)
| PosInf
| NegInf
| NaN.

Definition float_le (a b : pyfloat) : bool :=
  match a, b with
  | NaN, _ => false
  | _, NaN => false
  | NegInf, _ => true
  | _, PosInf => true
  | Finite x, Finite y => Qle_bool x y
  | PosInf, _ => false
  | Finite _, NegInf => false
  end.

(** [str(n)] for an integer. *)
Definition str_of_Z (z : Z) : string := NilZero.string_of_int (Z.to_int z).

(** [str] methods, on ASCII strings. *)
Definition isspace (c : ascii) : bool :=
  let n := nat_of_ascii c in
  ((9 <=? n) && (n <=? 13) || (28 <=? n) && (n <=? 32))%nat.

Fixpoint lstrip (s : string) : string :=
  match s with
  | String c rest => if isspace c then lstrip rest else s
  | EmptyString => EmptyString
  end.

Fixpoint rev_string (s acc : string) : string :=
  match s with
  | String c rest => rev_string rest (String c acc)
  | EmptyString => acc
  end.

Definition rstrip (s : string) : string :=
  rev_string (lstrip (rev_string s "")) "".

Definition strip (s : string) : string := rstrip (lstrip s).

Definition lower_char (c : ascii) : ascii :=
  let n := nat_of_ascii c in
  if ((65 <=? n) && (n <=? 90))%nat then ascii_of_nat (n + 32) else c.

Fixpoint lower (s : string) : string :=
  match s with
  | String c rest => String (lower_char c) (lower rest)
  | EmptyString => EmptyString
  end.

(** [needle in hay] *)
Fixpoint contains (needle hay : string) : bool :=
  prefix needle hay ||
  match hay with
  | String _ rest => contains needle rest
  | EmptyString => false
  end.

Definition len (s : string) : Z := Z.of_nat (String.length s).

(** [int(s)] on a string: optional surrounding blanks, an optional sign and
    decimal digits; anything else raises [ValueError]. *)
Fixpoint digits_value (s : string) (acc : Z) : option Z :=
  match s with
  | EmptyString => Some acc
  | String c rest =>
      let n := nat_of_ascii c in
      if ((48 <=? n) && (n <=? 57))%nat
      then digits_value rest (10 * acc + Z.of_nat (n - 48))
      else None
  end.

Definition int_of_str (s : string) : result Z :=
  let bad := Raise ("invalid literal for int() with base 10: '" ++ s ++ "'") in
  match strip s with
  | EmptyString => bad
  | String "-" EmptyString => bad
  | String "+" EmptyString => bad
  | String "-" ds => match digits_value ds 0 with Some v => Ok (- v) | None => bad end
  | String "+" ds => match digits_value ds 0 with Some v => Ok v | None => bad end
  | ds => match digits_value ds 0 with Some v => Ok v | None => bad end
  end.

(** [a / b] on integers: true division, [ZeroDivisionError] on a zero divisor. *)
Definition truediv (a b : Z) : result Q :=
  if b =? 0 then Raise "division by zero"
  else Ok (inject_Z a / inject_Z b)%Q.

(** [s[:n]] and [s[n:]] *)
Fixpoint take (n : nat) (s : string) : string :=
  match n, s with
  | S n', String c rest => String c (take n' rest)
  | _, _ => EmptyString
  end.

Fixpoint drop (n : nat) (s : string) : string :=
  match n, s with
  | S n', String _ rest => drop n' rest
  | _, _ => s
  end.

Definition startswith (s p : string) : bool := prefix p s.

(** [s.endswith(c)] for a one-character suffix *)
Fixpoint endswith_char (s : string) (c : ascii) : bool :=
  match s with
  | EmptyString => false
  | String d EmptyString => Ascii.eqb d c
  | String _ rest => endswith_char rest c
  end.

(** [s.rfind(c)] from position [i] on: the index of the last [c], or -1. *)
Fixpoint rfind_from (c : ascii) (s : string) (i : Z) : Z :=
  match s with
  | EmptyString => -1
  | String d rest =>
      let later := rfind_from c rest (i + 1) in
      if later >=? 0 then later else if Ascii.eqb d c then i else -1
  end.

Definition rfind (c : ascii) (s : string) : Z := rfind_from c s 0.

(** [s.rsplit('.', 1)[1]]: what follows the last dot ([IndexError]
    without a dot). *)
Definition rsplit_dot_1 (s : string) : result string :=
  let i := rfind "." s in
  if i >=? 0 then Ok (drop (Z.to_nat (i + 1)) s) else Raise "list index out of range".

(** [posixpath.join(a, b)] *)
Definition path_join (a b : string) : string :=
  if startswith b "/" then b
  else if (a =? "")%string || endswith_char a "/" then a ++ b
  else a ++ "/" ++ b.

(** [posixpath.splitext(p)]: the extension starts at the last dot of the
    last path component, unless that component has only dots before it. *)
Definition splitext (p : string) : string * string :=
  let sepIndex := rfind "/" p in
  let dotIndex := rfind "." p in
  if dotIndex >? sepIndex then
    let between :=
      take (Z.to_nat (dotIndex - (sepIndex + 1))) (drop (Z.to_nat (sepIndex + 1)) p) in
    if existsb (fun c => negb (Ascii.eqb c ".")) (list_ascii_of_string between) then
      (take (Z.to_nat dotIndex) p, drop (Z.to_nat dotIndex) p)
    else (p, EmptyString)
  else (p, EmptyString).

End Py.

Import Py.

Declare Scope py_scope.
Delimit Scope py_scope with py.
Notation "x <- m ;; k" := (bind m (fun x => k))
  (at level 61, m at next level, right associativity) : py_scope.
Notation "m ;;; k" := (bind m (fun _ => k))
  (at level 61, right associativity) : py_scope.
Open Scope py_scope.

(* ================================================================== *)
(** ** utils/validators.py *)
(* ================================================================== *)

Module Validators.

(** [structlog] output: the event and the [error=] field. *)
Definition Logger := list (string * string).

Definition log_error {S} (put_log : (string * string) -> S -> S)
  (event err : string) : M S unit :=
  modify (put_log (event, err)).

(** What [validate_image] can observe of a PIL image. *)
Record Image := {
  img_verify : result unit;      (* image.verify() *)
  img_size : Z * Z               (* image.size = (width, height) *)
}.

(** What [validate_image] can observe of the uploaded file object: each
    call may raise. Calls are numbered in program order. *)
Record FileStorage := {
  file_seek : nat -> result unit;   (* the n-th file.seek(...) *)
  file_tell : result Z;             (* file.tell() after seeking to the end *)
  pil_open : nat -> result Image    (* the n-th Image.open(file) *)
}.

(** [int(os.getenv(name, default))] *)
Definition getenv_int (environ : string -> option string) (name : string)
  (default : Z) : result Z :=
  match environ name with
  | Some v => int_of_str v
  | None => Ok default
  end.

Definition validate_image (environ : string -> option string)
  (file : FileStorage) : M Logger (bool * string) :=
  try_except
    (lift (file_seek file 0%nat) ;;;
     file_size <- lift (file_tell file) ;;
     lift (file_seek file 1%nat) ;;;
     max_size <- lift (getenv_int environ "MAX_CONTENT_LENGTH" (16 * 1024 * 1024)) ;;
     if file_size >? max_size then
       ret (false, "File size too large. Maximum size is "
                     ++ str_of_Z (max_size / (1024 * 1024)) ++ "MB")
     else if file_size =? 0 then
       ret (false, "File is empty")
     else
       try_except
         (image <- lift (pil_open file 0%nat) ;;
          lift (img_verify image) ;;;
          lift (file_seek file 2%nat) ;;;
          image <- lift (pil_open file 1%nat) ;;
          let '(width, height) := img_size image in
          let min_size := 64 in
          if (width <? min_size) || (height <? min_size) then
            ret (false, "Image too small. Minimum size is " ++ str_of_Z min_size
                          ++ "x" ++ str_of_Z min_size ++ "px")
          else
            max_image_size <- lift (getenv_int environ "MAX_IMAGE_SIZE" 2048) ;;
            if (width >? max_image_size) || (height >? max_image_size) then
              ret (false, "Image too large. Maximum size is " ++ str_of_Z max_image_size
                            ++ "x" ++ str_of_Z max_image_size ++ "px")
            else
              aspect_ratio <- lift (truediv (Z.max width height) (Z.min width height)) ;;
              if negb (Qle_bool aspect_ratio 4) then
                ret (false, "Image aspect ratio too extreme. Maximum ratio is 4:1")
              else
                lift (file_seek file 3%nat) ;;;
                ret (true, "Valid image"))
         (fun e =>
            log_error cons "Image validation error" e ;;;
            ret (false, "Invalid image file or corrupted data")))
    (fun e =>
       log_error cons "File validation error" e ;;;
       ret (false, "File validation failed")).

Definition banned_words : list string :=
  [ "nude"; "naked"; "nsfw"; "porn"; "explicit"; "sexual";
    "violence"; "gore"; "blood"; "death"; "kill"; "murder";
    "hate"; "racist"; "nazi"; "terrorist" ].

(** The [for word in banned_words] loop: the first banned word found. *)
Fixpoint first_banned (words : list string) (prompt_lower : string) : option string :=
  match words with
  | [] => None
  | word :: rest =>
      if contains word prompt_lower then Some word else first_banned rest prompt_lower
  end.

Definition validate_prompt (prompt : string) (max_length : Z) : bool * string :=
  if (prompt =? "")%string || (strip prompt =? "")%string then
    (false, "Prompt cannot be empty")
  else
    let prompt := strip prompt in
    if len prompt >? max_length then
      (false, "Prompt too long. Maximum length is " ++ str_of_Z max_length ++ " characters")
    else
      match first_banned banned_words (lower prompt) with
      | Some word => (false, "Prompt contains inappropriate content: '" ++ word ++ "'")
      | None => (true, "Valid prompt")
      end.

(** The [seed] argument: [None], an [int], or a value of another type. *)
Inductive seed_arg : Type :=
| SeedNone
| SeedInt (n : Z)
| SeedOther.

Definition validate_generation_parameters (strength guidance_scale : pyfloat)
  (num_inference_steps : Z) (seed : seed_arg) : bool * string :=
  if negb (float_le (Finite 0.1) strength && float_le strength (Finite 1)) then
    (false, "Strength must be between 0.1 and 1.0")
  else if negb (float_le (Finite 1) guidance_scale && float_le guidance_scale (Finite 20)) then
    (false, "Guidance scale must be between 1.0 and 20.0")
  else if negb ((10 <=? num_inference_steps) && (num_inference_steps <=? 100)) then
    (false, "Number of inference steps must be between 10 and 100")
  else
    match seed with
    | SeedNone => (true, "Valid parameters")
    | SeedInt n =>
        if (n <? 0) || (n >? 2 ^ 32 - 1) then
          (false, "Seed must be a positive integer less than 2^32")
        else (true, "Valid parameters")
    | SeedOther => (false, "Seed must be a positive integer less than 2^32")
    end.

Definition allowed_extensions : list string := [ "png"; "jpg"; "jpeg"; "webp"; "gif" ].

Definition allowed_file (filename : string) : bool :=
  if (filename =? "")%string then false
  else
    contains "." filename &&
    match rsplit_dot_1 filename with
    | Ok ext => existsb (String.eqb (lower ext)) allowed_extensions
    | Raise _ => false
    end.

(** [\w] on ASCII characters: letters, digits and the underscore. *)
Definition is_word (c : ascii) : bool :=
  let n := nat_of_ascii c in
  ((48 <=? n) && (n <=? 57) || (65 <=? n) && (n <=? 90)
   || (97 <=? n) && (n <=? 122) || (n =? 95))%nat.

(** [re.sub(r'[^\w\-_\.]', '_', filename)] *)
Fixpoint replace_unsafe (s : string) : string :=
  match s with
  | EmptyString => EmptyString
  | String c rest =>
      String (if is_word c || Ascii.eqb c "-" || Ascii.eqb c "_" || Ascii.eqb c "."
              then c else "_"%char)
        (replace_unsafe rest)
  end.

(** What a maximal run of underscores and dots becomes under
    [re.sub(r'[_\.]{2,}', '_', ...)]: a run of one stays, a longer one
    turns into a single underscore. The run is held last character first. *)
Definition flush_run (run : list ascii) : string :=
  match run with
  | [] => EmptyString
  | [c] => String c EmptyString
  | _ => "_"
  end.

Fixpoint collapse_runs (run : list ascii) (s : string) : string :=
  match s with
  | EmptyString => flush_run run
  | String c rest =>
      if Ascii.eqb c "_" || Ascii.eqb c "."
      then collapse_runs (c :: run) rest
      else flush_run run ++ String c (collapse_runs [] rest)
  end.

Definition sanitize_filename (filename : string) : string :=
  let filename := replace_unsafe filename in
  let filename := collapse_runs [] filename in
  let '(name, ext) := splitext filename in
  let name := if len name >? 200 then take 200 name else name in
  name ++ ext.

End Validators.

(* ================================================================== *)
(** ** services/diffusion_service.py *)
(* ================================================================== *)

Module DiffusionService.

(** A PIL image, as far as the service looks at it. *)
Record Image := {
  width : Z;
  height : Z;
  mode : string
}.

(** *** PIL (Pillow 9.1 or later, the first with [Image.Resampling]) *)

(** [round_aspect] of [Image.thumbnail]:
    [max(min(math.floor(number), math.ceil(number), key=key), 1)];
    [min] keeps the first of two candidates with equal keys. *)
Definition round_aspect (number : Q) (key : Z -> Q) : Z :=
  let lo := Qfloor number in
  let hi := Qceiling number in
  Z.max (if Qle_bool (key lo) (key hi) then lo else hi) 1.

(** [preserve_aspect_ratio] of [Image.thumbnail((x, y))] on a [w]x[h] image:
    [None] when the image already fits, otherwise the size to resize to. *)
Definition preserve_aspect_ratio (w h x y : Z) : option (Z * Z) :=
  if (x >=? w) && (y >=? h) then None
  else
    let aspect := (inject_Z w / inject_Z h)%Q in
    if Qle_bool aspect (inject_Z x / inject_Z y)%Q then
      Some (round_aspect (inject_Z y * aspect)%Q
              (fun n => Qabs (aspect - inject_Z n / inject_Z y)%Q), y)
    else
      Some (x, round_aspect (inject_Z x / aspect)%Q
                 (fun n => if n =? 0 then 0%Q
                           else Qabs (aspect - inject_Z x / inject_Z n)%Q)).

(** The size of the image after [image.thumbnail((x, y), ...)]. *)
Definition thumbnail_size (w h x y : Z) : Z * Z :=
  match preserve_aspect_ratio w h x y with
  | None => (w, h)
  | Some final_size => final_size
  end.

(** [image.thumbnail(size, resample)]: resizes in place. *)
Definition thumbnail (image : Image) (size : Z * Z) : Image :=
  let '(w, h) := thumbnail_size (width image) (height image) (fst size) (snd size) in
  {| width := w; height := h; mode := mode image |}.

(** [image.resize((w, h), resample)]: Pillow refuses an empty target with
    [ValueError("height and width must be > 0")]. *)
Definition resize (image : Image) (size : Z * Z) : result Image :=
  let '(w, h) := size in
  if (w <? 1) || (h <? 1) then Raise "height and width must be > 0"
  else Ok {| width := w; height := h; mode := mode image |}.

Definition convert (image : Image) (m : string) : Image :=
  {| width := width image; height := height image; mode := m |}.

(** *** preprocess_image *)

Definition preprocess_image (image : Image) (max_size : Z) : result Image :=
  let image := thumbnail image (max_size, max_size) in
  let '(width0, height0) := (width image, height image) in
  let width1 := (width0 / 8) * 8 in
  let height1 := (height0 / 8) * 8 in
  match resize image (width1, height1) with
  | Raise e => Raise e
  | Ok image =>
      if negb (mode image =? "RGB")%string then Ok (convert image "RGB")
      else Ok image
  end.

(** *** The service object and the libraries behind it *)

(** The calls into torch, diffusers and controlnet_aux, by call site. *)
Inductive site : Type :=
| FromPretrained        (* StableDiffusionImg2ImgPipeline.from_pretrained *)
| ToDevice              (* pipeline.to(self.device) *)
| SchedulerFromConfig   (* DPMSolverMultistepScheduler.from_config *)
| Xformers              (* enable_xformers_memory_efficient_attention *)
| CpuOffload            (* enable_model_cpu_offload / vae_slicing / vae_tiling *)
| ControlNetFromPretrained
| DetectorInit          (* CannyDetector() / ...Detector.from_pretrained *)
| ManualSeed            (* torch.manual_seed / torch.cuda.manual_seed *)
| MakeGenerator         (* torch.Generator(...).manual_seed(seed) *)
| Preprocessor          (* preprocessor(processed_image) *)
| ControlNetPipeline    (* StableDiffusionControlNetImg2ImgPipeline(...).to(...) *)
| PipelineCall          (* the pipeline call itself, e.g. CUDA out of memory *)
| Psutil.               (* import psutil; psutil.Process().memory_info() *)

Record Backend := {
  faults : site -> option exn;     (* the exception a call raises, if any *)
  has_xformers : bool;             (* hasattr(pipeline, "enable_xformers_...") *)
  pipeline_images : Image -> list Image;   (* result.images of a pipeline call *)
  gpu_allocated : Z;               (* torch.cuda.memory_allocated() *)
  cpu_memory : Z                   (* process.memory_info().rss *)
}.

Record Service := {
  cuda : bool;                     (* self.device == "cuda" *)
  models : list string;            (* keys of self.models *)
  controlnets : list string;       (* keys of self.controlnets *)
  preprocessors : list string;     (* keys of self.preprocessors *)
  empty_cache_calls : nat;         (* torch.cuda.empty_cache() so far *)
  gc_collect_calls : nat;          (* gc.collect() so far *)
  log : list (string * string)
}.

Definition put_log (entry : string * string) (s : Service) : Service :=
  {| cuda := cuda s; models := models s; controlnets := controlnets s;
     preprocessors := preprocessors s; empty_cache_calls := empty_cache_calls s;
     gc_collect_calls := gc_collect_calls s; log := entry :: log s |}.

Definition put_model (name : string) (s : Service) : Service :=
  {| cuda := cuda s; models := name :: models s; controlnets := controlnets s;
     preprocessors := preprocessors s; empty_cache_calls := empty_cache_calls s;
     gc_collect_calls := gc_collect_calls s; log := log s |}.

Definition put_controlnet (name : string) (s : Service) : Service :=
  {| cuda := cuda s; models := models s; controlnets := name :: controlnets s;
     preprocessors := preprocessors s; empty_cache_calls := empty_cache_calls s;
     gc_collect_calls := gc_collect_calls s; log := log s |}.

Definition put_preprocessor (name : string) (s : Service) : Service :=
  {| cuda := cuda s; models := models s; controlnets := controlnets s;
     preprocessors := name :: preprocessors s; empty_cache_calls := empty_cache_calls s;
     gc_collect_calls := gc_collect_calls s; log := log s |}.

Definition empty_cache (s : Service) : Service :=
  {| cuda := cuda s; models := models s; controlnets := controlnets s;
     preprocessors := preprocessors s; empty_cache_calls := S (empty_cache_calls s);
     gc_collect_calls := gc_collect_calls s; log := log s |}.

Definition gc_collect (s : Service) : Service :=
  {| cuda := cuda s; models := models s; controlnets := controlnets s;
     preprocessors := preprocessors s; empty_cache_calls := empty_cache_calls s;
     gc_collect_calls := S (gc_collect_calls s); log := log s |}.

Definition mem (k : string) (keys : list string) : bool :=
  existsb (String.eqb k) keys.

(** [self.available_models]: name, [model_id], [type]. *)
Definition available_models : list (string * (string * string)) :=
  [ ("stable-diffusion-v1-5", ("runwayml/stable-diffusion-v1-5", "stable-diffusion"));
    ("stable-diffusion-xl", ("stabilityai/stable-diffusion-xl-base-1.0", "stable-diffusion-xl"));
    ("ukiyo-e-diffusion", ("sd-dreambooth-library/ukiyoe-style", "stable-diffusion")) ].

Definition controlnet_models : list (string * string) :=
  [ ("canny", "lllyasviel/sd-controlnet-canny");
    ("depth", "lllyasviel/sd-controlnet-depth");
    ("openpose", "lllyasviel/sd-controlnet-openpose");
    ("lineart", "lllyasviel/sd-controlnet-mlsd") ].

Fixpoint lookup {V} (k : string) (d : list (string * V)) : option V :=
  match d with
  | [] => None
  | (k', v) :: rest => if (k =? k')%string then Some v else lookup k rest
  end.

Section WithBackend.

Variable backend : Backend.

Definition call (s : site) : M Service unit :=
  match faults backend s with
  | Some e => raise e
  | None => ret tt
  end.

Definition logger (event detail : string) : M Service unit :=
  modify (put_log (event, detail)).

Definition load_model (model_name : string) : M Service bool :=
  try_except
    (self <- get ;;
     if mem model_name (models self) then
       logger "Model already loaded" model_name ;;; ret true
     else
       match lookup model_name available_models with
       | None => logger "Model not available" model_name ;;; ret false
       | Some (model_id, type) =>
           logger "Loading model" model_name ;;;
           supported <-
             (if (type =? "stable-diffusion")%string then call FromPretrained ;;; ret true
              else if (type =? "stable-diffusion-xl")%string then call FromPretrained ;;; ret true
              else logger "Unsupported model type" type ;;; ret false) ;;
           if negb supported then ret false
           else
             call ToDevice ;;;
             call SchedulerFromConfig ;;;
             (if has_xformers backend then
                try_except
                  (call Xformers ;;;
                   logger "XFormers memory efficient attention enabled" "")
                  (fun e => logger "Failed to enable XFormers" e)
              else ret tt) ;;;
             (if cuda self then call CpuOffload else ret tt) ;;;
             modify (put_model model_name) ;;;
             logger "Model loaded successfully" model_name ;;;
             ret true
       end)
    (fun e => logger "Failed to load model" e ;;; ret false).

Definition load_controlnet (controlnet_type : string) : M Service bool :=
  try_except
    (self <- get ;;
     if mem controlnet_type (controlnets self) then ret true
     else
       match lookup controlnet_type controlnet_models with
       | None => ret false
       | Some _ =>
           logger "Loading ControlNet" controlnet_type ;;;
           call ControlNetFromPretrained ;;;
           modify (put_controlnet controlnet_type) ;;;
           (if (controlnet_type =? "canny")%string
               || (controlnet_type =? "openpose")%string
               || (controlnet_type =? "lineart")%string
            then call DetectorInit ;;; modify (put_preprocessor controlnet_type)
            else ret tt) ;;;
           logger "ControlNet loaded successfully" controlnet_type ;;;
           ret true
       end)
    (fun e => logger "Failed to load ControlNet" e ;;; ret false).

(** [result.images[0]] *)
Definition first_image (images : list Image) : M Service Image :=
  match images with
  | im :: _ => ret im
  | [] => raise "list index out of range"
  end.

(** The clean-up both exits of [generate_image] perform. *)
Definition release_gpu : M Service unit :=
  self <- get ;;
  if cuda self then modify empty_cache ;;; modify gc_collect else ret tt.

Definition generate_image (image : Image) (prompt model_name negative_prompt : string)
  (strength guidance_scale : pyfloat) (num_inference_steps : Z)
  (seed : option Z) (controlnet_type : option string) : M Service (option Image) :=
  try_except
    (loaded <- load_model model_name ;;
     if negb loaded then ret None
     else
       self <- get ;;
       (if mem model_name (models self) then ret tt else raise model_name) ;;;
       processed_image <- lift (preprocess_image image 1024) ;;
       (match seed with
        | Some _ => call ManualSeed
        | None => ret tt
        end) ;;;
       (match seed with
        | Some n => if n =? 0 then ret tt else call MakeGenerator
        | None => ret tt
        end) ;;;
       use_controlnet <-
         (match controlnet_type with
          | Some ct => if (ct =? "")%string then ret false else load_controlnet ct
          | None => ret false
          end) ;;
       self <- get ;;
       images <-
         (match controlnet_type with
          | Some ct =>
              if use_controlnet then
                (if mem ct (controlnets self) then ret tt else raise ct) ;;;
                if mem ct (preprocessors self) then
                  call Preprocessor ;;;
                  call ControlNetPipeline ;;;
                  call PipelineCall ;;;
                  ret (pipeline_images backend processed_image)
                else
                  call PipelineCall ;;; ret (pipeline_images backend processed_image)
              else
                call PipelineCall ;;; ret (pipeline_images backend processed_image)
          | None =>
              call PipelineCall ;;; ret (pipeline_images backend processed_image)
          end) ;;
       release_gpu ;;;
       im <- first_image images ;;
       ret (Some im))
    (fun e =>
       logger "Image generation failed" e ;;;
       release_gpu ;;;
       ret None).

(** [get_memory_usage]: the [gpu_allocated] entry (absent off CUDA) and the
    [cpu_memory] entry of the returned dict. *)
Definition get_memory_usage : M Service (option Z * Z) :=
  self <- get ;;
  call Psutil ;;;
  ret (if cuda self then Some (gpu_allocated backend) else None, cpu_memory backend).

End WithBackend.

Definition remove_model (name : string) (s : Service) : Service :=
  {| cuda := cuda s;
     models := filter (fun k => negb (k =? name)%string) (models s);
     controlnets := controlnets s; preprocessors := preprocessors s;
     empty_cache_calls := empty_cache_calls s;
     gc_collect_calls := gc_collect_calls s; log := log s |}.

Definition clear_dicts (s : Service) : Service :=
  {| cuda := cuda s; models := []; controlnets := []; preprocessors := [];
     empty_cache_calls := empty_cache_calls s;
     gc_collect_calls := gc_collect_calls s; log := log s |}.

Definition get_available_models : list (string * (string * string)) := available_models.

Definition unload_model (model_name : string) : M Service unit :=
  self <- get ;;
  if mem model_name (models self) then
    modify (remove_model model_name) ;;;
    (if cuda self then modify empty_cache else ret tt) ;;;
    modify gc_collect ;;;
    logger "Model unloaded" model_name
  else ret tt.

Definition clear_cache : M Service unit :=
  modify clear_dicts ;;;
  self <- get ;;
  (if cuda self then modify empty_cache else ret tt) ;;;
  modify gc_collect ;;;
  logger "Cache cleared" "".

End DiffusionService.

(* ================================================================== *)
(** ** utils/validators.py, the functions on decoded images *)
(* ================================================================== *)

Module ImageTools.

Import DiffusionService.

Definition resize_image (image : Image) (max_size : Z) (maintain_aspect : bool)
  : result Image :=
  if maintain_aspect then
    let image := thumbnail image (max_size, max_size) in
    let '(width0, height0) := (width image, height image) in
    let width1 := (width0 / 8) * 8 in
    let height1 := (height0 / 8) * 8 in
    if (width1 >? 0) && (height1 >? 0) then resize image (width1, height1)
    else Ok image
  else
    let max_size := (max_size / 8) * 8 in
    resize image (max_size, max_size).

End ImageTools.

(* ================================================================== *)
(** ** models/__init__.py *)
(* ================================================================== *)

Module Models.

(** The [transformation_status] enumeration of the [status] column. *)
Inductive transformation_status : Type :=
| pending
| processing
| completed
| failed.

Definition status_eqb (a b : transformation_status) : bool :=
  match a, b with
  | pending, pending | processing, processing
  | completed, completed | failed, failed => true
  | _, _ => false
  end.

(** Instants ([datetime.utcnow()]) and durations ([total_seconds()]) are
    counted in microseconds, the resolution of [datetime]. Identifiers
    (UUIDs) are their string form. *)

Module User.
Record t := {
  id : string;
  total_transformations : Z
}.
End User.

Module Transformation.
Record t := {
  id : string;
  user_id : string;
  task_id : string;
  status : transformation_status;
  original_filename : string;
  original_url : string;
  model_name : string;
  prompt : string;
  result_filename : option string;
  result_url : option string;
  result_size : option Z;
  processing_time : option Z;
  gpu_memory_used : option Z;
  error_message : option string;
  started_at : option Z;
  completed_at : option Z
}.

Definition set_status (v : transformation_status) (r : t) : t :=
  {| id := id r; user_id := user_id r; task_id := task_id r; status := v;
     original_filename := original_filename r; original_url := original_url r;
     model_name := model_name r; prompt := prompt r;
     result_filename := result_filename r; result_url := result_url r;
     result_size := result_size r; processing_time := processing_time r;
     gpu_memory_used := gpu_memory_used r; error_message := error_message r;
     started_at := started_at r; completed_at := completed_at r |}.

Definition set_result_filename (v : option string) (r : t) : t :=
  {| id := id r; user_id := user_id r; task_id := task_id r; status := status r;
     original_filename := original_filename r; original_url := original_url r;
     model_name := model_name r; prompt := prompt r; result_filename := v;
     result_url := result_url r; result_size := result_size r;
     processing_time := processing_time r; gpu_memory_used := gpu_memory_used r;
     error_message := error_message r; started_at := started_at r;
     completed_at := completed_at r |}.

Definition set_result_url (v : option string) (r : t) : t :=
  {| id := id r; user_id := user_id r; task_id := task_id r; status := status r;
     original_filename := original_filename r; original_url := original_url r;
     model_name := model_name r; prompt := prompt r;
     result_filename := result_filename r; result_url := v;
     result_size := result_size r; processing_time := processing_time r;
     gpu_memory_used := gpu_memory_used r; error_message := error_message r;
     started_at := started_at r; completed_at := completed_at r |}.

Definition set_result_size (v : option Z) (r : t) : t :=
  {| id := id r; user_id := user_id r; task_id := task_id r; status := status r;
     original_filename := original_filename r; original_url := original_url r;
     model_name := model_name r; prompt := prompt r;
     result_filename := result_filename r; result_url := result_url r;
     result_size := v; processing_time := processing_time r;
     gpu_memory_used := gpu_memory_used r; error_message := error_message r;
     started_at := started_at r; completed_at := completed_at r |}.

Definition set_processing_time (v : option Z) (r : t) : t :=
  {| id := id r; user_id := user_id r; task_id := task_id r; status := status r;
     original_filename := original_filename r; original_url := original_url r;
     model_name := model_name r; prompt := prompt r;
     result_filename := result_filename r; result_url := result_url r;
     result_size := result_size r; processing_time := v;
     gpu_memory_used := gpu_memory_used r; error_message := error_message r;
     started_at := started_at r; completed_at := completed_at r |}.

Definition set_gpu_memory_used (v : option Z) (r : t) : t :=
  {| id := id r; user_id := user_id r; task_id := task_id r; status := status r;
     original_filename := original_filename r; original_url := original_url r;
     model_name := model_name r; prompt := prompt r;
     result_filename := result_filename r; result_url := result_url r;
     result_size := result_size r; processing_time := processing_time r;
     gpu_memory_used := v; error_message := error_message r;
     started_at := started_at r; completed_at := completed_at r |}.

Definition set_error_message (v : option string) (r : t) : t :=
  {| id := id r; user_id := user_id r; task_id := task_id r; status := status r;
     original_filename := original_filename r; original_url := original_url r;
     model_name := model_name r; prompt := prompt r;
     result_filename := result_filename r; result_url := result_url r;
     result_size := result_size r; processing_time := processing_time r;
     gpu_memory_used := gpu_memory_used r; error_message := v;
     started_at := started_at r; completed_at := completed_at r |}.

Definition set_started_at (v : option Z) (r : t) : t :=
  {| id := id r; user_id := user_id r; task_id := task_id r; status := status r;
     original_filename := original_filename r; original_url := original_url r;
     model_name := model_name r; prompt := prompt r;
     result_filename := result_filename r; result_url := result_url r;
     result_size := result_size r; processing_time := processing_time r;
     gpu_memory_used := gpu_memory_used r; error_message := error_message r;
     started_at := v; completed_at := completed_at r |}.

Definition set_completed_at (v : option Z) (r : t) : t :=
  {| id := id r; user_id := user_id r; task_id := task_id r; status := status r;
     original_filename := original_filename r; original_url := original_url r;
     model_name := model_name r; prompt := prompt r;
     result_filename := result_filename r; result_url := result_url r;
     result_size := result_size r; processing_time := processing_time r;
     gpu_memory_used := gpu_memory_used r; error_message := error_message r;
     started_at := started_at r; completed_at := v |}.
End Transformation.

Module GalleryItem.
Record t := {
  id : string;
  user_id : string;
  transformation_id : string;
  title : string;
  description : string;
  tags : string;
  is_public : bool;
  is_featured : bool;
  share_token : option string;
  view_count : Z;
  like_count : Z;
  download_count : Z;
  created_at : Z;
  updated_at : Z
}.

Definition set_title (v : string) (r : t) : t :=
  {| id := id r; user_id := user_id r; transformation_id := transformation_id r;
     title := v; description := description r; tags := tags r;
     is_public := is_public r; is_featured := is_featured r;
     share_token := share_token r; view_count := view_count r;
     like_count := like_count r; download_count := download_count r;
     created_at := created_at r; updated_at := updated_at r |}.

Definition set_description (v : string) (r : t) : t :=
  {| id := id r; user_id := user_id r; transformation_id := transformation_id r;
     title := title r; description := v; tags := tags r; is_public := is_public r;
     is_featured := is_featured r; share_token := share_token r;
     view_count := view_count r; like_count := like_count r;
     download_count := download_count r; created_at := created_at r;
     updated_at := updated_at r |}.

Definition set_tags (v : string) (r : t) : t :=
  {| id := id r; user_id := user_id r; transformation_id := transformation_id r;
     title := title r; description := description r; tags := v;
     is_public := is_public r; is_featured := is_featured r;
     share_token := share_token r; view_count := view_count r;
     like_count := like_count r; download_count := download_count r;
     created_at := created_at r; updated_at := updated_at r |}.

Definition set_is_public (v : bool) (r : t) : t :=
  {| id := id r; user_id := user_id r; transformation_id := transformation_id r;
     title := title r; description := description r; tags := tags r; is_public := v;
     is_featured := is_featured r; share_token := share_token r;
     view_count := view_count r; like_count := like_count r;
     download_count := download_count r; created_at := created_at r;
     updated_at := updated_at r |}.

Definition set_share_token (v : option string) (r : t) : t :=
  {| id := id r; user_id := user_id r; transformation_id := transformation_id r;
     title := title r; description := description r; tags := tags r;
     is_public := is_public r; is_featured := is_featured r; share_token := v;
     view_count := view_count r; like_count := like_count r;
     download_count := download_count r; created_at := created_at r;
     updated_at := updated_at r |}.

Definition set_updated_at (v : Z) (r : t) : t :=
  {| id := id r; user_id := user_id r; transformation_id := transformation_id r;
     title := title r; description := description r; tags := tags r;
     is_public := is_public r; is_featured := is_featured r;
     share_token := share_token r; view_count := view_count r;
     like_count := like_count r; download_count := download_count r;
     created_at := created_at r; updated_at := v |}.

Definition set_view_count (v : Z) (r : t) : t :=
  {| id := id r; user_id := user_id r; transformation_id := transformation_id r;
     title := title r; description := description r; tags := tags r;
     is_public := is_public r; is_featured := is_featured r;
     share_token := share_token r; view_count := v; like_count := like_count r;
     download_count := download_count r; created_at := created_at r;
     updated_at := updated_at r |}.

(** [generate_share_token]: [secrets.token_urlsafe(32)], drawn by the caller. *)
Definition generate_share_token (token : string) (r : t) : t :=
  set_share_token (Some token) r.
End GalleryItem.

End Models.

(* ================================================================== *)
(** ** tasks/image_processing.py *)
(* ================================================================== *)

Module ImageProcessing.

Import Models.

(** The payload of a [transformation_progress] event. *)
Module Notification.
Record t := {
  task_id : string;
  status : string;
  message : string;
  progress : Z;
  timestamp : Z
}.
End Notification.

(** The calls of the task that leave the process, by call site. The two
    calls inside [emit_progress_update] are told apart by the percentage
    the caller passes. *)
Inductive site : Type :=
| QueryTransformation          (* Transformation.query ... .first(), line 32 *)
| CommitProcessing             (* db.session.commit(), line 39 *)
| QueryUser                    (* User.query.get(user_id) *)
| CommitCompleted              (* db.session.commit(), line 114 *)
| HandlerQuery                 (* Transformation.query ... .first(), line 138 *)
| HandlerCommit                (* db.session.commit(), line 149 *)
| SocketImport (progress : Z)  (* from app import socketio *)
| SocketEmit (progress : Z).   (* socketio.emit(...) *)

Record Env := {
  backend : DiffusionService.Backend;
  faults : site -> option exn;
  image_open : string -> result DiffusionService.Image;   (* Image.open(io.BytesIO(data)) *)
  upload_image : DiffusionService.Image -> string -> string -> result string;
  uuid4 : string;
  utcnow_at : nat -> Z;                                   (* the n-th datetime.utcnow() *)
  tobytes_length : DiffusionService.Image -> Z            (* len(image.tobytes()) *)
}.

(** The committed tables, the objects held by [db.session] (its identity
    map: a query for a row already held returns the held object, with the
    changes made to it), the service singleton, and what went out. *)
Record World := {
  transformations : list Transformation.t;
  users : list User.t;
  session_transformation : option Transformation.t;
  session_user : option User.t;
  service : DiffusionService.Service;
  emitted : list Notification.t;        (* most recent first *)
  log : list (string * string);
  clock_reads : nat
}.

Definition set_transformations (v : list Transformation.t) (w : World) : World :=
  {| transformations := v; users := users w;
     session_transformation := session_transformation w;
     session_user := session_user w; service := service w; emitted := emitted w;
     log := log w; clock_reads := clock_reads w |}.

Definition set_users (v : list User.t) (w : World) : World :=
  {| transformations := transformations w; users := v;
     session_transformation := session_transformation w;
     session_user := session_user w; service := service w; emitted := emitted w;
     log := log w; clock_reads := clock_reads w |}.

Definition set_session_transformation (v : option Transformation.t) (w : World) : World :=
  {| transformations := transformations w; users := users w;
     session_transformation := v; session_user := session_user w; service := service w;
     emitted := emitted w; log := log w; clock_reads := clock_reads w |}.

Definition set_session_user (v : option User.t) (w : World) : World :=
  {| transformations := transformations w; users := users w;
     session_transformation := session_transformation w; session_user := v;
     service := service w; emitted := emitted w; log := log w;
     clock_reads := clock_reads w |}.

Definition set_service (v : DiffusionService.Service) (w : World) : World :=
  {| transformations := transformations w; users := users w;
     session_transformation := session_transformation w;
     session_user := session_user w; service := v; emitted := emitted w; log := log w;
     clock_reads := clock_reads w |}.

Definition set_emitted (v : list Notification.t) (w : World) : World :=
  {| transformations := transformations w; users := users w;
     session_transformation := session_transformation w;
     session_user := session_user w; service := service w; emitted := v; log := log w;
     clock_reads := clock_reads w |}.

Definition set_log (v : list (string * string)) (w : World) : World :=
  {| transformations := transformations w; users := users w;
     session_transformation := session_transformation w;
     session_user := session_user w; service := service w; emitted := emitted w;
     log := v; clock_reads := clock_reads w |}.

Definition set_clock_reads (v : nat) (w : World) : World :=
  {| transformations := transformations w; users := users w;
     session_transformation := session_transformation w;
     session_user := session_user w; service := service w; emitted := emitted w;
     log := log w; clock_reads := v |}.

(** What the task returns to the queue. *)
Inductive task_result : Type :=
| Completed (result_url : string) (processing_time : Z) (transformation_id : string)
| Failed (error : string).

Definition find_by_task_id (task_id : string) (rows : list Transformation.t)
  : option Transformation.t :=
  find (fun r => (Transformation.task_id r =? task_id)%string) rows.

Definition find_user (user_id : string) (rows : list User.t) : option User.t :=
  find (fun r => (User.id r =? user_id)%string) rows.

(** Writing the held objects back, row by primary key. *)
Definition flush_transformation (held : option Transformation.t)
  (rows : list Transformation.t) : list Transformation.t :=
  match held with
  | Some t => map (fun r => if (Transformation.id r =? Transformation.id t)%string
                            then t else r) rows
  | None => rows
  end.

Definition flush_user (held : option User.t) (rows : list User.t) : list User.t :=
  match held with
  | Some u => map (fun r => if (User.id r =? User.id u)%string then u else r) rows
  | None => rows
  end.

Section WithEnv.

Variable env : Env.

Definition call (s : site) : M World unit :=
  match faults env s with
  | Some e => raise e
  | None => ret tt
  end.

Definition logger (event detail : string) : M World unit :=
  modify (fun w => set_log ((event, detail) :: log w) w).

Definition utcnow : M World Z :=
  w <- get ;;
  modify (set_clock_reads (S (clock_reads w))) ;;;
  ret (utcnow_at env (clock_reads w)).

(** Running a method of the [diffusion_service] singleton. *)
Definition in_service {A} (m : M DiffusionService.Service A) : M World A :=
  fun w => let (r, s) := m (service w) in (r, set_service s w).

(** [Transformation.query.filter_by(task_id=task_id).first()] *)
Definition query_transformation (s : site) (task_id : string)
  : M World (option Transformation.t) :=
  call s ;;;
  w <- get ;;
  match session_transformation w with
  | Some t => ret (Some t)
  | None =>
      match find_by_task_id task_id (transformations w) with
      | Some t => modify (set_session_transformation (Some t)) ;;; ret (Some t)
      | None => ret None
      end
  end.

(** [User.query.get(user_id)] *)
Definition query_user (user_id : string) : M World (option User.t) :=
  call QueryUser ;;;
  w <- get ;;
  match session_user w with
  | Some u => ret (Some u)
  | None =>
      match find_user user_id (users w) with
      | Some u => modify (set_session_user (Some u)) ;;; ret (Some u)
      | None => ret None
      end
  end.

(** An attribute assignment on the object bound to [transformation]. *)
Definition assign (f : Transformation.t -> Transformation.t) : M World unit :=
  modify (fun w => set_session_transformation (option_map f (session_transformation w)) w).

(** [db.session.commit()] *)
Definition commit (s : site) : M World unit :=
  call s ;;;
  modify (fun w =>
    set_users (flush_user (session_user w) (users w))
      (set_transformations
         (flush_transformation (session_transformation w) (transformations w)) w)).

Definition emit_progress_update (task_id status message : string) (progress : Z)
  : M World unit :=
  try_except
    (call (SocketImport progress) ;;;
     now <- utcnow ;;
     call (SocketEmit progress) ;;;
     modify (fun w =>
       set_emitted
         ({| Notification.task_id := task_id; Notification.status := status;
             Notification.message := message; Notification.progress := progress;
             Notification.timestamp := now |} :: emitted w) w))
    (fun e => logger "Failed to emit progress update" e).

(** [datetime.utcnow() - transformation.started_at] *)
Definition since_started (now : Z) : M World Z :=
  w <- get ;;
  match session_transformation w with
  | Some t =>
      match Transformation.started_at t with
      | Some started => ret (now - started)
      | None => raise "unsupported operand type(s) for -: 'datetime.datetime' and 'NoneType'"
      end
  | None => raise "'NoneType' object has no attribute 'started_at'"
  end.

Definition seed_value (seed : Validators.seed_arg) : option Z :=
  match seed with
  | Validators.SeedInt n => Some n
  | _ => None
  end.

Definition gpu_allocated_or_0 (memory : option Z * Z) : Z :=
  match fst memory with
  | Some v => v
  | None => 0
  end.

(** The inner [try] of the [except] clause: writing the failure down. *)
Definition record_failure (task_id : string) (e : exn) : M World unit :=
  try_except
    (transformation <- query_transformation HandlerQuery task_id ;;
     match transformation with
     | Some transformation =>
         assign (Transformation.set_status failed) ;;;
         now <- utcnow ;;
         assign (Transformation.set_completed_at (Some now)) ;;;
         assign (Transformation.set_error_message (Some e)) ;;;
         (match Transformation.started_at transformation with
          | Some _ =>
              now <- utcnow ;;
              elapsed <- since_started now ;;
              assign (Transformation.set_processing_time (Some elapsed))
          | None => ret tt
          end) ;;;
         commit HandlerCommit
     | None => ret tt
     end)
    (fun db_error => logger "Failed to update transformation status" db_error).

(** The [except Exception as e] clause of the task. *)
Definition on_exception (task_id model_name : string) (e : exn) : M World task_result :=
  logger "Image transformation failed" e ;;;
  record_failure task_id e ;;;
  emit_progress_update task_id "failed" ("Transformation failed: " ++ e) 0 ;;;
  ret (Failed e).

(** The [try] block of the task: the five phases. *)
Definition run_phases (task_id user_id image_data filename model_name
  prompt negative_prompt : string) (strength guidance_scale : pyfloat)
  (num_inference_steps : Z) (seed : Validators.seed_arg) : M World task_result :=
       (transformation <- query_transformation QueryTransformation task_id ;;
        match transformation with
        | None =>
            logger "Transformation not found" task_id ;;;
            ret (Failed "Transformation not found")
        | Some transformation =>
            assign (Transformation.set_status processing) ;;;
            now <- utcnow ;;
            assign (Transformation.set_started_at (Some now)) ;;;
            commit CommitProcessing ;;;
            emit_progress_update task_id "processing" "Starting image transformation..." 10 ;;;
            let '(is_valid_prompt, prompt_error) := Validators.validate_prompt prompt 1000 in
            (if negb is_valid_prompt then raise ("Invalid prompt: " ++ prompt_error)
             else ret tt) ;;;
            let '(is_valid_params, params_error) :=
              Validators.validate_generation_parameters
                strength guidance_scale num_inference_steps seed in
            (if negb is_valid_params then raise ("Invalid parameters: " ++ params_error)
             else ret tt) ;;;
            emit_progress_update task_id "processing" "Loading AI model..." 20 ;;;
            loaded <- in_service (DiffusionService.load_model (backend env) model_name) ;;
            (if negb loaded then raise ("Failed to load model: " ++ model_name)
             else ret tt) ;;;
            emit_progress_update task_id "processing" "Preprocessing image..." 30 ;;;
            image <- lift (image_open env image_data) ;;
            memory_before <- in_service (DiffusionService.get_memory_usage (backend env)) ;;
            emit_progress_update task_id "processing" "Generating transformed image..." 40 ;;;
            result_image <-
              in_service
                (DiffusionService.generate_image (backend env) image prompt model_name
                   negative_prompt strength guidance_scale num_inference_steps
                   (seed_value seed) None) ;;
            match result_image with
            | None => raise "Image generation failed"
            | Some result_image =>
                emit_progress_update task_id "processing" "Saving result..." 80 ;;;
                let result_filename := "result_" ++ uuid4 env ++ ".jpg" in
                result_url <- lift (upload_image env result_image result_filename "results") ;;
                now <- utcnow ;;
                processing_time <- since_started now ;;
                memory_after <- in_service (DiffusionService.get_memory_usage (backend env)) ;;
                let gpu_memory_used :=
                  gpu_allocated_or_0 memory_after - gpu_allocated_or_0 memory_before in
                assign (Transformation.set_status completed) ;;;
                now <- utcnow ;;
                assign (Transformation.set_completed_at (Some now)) ;;;
                assign (Transformation.set_result_filename (Some result_filename)) ;;;
                assign (Transformation.set_result_url (Some result_url)) ;;;
                assign (Transformation.set_result_size
                          (Some (tobytes_length env result_image))) ;;;
                assign (Transformation.set_processing_time (Some processing_time)) ;;;
                assign (Transformation.set_gpu_memory_used (Some gpu_memory_used)) ;;;
                user <- query_user user_id ;;
                (match user with
                 | Some u =>
                     modify (set_session_user
                               (Some {| User.id := User.id u;
                                        User.total_transformations :=
                                          User.total_transformations u + 1 |}))
                 | None => ret tt
                 end) ;;;
                commit CommitCompleted ;;;
                emit_progress_update task_id "completed"
                  "Transformation completed successfully!" 100 ;;;
                logger "Image transformation completed" task_id ;;;
                ret (Completed result_url processing_time (Transformation.id transformation))
            end
        end).

(** The [finally] block of the task. *)
Definition clean_up : M World unit :=
  try_except
    (in_service (DiffusionService.get_memory_usage (backend env)) ;;; ret tt)
    (fun _ => ret tt).

Definition process_image_task (task_id user_id image_data filename model_name
  prompt negative_prompt : string) (strength guidance_scale : pyfloat)
  (num_inference_steps : Z) (seed : Validators.seed_arg) : M World task_result :=
  try_finally
    (try_except
       (run_phases task_id user_id image_data filename model_name prompt
          negative_prompt strength guidance_scale num_inference_steps seed)
       (on_exception task_id model_name))
    clean_up.

End WithEnv.

End ImageProcessing.

(* ================================================================== *)
(** ** routes/transform.py *)
(* ================================================================== *)

Module TransformRoutes.

Import Models.

Inductive site : Type :=
| Query      (* Transformation.query.filter_by(...).first() *)
| Revoke     (* from app import celery; celery.control.revoke(...) *)
| Commit.    (* db.session.commit() *)

Record Env := {
  faults : site -> option exn
}.

(** The committed [transformations] table, the ids the queue was asked to
    revoke, and the log. *)
Record State := {
  transformations : list Transformation.t;
  revoked : list string;
  log : list (string * string)
}.

Definition set_transformations (v : list Transformation.t) (s : State) : State :=
  {| transformations := v; revoked := revoked s; log := log s |}.

Definition set_revoked (v : list string) (s : State) : State :=
  {| transformations := transformations s; revoked := v; log := log s |}.

Definition set_log (v : list (string * string)) (s : State) : State :=
  {| transformations := transformations s; revoked := revoked s; log := v |}.

(** The JSON bodies of [cancel_transformation]. *)
Inductive body : Type :=
| Error (error : string) (status : option transformation_status)
| Cancelled (message : string) (transformation : Transformation.t).

Definition response : Type := body * Z.

(** The record [upload_and_transform] adds for a new job. *)
Definition new_transformation (id current_user_id task_id filename original_url
  model_name prompt : string) : Transformation.t :=
  {| Transformation.id := id;
     Transformation.user_id := current_user_id;
     Transformation.task_id := task_id;
     Transformation.status := pending;
     Transformation.original_filename := filename;
     Transformation.original_url := original_url;
     Transformation.model_name := model_name;
     Transformation.prompt := prompt;
     Transformation.result_filename := None;
     Transformation.result_url := None;
     Transformation.result_size := None;
     Transformation.processing_time := None;
     Transformation.gpu_memory_used := None;
     Transformation.error_message := None;
     Transformation.started_at := None;
     Transformation.completed_at := None |}.

Section WithEnv.

Variable env : Env.

Definition call (s : site) : M State unit :=
  match faults env s with
  | Some e => raise e
  | None => ret tt
  end.

Definition logger (event detail : string) : M State unit :=
  modify (fun s => set_log ((event, detail) :: log s) s).

(** [Transformation.query.filter_by(task_id=..., user_id=...).first()] *)
Definition query (task_id current_user_id : string) : M State (option Transformation.t) :=
  call Query ;;;
  s <- get ;;
  ret (find (fun r => (Transformation.task_id r =? task_id)%string
                      && (Transformation.user_id r =? current_user_id)%string)
         (transformations s)).

(** [db.session.commit()] with [transformation] the only changed object. *)
Definition commit (transformation : Transformation.t) : M State unit :=
  call Commit ;;;
  modify (fun s =>
    set_transformations
      (map (fun r => if (Transformation.id r =? Transformation.id transformation)%string
                     then transformation else r) (transformations s)) s).

(** [status not in ['pending', 'processing']] *)
Definition not_cancellable (st : transformation_status) : bool :=
  negb (status_eqb st pending || status_eqb st processing).

(** [db.session.rollback()] discards uncommitted changes; the state only
    holds committed rows, so there is nothing left to discard. *)
Definition cancel_transformation (current_user_id task_id : string) : M State response :=
  try_except
    (transformation <- query task_id current_user_id ;;
     match transformation with
     | None => ret (Error "Transformation not found" None, 404)
     | Some transformation =>
         if not_cancellable (Transformation.status transformation) then
           ret (Error "Cannot cancel transformation"
                  (Some (Transformation.status transformation)), 400)
         else
           call Revoke ;;;
           modify (fun s => set_revoked (task_id :: revoked s) s) ;;;
           let transformation := Transformation.set_status failed transformation in
           let transformation :=
             Transformation.set_error_message (Some "Cancelled by user") transformation in
           commit transformation ;;;
           logger "Transformation cancelled" task_id ;;;
           ret (Cancelled "Transformation cancelled" transformation, 200)
     end)
    (fun e =>
       logger "Cancel transformation error" e ;;;
       ret (Error "Failed to cancel transformation" None, 500)).

(** The JSON bodies of the read and delete endpoints. *)
Inductive reply : Type :=
| Refused (error : string) (status : option transformation_status)
| Found (transformation : Transformation.t)
| Result (transformation : Transformation.t) (download_url : option string)
| Done (message : string).

Definition get_transform_status (current_user_id task_id : string)
  : M State (reply * Z) :=
  try_except
    (transformation <- query task_id current_user_id ;;
     match transformation with
     | None => ret (Refused "Transformation not found" None, 404)
     | Some transformation => ret (Found transformation, 200)
     end)
    (fun e =>
       logger "Get status error" e ;;;
       ret (Refused "Failed to get transformation status" None, 500)).

Definition get_transform_result (current_user_id task_id : string)
  : M State (reply * Z) :=
  try_except
    (transformation <- query task_id current_user_id ;;
     match transformation with
     | None => ret (Refused "Transformation not found" None, 404)
     | Some transformation =>
         if negb (status_eqb (Transformation.status transformation) completed) then
           ret (Refused "Transformation not completed"
                  (Some (Transformation.status transformation)), 400)
         else
           ret (Result transformation (Transformation.result_url transformation), 200)
     end)
    (fun e =>
       logger "Get result error" e ;;;
       ret (Refused "Failed to get transformation result" None, 500)).

(** [storage_service.delete_file(url)], a call into the storage service:
    what it returns, or the exception it raises. *)
Variable delete_file : string -> result bool.

(** [db.session.delete(transformation); db.session.commit()] *)
Definition delete_and_commit (transformation : Transformation.t) : M State unit :=
  call Commit ;;;
  modify (fun s =>
    set_transformations
      (filter (fun r => negb (Transformation.id r =? Transformation.id transformation)%string)
         (transformations s)) s).

Definition delete_transformation (current_user_id task_id : string)
  : M State (reply * Z) :=
  try_except
    (transformation <- query task_id current_user_id ;;
     match transformation with
     | None => ret (Refused "Transformation not found" None, 404)
     | Some transformation =>
         try_except
           ((if negb (Transformation.original_url transformation =? "")%string
             then lift (delete_file (Transformation.original_url transformation)) ;;; ret tt
             else ret tt) ;;;
            (match Transformation.result_url transformation with
             | Some url =>
                 if negb (url =? "")%string then lift (delete_file url) ;;; ret tt
                 else ret tt
             | None => ret tt
             end))
           (fun e => logger "Failed to delete files from storage" e) ;;;
         delete_and_commit transformation ;;;
         logger "Transformation deleted" task_id ;;;
         ret (Done "Transformation deleted", 200)
     end)
    (fun e =>
       logger "Delete transformation error" e ;;;
       ret (Refused "Failed to delete transformation" None, 500)).

End WithEnv.

End TransformRoutes.

(* ================================================================== *)
(** ** routes/gallery.py *)
(* ================================================================== *)

Module GalleryRoutes.

Import Models.

Inductive site : Type :=
| GetJson              (* request.get_json() *)
| QueryTransformation  (* Transformation.query.filter_by(...).first() *)
| QueryGalleryItem     (* GalleryItem.query.filter_by(...).first() *)
| Commit.              (* db.session.commit() *)

Record Env := {
  faults : site -> option exn;
  uuid4 : string;             (* the primary key drawn for a new row *)
  token_urlsafe : string;     (* secrets.token_urlsafe(32) *)
  utcnow : Z
}.

Record State := {
  transformations : list Transformation.t;
  gallery_items : list GalleryItem.t;
  log : list (string * string)
}.

Definition set_gallery_items (v : list GalleryItem.t) (s : State) : State :=
  {| transformations := transformations s; gallery_items := v; log := log s |}.

Definition set_log (v : list (string * string)) (s : State) : State :=
  {| transformations := transformations s; gallery_items := gallery_items s; log := v |}.

(** The JSON object of a request body: a key is absent ([None]) or holds
    a value of the type the handler expects. *)
Record Data := {
  transformation_id : option string;
  title : option string;
  description : option string;
  tags : option (list string);
  is_public : option bool
}.

Inductive body : Type :=
| Error (error : string)
| Item (message : string) (gallery_item : GalleryItem.t).

Definition response : Type := body * Z.

(** Truth value of an optional string: [None] and [''] are false. *)
Definition truthy (v : option string) : bool :=
  match v with
  | Some s => negb (s =? "")%string
  | None => false
  end.

Definition get_default {A} (v : option A) (default : A) : A :=
  match v with
  | Some a => a
  | None => default
  end.

(** [','.join([tag.strip() for tag in tags if tag.strip()])] *)
Definition join_tags (tags : list string) : string :=
  String.concat ","
    (map strip (filter (fun tag => negb (strip tag =? "")%string) tags)).

Section WithEnv.

Variable env : Env.

Definition call (s : site) : M State unit :=
  match faults env s with
  | Some e => raise e
  | None => ret tt
  end.

Definition logger (event detail : string) : M State unit :=
  modify (fun s => set_log ((event, detail) :: log s) s).

Definition query_transformation (id current_user_id : string)
  : M State (option Transformation.t) :=
  call QueryTransformation ;;;
  s <- get ;;
  ret (find (fun r => (Transformation.id r =? id)%string
                      && (Transformation.user_id r =? current_user_id)%string)
         (transformations s)).

(** [GalleryItem.query.filter_by(transformation_id=..., user_id=...).first()] *)
Definition query_existing (transformation_id current_user_id : string)
  : M State (option GalleryItem.t) :=
  call QueryGalleryItem ;;;
  s <- get ;;
  ret (find (fun r => (GalleryItem.transformation_id r =? transformation_id)%string
                      && (GalleryItem.user_id r =? current_user_id)%string)
         (gallery_items s)).

(** [GalleryItem.query.filter_by(id=..., user_id=...).first()] *)
Definition query_item (gallery_item_id current_user_id : string)
  : M State (option GalleryItem.t) :=
  call QueryGalleryItem ;;;
  s <- get ;;
  ret (find (fun r => (GalleryItem.id r =? gallery_item_id)%string
                      && (GalleryItem.user_id r =? current_user_id)%string)
         (gallery_items s)).

(** [db.session.add(gallery_item); db.session.commit()] *)
Definition add_and_commit (gallery_item : GalleryItem.t) : M State unit :=
  call Commit ;;;
  modify (fun s => set_gallery_items (gallery_items s ++ [gallery_item]) s).

(** [db.session.commit()] with [gallery_item] the only changed object. *)
Definition commit (gallery_item : GalleryItem.t) : M State unit :=
  call Commit ;;;
  modify (fun s =>
    set_gallery_items
      (map (fun r => if (GalleryItem.id r =? GalleryItem.id gallery_item)%string
                     then gallery_item else r) (gallery_items s)) s).

Definition create_gallery_item (current_user_id : string) (data : Data) : M State response :=
  try_except
    (call GetJson ;;;
     if negb (truthy (transformation_id data)) || negb (truthy (title data)) then
       ret (Error "transformation_id and title are required", 400)
     else
       transformation <-
         query_transformation (get_default (transformation_id data) "") current_user_id ;;
       match transformation with
       | None => ret (Error "Transformation not found", 404)
       | Some transformation =>
           if negb (status_eqb (Transformation.status transformation) completed) then
             ret (Error "Transformation must be completed", 400)
           else
             existing_item <-
               query_existing (Transformation.id transformation) current_user_id ;;
             match existing_item with
             | Some _ =>
                 ret (Error "Gallery item already exists for this transformation", 409)
             | None =>
                 let gallery_item :=
                   {| GalleryItem.id := uuid4 env;
                      GalleryItem.user_id := current_user_id;
                      GalleryItem.transformation_id := Transformation.id transformation;
                      GalleryItem.title := strip (get_default (title data) "");
                      GalleryItem.description := strip (get_default (description data) "");
                      GalleryItem.tags := join_tags (get_default (tags data) []);
                      GalleryItem.is_public := get_default (is_public data) false;
                      GalleryItem.is_featured := false;
                      GalleryItem.share_token := None;
                      GalleryItem.view_count := 0;
                      GalleryItem.like_count := 0;
                      GalleryItem.download_count := 0;
                      GalleryItem.created_at := utcnow env;
                      GalleryItem.updated_at := utcnow env |} in
                 let gallery_item :=
                   if GalleryItem.is_public gallery_item
                   then GalleryItem.generate_share_token (token_urlsafe env) gallery_item
                   else gallery_item in
                 add_and_commit gallery_item ;;;
                 logger "Gallery item created" (GalleryItem.id gallery_item) ;;;
                 ret (Item "Gallery item created successfully" gallery_item, 201)
             end
       end)
    (fun e =>
       logger "Create gallery item error" e ;;;
       ret (Error "Failed to create gallery item", 500)).

(** The [if 'is_public' in data] block of [update_gallery_item]. *)
Definition apply_is_public (v : bool) (gallery_item : GalleryItem.t) : GalleryItem.t :=
  let gallery_item := GalleryItem.set_is_public v gallery_item in
  if GalleryItem.is_public gallery_item
     && negb (truthy (GalleryItem.share_token gallery_item)) then
    GalleryItem.generate_share_token (token_urlsafe env) gallery_item
  else if negb (GalleryItem.is_public gallery_item) then
    GalleryItem.set_share_token None gallery_item
  else gallery_item.

Definition apply_update (data : Data) (gallery_item : GalleryItem.t) : GalleryItem.t :=
  let gallery_item :=
    match title data with
    | Some v => GalleryItem.set_title (strip v) gallery_item
    | None => gallery_item
    end in
  let gallery_item :=
    match description data with
    | Some v => GalleryItem.set_description (strip v) gallery_item
    | None => gallery_item
    end in
  let gallery_item :=
    match tags data with
    | Some v => GalleryItem.set_tags (join_tags v) gallery_item
    | None => gallery_item
    end in
  let gallery_item :=
    match is_public data with
    | Some v => apply_is_public v gallery_item
    | None => gallery_item
    end in
  GalleryItem.set_updated_at (utcnow env) gallery_item.

Definition update_gallery_item (current_user_id gallery_item_id : string) (data : Data)
  : M State response :=
  try_except
    (gallery_item <- query_item gallery_item_id current_user_id ;;
     match gallery_item with
     | None => ret (Error "Gallery item not found", 404)
     | Some gallery_item =>
         call GetJson ;;;
         let gallery_item := apply_update data gallery_item in
         commit gallery_item ;;;
         logger "Gallery item updated" gallery_item_id ;;;
         ret (Item "Gallery item updated successfully" gallery_item, 200)
     end)
    (fun e =>
       logger "Update gallery item error" e ;;;
       ret (Error "Failed to update gallery item", 500)).

(** The JSON bodies of the read and delete endpoints. *)
Inductive reply : Type :=
| Refused (error : string)
| Shown (gallery_item : GalleryItem.t)
| Done (message : string).

(** [GalleryItem.query.get(gallery_item_id)] *)
Definition query_get (gallery_item_id : string) : M State (option GalleryItem.t) :=
  call QueryGalleryItem ;;;
  s <- get ;;
  ret (find (fun r => (GalleryItem.id r =? gallery_item_id)%string) (gallery_items s)).

(** What [get_jwt_identity()] hands to [get_gallery_item]: [None] for a
    request without a valid token, otherwise the identity the token was
    issued for, a string or a [uuid.UUID]. *)
Inductive identity : Type :=
| NoIdentity
| StrIdentity (s : string)
| UuidIdentity (u : string).

(** [gallery_item.user_id != current_user_id] in Python: the column holds
    a [uuid.UUID], which differs from [None] and from every string. *)
Definition is_other (gallery_item : GalleryItem.t) (current_user_id : identity) : bool :=
  match current_user_id with
  | UuidIdentity u => negb (GalleryItem.user_id gallery_item =? u)%string
  | StrIdentity _ => true
  | NoIdentity => true
  end.

Definition get_gallery_item (current_user_id : identity) (gallery_item_id : string)
  : M State (reply * Z) :=
  try_except
    (gallery_item <- query_get gallery_item_id ;;
     match gallery_item with
     | None => ret (Refused "Gallery item not found", 404)
     | Some gallery_item =>
         if negb (GalleryItem.is_public gallery_item) && is_other gallery_item current_user_id
         then ret (Refused "Access denied", 403)
         else
           if GalleryItem.is_public gallery_item && is_other gallery_item current_user_id
           then
             let gallery_item :=
               GalleryItem.set_view_count (GalleryItem.view_count gallery_item + 1)
                 gallery_item in
             commit gallery_item ;;;
             ret (Shown gallery_item, 200)
           else ret (Shown gallery_item, 200)
     end)
    (fun e =>
       logger "Get gallery item error" e ;;;
       ret (Refused "Failed to get gallery item", 500)).

(** [db.session.delete(gallery_item); db.session.commit()] *)
Definition delete_and_commit (gallery_item : GalleryItem.t) : M State unit :=
  call Commit ;;;
  modify (fun s =>
    set_gallery_items
      (filter (fun r => negb (GalleryItem.id r =? GalleryItem.id gallery_item)%string)
         (gallery_items s)) s).

Definition delete_gallery_item (current_user_id gallery_item_id : string)
  : M State (reply * Z) :=
  try_except
    (gallery_item <- query_item gallery_item_id current_user_id ;;
     match gallery_item with
     | None => ret (Refused "Gallery item not found", 404)
     | Some gallery_item =>
         delete_and_commit gallery_item ;;;
         logger "Gallery item deleted" gallery_item_id ;;;
         ret (Done "Gallery item deleted successfully", 200)
     end)
    (fun e =>
       logger "Delete gallery item error" e ;;;
       ret (Refused "Failed to delete gallery item", 500)).

(** [GalleryItem.query.filter_by(share_token=..., is_public=True).first()] *)
Definition query_shared (share_token : string) : M State (option GalleryItem.t) :=
  call QueryGalleryItem ;;;
  s <- get ;;
  ret (find (fun r =>
               match GalleryItem.share_token r with
               | Some tok => (tok =? share_token)%string
               | None => false
               end && GalleryItem.is_public r)
         (gallery_items s)).

Definition get_shared_gallery_item (share_token : string) : M State (reply * Z) :=
  try_except
    (gallery_item <- query_shared share_token ;;
     match gallery_item with
     | None => ret (Refused "Shared item not found", 404)
     | Some gallery_item =>
         let gallery_item :=
           GalleryItem.set_view_count (GalleryItem.view_count gallery_item + 1)
             gallery_item in
         commit gallery_item ;;;
         ret (Shown gallery_item, 200)
     end)
    (fun e =>
       logger "Get shared gallery item error" e ;;;
       ret (Refused "Failed to get shared item", 500)).

End WithEnv.

End GalleryRoutes.

(* ================================================================== *)
(** ** services/storage_service.py, the local backend *)
(* ================================================================== *)

Module StorageService.

(** An entry of the file system under a path. Paths are compared as
    strings. *)
Inductive entry : Type :=
| Directory (st_size st_mtime : Z)
| Regular (content : string) (st_mtime : Z).

(** The calls into [os] that may raise, by call site. *)
Inductive site : Type :=
| Makedirs    (* os.makedirs(folder_path, exist_ok=True) *)
| OpenWrite   (* open(file_path, 'wb') and f.write(...) *)
| Remove      (* os.remove(file_path) *)
| Stat.       (* os.stat(file_path) *)

Record Env := {
  faults : site -> option exn;
  now : Z                          (* the modification time of a write *)
}.

Record Storage := {
  local_storage_path : string;     (* self.local_storage_path *)
  files : list (string * entry);
  log : list (string * string)
}.

Definition set_files (v : list (string * entry)) (s : Storage) : Storage :=
  {| local_storage_path := local_storage_path s; files := v; log := log s |}.

Definition set_log (v : list (string * string)) (s : Storage) : Storage :=
  {| local_storage_path := local_storage_path s; files := files s; log := v |}.

Fixpoint lookup (path : string) (fs : list (string * entry)) : option entry :=
  match fs with
  | [] => None
  | (p, e) :: rest => if (p =? path)%string then Some e else lookup path rest
  end.

Definition unlink (path : string) (fs : list (string * entry)) : list (string * entry) :=
  filter (fun pe => negb (fst pe =? path)%string) fs.

Record FileInfo := {
  size : Z;
  last_modified : Z;
  content_type : string
}.

(** [self._get_content_type(filename)] *)
Definition content_types : list (string * string) :=
  [ (".jpg", "image/jpeg"); (".jpeg", "image/jpeg"); (".png", "image/png");
    (".webp", "image/webp"); (".gif", "image/gif") ].

Fixpoint dict_get (k : string) (d : list (string * string)) (default : string) : string :=
  match d with
  | [] => default
  | (k', v) :: rest => if (k' =? k)%string then v else dict_get k rest default
  end.

Definition _get_content_type (filename : string) : string :=
  let ext := lower (snd (splitext filename)) in
  dict_get ext content_types "application/octet-stream".

Section WithEnv.

Variable env : Env.

Definition call (s : site) : M Storage unit :=
  match faults env s with
  | Some e => raise e
  | None => ret tt
  end.

Definition logger (event detail : string) : M Storage unit :=
  modify (fun s => set_log ((event, detail) :: log s) s).

(** [os.makedirs(path, exist_ok=True)]: refuses a path that is a file. *)
Definition makedirs (path : string) : M Storage unit :=
  call Makedirs ;;;
  self <- get ;;
  match lookup path (files self) with
  | Some (Regular _ _) => raise ("[Errno 17] File exists: '" ++ path ++ "'")
  | Some (Directory _ _) => ret tt
  | None => modify (set_files ((path, Directory 4096 (now env)) :: files self))
  end.

(** [with open(path, 'wb') as f: f.write(data)] *)
Definition write_bytes (path data : string) : M Storage unit :=
  call OpenWrite ;;;
  self <- get ;;
  match lookup path (files self) with
  | Some (Directory _ _) => raise ("[Errno 21] Is a directory: '" ++ path ++ "'")
  | _ => modify (set_files ((path, Regular data (now env)) :: unlink path (files self)))
  end.

(** [os.remove(path)] on an existing path *)
Definition remove (path : string) : M Storage unit :=
  call Remove ;;;
  self <- get ;;
  match lookup path (files self) with
  | Some (Regular _ _) => modify (set_files (unlink path (files self)))
  | Some (Directory _ _) => raise ("[Errno 21] Is a directory: '" ++ path ++ "'")
  | None => raise ("[Errno 2] No such file or directory: '" ++ path ++ "'")
  end.

Definition _upload_bytes_to_local (file_bytes filename folder : string) : M Storage string :=
  try_except
    (self <- get ;;
     let folder_path := path_join (local_storage_path self) folder in
     makedirs folder_path ;;;
     let file_path := path_join folder_path filename in
     write_bytes file_path file_bytes ;;;
     let url := "/uploads/" ++ folder ++ "/" ++ filename in
     logger "Bytes uploaded locally" file_path ;;;
     ret url)
    (fun e => logger "Local bytes upload failed" e ;;; raise e).

Definition _delete_from_local (file_url : string) : M Storage bool :=
  try_except
    (self <- get ;;
     if startswith file_url "/uploads/" then
       let relative_path := drop 9 file_url in
       let file_path := path_join (local_storage_path self) relative_path in
       match lookup file_path (files self) with
       | Some _ =>
           remove file_path ;;;
           logger "File deleted locally" file_path ;;;
           ret true
       | None =>
           logger "File not found for deletion" file_path ;;;
           ret false
       end
     else
       logger "Invalid local file URL" file_url ;;;
       ret false)
    (fun e => logger "Local deletion failed" e ;;; ret false).

Definition _get_local_file_info (file_url : string) : M Storage (option FileInfo) :=
  try_except
    (self <- get ;;
     if startswith file_url "/uploads/" then
       let relative_path := drop 9 file_url in
       let file_path := path_join (local_storage_path self) relative_path in
       match lookup file_path (files self) with
       | Some e =>
           call Stat ;;;
           ret (Some {| size := match e with
                                | Regular content _ => len content
                                | Directory st_size _ => st_size
                                end;
                        last_modified := match e with
                                         | Regular _ st_mtime => st_mtime
                                         | Directory _ st_mtime => st_mtime
                                         end;
                        content_type := _get_content_type file_path |})
       | None => ret None
       end
     else ret None)
    (fun e => logger "Local file info failed" e ;;; ret None).

End WithEnv.

End StorageService.

(* ================================================================== *)
(** * Vocabulary of the properties *)
(* ================================================================== *)

(** ** Generation parameters *)

Section ParametersVocabulary.

Import Validators.

(** [x] is a finite float within the closed interval [lo, hi]. *)
Definition in_range (lo hi : Q) (x : pyfloat) : Prop :=
  exists q, x = Finite q /\ (lo <= q)%Q /\ (q <= hi)%Q.

(** The seed is absent or an integer of 32 bits. *)
Definition seed_ok (seed : seed_arg) : Prop :=
  seed = SeedNone \/ exists k, seed = SeedInt k /\ 0 <= k < 2 ^ 32.

End ParametersVocabulary.

(** ** File names *)

Section FileNameVocabulary.

Import Validators.

(** Every character of [s] satisfies [p]. *)
Fixpoint all_chars (p : ascii -> bool) (s : string) : bool :=
  match s with
  | EmptyString => true
  | String c rest => p c && all_chars p rest
  end.

Definition is_ascii (c : ascii) : bool := (nat_of_ascii c <? 128)%nat.

(** An ASCII letter, a digit, a hyphen, an underscore or a dot. *)
Definition safe_char (c : ascii) : bool :=
  let n := nat_of_ascii c in
  ((48 <=? n) && (n <=? 57) || (65 <=? n) && (n <=? 90) || (97 <=? n) && (n <=? 122)
   || (n =? 45) || (n =? 95) || (n =? 46))%nat.

Definition is_sep (c : ascii) : bool := Ascii.eqb c "_" || Ascii.eqb c ".".

(** No two neighbours of [s] are both an underscore or a dot. *)
Fixpoint separated (s : string) : bool :=
  match s with
  | EmptyString => true
  | String a rest =>
      match rest with
      | String b _ => negb (is_sep a && is_sep b)
      | EmptyString => true
      end && separated rest
  end.

End FileNameVocabulary.

(** ** The generation adapter *)

Section GenerationVocabulary.

Import DiffusionService.





(** A service on a CUDA device with nothing loaded. *)
Definition cold_service : Service :=
  {| cuda := true; models := []; controlnets := []; preprocessors := [];
     empty_cache_calls := 0; gc_collect_calls := 0; log := [] |}.

(** A backend that works except for the pipeline call, which raises [e]. *)
Definition failing_pipeline (e : exn) : Backend :=
  {| faults := fun s => match s with PipelineCall => Some e | _ => None end;
     has_xformers := false;
     pipeline_images := fun im => [im];
     gpu_allocated := 0;
     cpu_memory := 0 |}.

End GenerationVocabulary.

(** ** Cancellation *)

Section CancellationVocabulary.

Import Models TransformRoutes.

(** The record as [cancel_transformation] leaves it. *)
Definition cancelled (t : Transformation.t) : Transformation.t :=
  Transformation.set_error_message (Some "Cancelled by user")
    (Transformation.set_status failed t).

(** The lookup of [cancel_transformation]. *)
Definition owned_by (current_user_id task_id : string) (r : Transformation.t) : bool :=
  (Transformation.task_id r =? task_id)%string
  && (Transformation.user_id r =? current_user_id)%string.

(** A queue and a database that answer. *)
Definition no_faults : Env := {| faults := fun _ => None |}.

(** A table with the single job [task-1] of user [u-1], in status [st]. *)
Definition one_job (st : transformation_status) : State :=
  {| transformations :=
       [ Transformation.set_status st
           (new_transformation "t-1" "u-1" "task-1" "cat.jpg" "/uploads/originals/cat.jpg"
              "ukiyo-e-diffusion" "a wave") ];
     revoked := [];
     log := [] |}.

End CancellationVocabulary.

(** ** Gallery *)

Section GalleryVocabulary.

Import Models GalleryRoutes.

(** The items a user holds for a transformation. *)
Definition items_for (current_user_id transformation_id : string)
  (r : GalleryItem.t) : bool :=
  (GalleryItem.transformation_id r =? transformation_id)%string
  && (GalleryItem.user_id r =? current_user_id)%string.

(** At most one gallery item per transformation per user. *)
Definition one_item_per_pair (items : list GalleryItem.t) : Prop :=
  forall current_user_id transformation_id,
    (List.length (filter (items_for current_user_id transformation_id) items) <= 1)%nat.


End GalleryVocabulary.

(** A gallery request served without a database error. *)
Definition quiet_gallery : GalleryRoutes.Env :=
  {| GalleryRoutes.faults := fun _ => None;
     GalleryRoutes.uuid4 := "g-2";
     GalleryRoutes.token_urlsafe := "kT3xYw0";
     GalleryRoutes.utcnow := 1700000000000000 |}.

(** User [u-1] has one public item for the completed transformation [t-1]. *)
Definition shown_once : GalleryRoutes.State :=
  {| GalleryRoutes.transformations :=
       [ Models.Transformation.set_status Models.completed
           (TransformRoutes.new_transformation "t-1" "u-1" "task-1" "cat.jpg"
              "/uploads/originals/cat.jpg" "ukiyo-e-diffusion" "a wave") ];
     GalleryRoutes.gallery_items :=
       [ {| Models.GalleryItem.id := "g-1";
            Models.GalleryItem.user_id := "u-1";
            Models.GalleryItem.transformation_id := "t-1";
            Models.GalleryItem.title := "Wave";
            Models.GalleryItem.description := "";
            Models.GalleryItem.tags := "";
            Models.GalleryItem.is_public := true;
            Models.GalleryItem.is_featured := false;
            Models.GalleryItem.share_token := Some "a9Qd";
            Models.GalleryItem.view_count := 0;
            Models.GalleryItem.like_count := 0;
            Models.GalleryItem.download_count := 0;
            Models.GalleryItem.created_at := 1690000000000000;
            Models.GalleryItem.updated_at := 1690000000000000 |} ];
     GalleryRoutes.log := [] |}.

(** A body that names [t-1] again and asks for a private item. *)
Definition second_request : GalleryRoutes.Data :=
  {| GalleryRoutes.transformation_id := Some "t-1";
     GalleryRoutes.title := Some "Wave again";
     GalleryRoutes.description := None;
     GalleryRoutes.tags := None;
     GalleryRoutes.is_public := Some false |}.

(** ** The orchestration task *)

Section TaskVocabulary.

Import Models ImageProcessing.

(** A computation is [quiet] when it emits no notification. *)
Definition quiet {A} (m : M World A) : Prop :=
  forall w, emitted (snd (m w)) = emitted w.

(** [climbing lo hi l]: the percentages of [l] increase strictly, from
    above [lo] up to at most [hi]. *)
Fixpoint climbing (lo hi : Z) (l : list Z) : Prop :=
  match l with
  | [] => lo <= hi
  | p :: rest => lo < p /\ climbing p hi rest
  end.

(** Each percentage is at least the one before. *)
Fixpoint nondecreasing (l : list Z) : bool :=
  match l with
  | p :: (q :: _) as rest => (p <=? q) && nondecreasing rest
  | _ => true
  end.

(** The percentages of a batch of notifications, oldest first. *)
Definition percents (batch : list Notification.t) : list Z :=
  map Notification.progress (rev batch).

(** [emits_in lo hi m]: what [m] sends climbs from above [lo] to at most [hi]. *)
Definition emits_in (lo hi : Z) {A} (m : M World A) : Prop :=
  forall w, exists batch,
    emitted (snd (m w)) = (batch ++ emitted w)%list /\ climbing lo hi (percents batch).

(** The final notification of a failed run. *)
Definition failed_notification (task_id : string) (e : exn) (timestamp : Z)
  : Notification.t :=
  {| Notification.task_id := task_id;
     Notification.status := "failed";
     Notification.message := "Transformation failed: " ++ e;
     Notification.progress := 0;
     Notification.timestamp := timestamp |}.

(** [held task_id w]: the table has a row for the job, and the object the
    session holds, if any, is that row (same key, same task). A worker
    that starts with an empty session on an existing record is in this
    state. *)
Definition held (task_id : string) (w : World) : Prop :=
  exists row,
    find_by_task_id task_id (transformations w) = Some row /\
    match session_transformation w with
    | Some t => Transformation.task_id t = task_id /\
                Transformation.id t = Transformation.id row
    | None => True
    end.



(** [preserves f m]: [m] leaves the part [f] of the world as it found it. *)
Definition preserves {X A} (f : World -> X) (m : M World A) : Prop :=
  forall w, f (snd (m w)) = f w.

(** What the database session and the tables hold. *)
Definition database (w : World)
  : list Transformation.t * list User.t * option Transformation.t * option User.t :=
  (transformations w, users w, session_transformation w, session_user w).

(** [refuses m]: [m] leaves the generation service alone and does not
    return the completed result. *)
Definition refuses (m : M World task_result) : Prop :=
  forall w,
    service (snd (m w)) = service w /\
    match fst (m w) with
    | Ok (Completed _ _ _) => False
    | _ => True
    end.

End TaskVocabulary.

(** ** Scenarios *)

(** Libraries that answer: the pipeline hands back its input. *)
Definition healthy_backend : DiffusionService.Backend :=
  {| DiffusionService.faults := fun _ => None;
     DiffusionService.has_xformers := false;
     DiffusionService.pipeline_images := fun im => [im];
     DiffusionService.gpu_allocated := 0;
     DiffusionService.cpu_memory := 0 |}.

(** A worker on a given backend, with the given faults of its database
    and socket; uploads decode to a 512x384 image and the clock ticks once
    a second. *)
Definition worker (backend : DiffusionService.Backend)
  (faults : ImageProcessing.site -> option exn) : ImageProcessing.Env :=
  {| ImageProcessing.backend := backend;
     ImageProcessing.faults := faults;
     ImageProcessing.image_open := fun _ =>
       Ok {| DiffusionService.width := 512; DiffusionService.height := 384;
             DiffusionService.mode := "RGB" |};
     ImageProcessing.upload_image := fun _ name folder =>
       Ok ("/uploads/" ++ folder ++ "/" ++ name);
     ImageProcessing.uuid4 := "0b7e";
     ImageProcessing.utcnow_at := fun n => 1700000000000000 + 1000000 * Z.of_nat n;
     ImageProcessing.tobytes_length := fun im =>
       DiffusionService.width im * DiffusionService.height im * 3 |}.

(** A worker whose libraries, database, socket and store all answer. *)
Definition healthy : ImageProcessing.Env := worker healthy_backend (fun _ => None).

(** The world of a worker that picks up a job: the committed rows, an
    empty session, nothing sent yet. *)
Definition picked_up (rows : list Models.Transformation.t) : ImageProcessing.World :=
  {| ImageProcessing.transformations := rows;
     ImageProcessing.users :=
       [ {| Models.User.id := "u-1"; Models.User.total_transformations := 0 |} ];
     ImageProcessing.session_transformation := None;
     ImageProcessing.session_user := None;
     ImageProcessing.service := cold_service;
     ImageProcessing.emitted := [];
     ImageProcessing.log := [];
     ImageProcessing.clock_reads := 0 |}.

(** The job of [one_job], run with the given prompt. *)
Definition run_job (env : ImageProcessing.Env) (prompt : string)
  (rows : list Models.Transformation.t)
  : result ImageProcessing.task_result * ImageProcessing.World :=
  ImageProcessing.process_image_task env "task-1" "u-1" "JFIF" "0b7e_cat.jpg"
    "ukiyo-e-diffusion" prompt "" (Finite 0.8) (Finite 7.5) 20 Validators.SeedNone
    (picked_up rows).

(** The [status] column of the committed table. *)
Definition stored_statuses (w : ImageProcessing.World)
  : list Models.transformation_status :=
  map Models.Transformation.status (ImageProcessing.transformations w).


(** A 4x100 strip: fitted into 1024 pixels it keeps its size, and its
    width is below 8 pixels. *)
Definition strip_image : DiffusionService.Image :=
  {| DiffusionService.width := 4; DiffusionService.height := 100;
     DiffusionService.mode := "RGB" |}.

(** An upload that reads and decodes: 2048 bytes holding a 512x384 image. *)
Definition sound_upload : Validators.FileStorage :=
  {| Validators.file_seek := fun _ => Ok tt;
     Validators.file_tell := Ok 2048;
     Validators.pil_open := fun _ =>
       Ok {| Validators.img_verify := Ok tt; Validators.img_size := (512, 384) |} |}.

(** The gallery before any item exists: the completed transformation
    [t-1] of user [u-1]. *)
Definition empty_gallery : GalleryRoutes.State :=
  {| GalleryRoutes.transformations := GalleryRoutes.transformations shown_once;
     GalleryRoutes.gallery_items := [];
     GalleryRoutes.log := [] |}.

(** A body that asks for a public item for [t-1]. *)
Definition public_request : GalleryRoutes.Data :=
  {| GalleryRoutes.transformation_id := Some "t-1";
     GalleryRoutes.title := Some "Wave";
     GalleryRoutes.description := None;
     GalleryRoutes.tags := None;
     GalleryRoutes.is_public := Some true |}.

(** The gallery of [shown_once] with a public item of user [u-2] before
    it. *)
Definition two_shared : GalleryRoutes.State :=
  {| GalleryRoutes.transformations := GalleryRoutes.transformations shown_once;
     GalleryRoutes.gallery_items :=
       {| Models.GalleryItem.id := "g-0";
          Models.GalleryItem.user_id := "u-2";
          Models.GalleryItem.transformation_id := "t-0";
          Models.GalleryItem.title := "Fuji";
          Models.GalleryItem.description := "";
          Models.GalleryItem.tags := "";
          Models.GalleryItem.is_public := true;
          Models.GalleryItem.is_featured := false;
          Models.GalleryItem.share_token := Some "Zx81";
          Models.GalleryItem.view_count := 7;
          Models.GalleryItem.like_count := 0;
          Models.GalleryItem.download_count := 0;
          Models.GalleryItem.created_at := 1680000000000000;
          Models.GalleryItem.updated_at := 1680000000000000 |}
       :: GalleryRoutes.gallery_items shown_once;
     GalleryRoutes.log := [] |}.

(** A disk that answers, and the upload folder as [__init__] leaves it. *)
Definition local_disk : StorageService.Env :=
  {| StorageService.faults := fun _ => None;
     StorageService.now := 1700000000 |}.

Definition fresh_storage : StorageService.Storage :=
  {| StorageService.local_storage_path := "uploads";
     StorageService.files :=
       [ ("uploads", StorageService.Directory 4096 1690000000);
         ("uploads/originals", StorageService.Directory 4096 1690000000);
         ("uploads/results", StorageService.Directory 4096 1690000000) ];
     StorageService.log := [] |}.

(* ================================================================== *)
(** * Properties *)
(* ================================================================== *)

(** ** Reasoning about the monad *)

Ltac unfold_monad :=
  unfold try_finally, try_except, bind, ret, raise, lift, get, modify in *.

(** Running a sequence whose first step ended normally. *)
Lemma bind_Ok_eq {S A B} (m : M S A) (k : A -> M S B) (s : S) (a : A) (s1 : S) :
  m s = (Ok a, s1) -> bind m k s = k a s1.
Proof.
  intros H. unfold bind. rewrite H. reflexivity.
Qed.

(** Inverting a sequence that ended normally. *)
Lemma bind_Ok {S A B} (m : M S A) (k : A -> M S B) (s s' : S) (b : B) :
  bind m k s = (Ok b, s') ->
  exists a s1, m s = (Ok a, s1) /\ k a s1 = (Ok b, s').
Proof.
  unfold bind. destruct (m s) as [[a | e] s1]; [eauto | discriminate].
Qed.

(** ** Generation parameters *)

Section GenerationParameters.

Import Validators.

Lemma float_between_iff (lo hi : Q) (x : pyfloat) :
  float_le (Finite lo) x && float_le x (Finite hi) = true <-> in_range lo hi x.
Proof.
  unfold in_range. destruct x as [q| | |]; simpl.
  - rewrite andb_true_iff, !Qle_bool_iff. split.
    + intros [H1 H2]. exists q. auto.
    + intros (q' & Hq & H1 & H2). injection Hq as <-. auto.
  - split; [congruence | intros (q & Hq & _); discriminate].
  - split; [congruence | intros (q & Hq & _); discriminate].
  - split; [congruence | intros (q & Hq & _); discriminate].
Qed.

Lemma seed_check_iff (seed : seed_arg) :
  match seed with
  | SeedNone => true
  | SeedInt n => negb ((n <? 0) || (n >? 2 ^ 32 - 1))
  | SeedOther => false
  end = true <-> seed_ok seed.
Proof.
  unfold seed_ok. destruct seed as [|n|].
  - split; auto.
  - rewrite negb_true_iff, orb_false_iff, Z.ltb_ge, Z.gtb_ltb, Z.ltb_ge. split.
    + intros [H1 H2]. right. exists n. split; [reflexivity | lia].
    + intros [H | (k & Hk & Hr)]; [discriminate | injection Hk as <-; lia].
  - split; [congruence | intros [H | (k & Hk & _)]; discriminate].
Qed.

Lemma validate_generation_parameters_bool s g n seed :
  fst (validate_generation_parameters s g n seed) =
  (float_le (Finite 0.1) s && float_le s (Finite 1))
  && (float_le (Finite 1) g && float_le g (Finite 20))
  && ((10 <=? n) && (n <=? 100))
  && match seed with
     | SeedNone => true
     | SeedInt k => negb ((k <? 0) || (k >? 2 ^ 32 - 1))
     | SeedOther => false
     end.
Proof.
  unfold validate_generation_parameters.
  destruct (float_le (Finite 0.1) s && float_le s (Finite 1)); [| reflexivity].
  destruct (float_le (Finite 1) g && float_le g (Finite 20)); [| reflexivity].
  destruct ((10 <=? n) && (n <=? 100)); [| reflexivity].
  destruct seed as [|k|]; try reflexivity.
  destruct ((k <? 0) || (k >? 2 ^ 32 - 1)); reflexivity.
Qed.

Lemma validate_generation_parameters_iff s g n seed :
  fst (validate_generation_parameters s g n seed) = true <->
  in_range 0.1 1 s /\ in_range 1 20 g /\ 10 <= n <= 100 /\ seed_ok seed.
Proof.
  rewrite validate_generation_parameters_bool.
  rewrite <- !float_between_iff, <- seed_check_iff.
  rewrite !andb_true_iff, !Z.leb_le. tauto.
Qed.

(** C3. [validate_generation_parameters] rejects strength 0.05 and 1.01,
    guidance scale 0.5, 5 and 101 steps and seed -1, whatever the other
    arguments are; it accepts the boundary values strength 0.1 and 1.0 and
    10 and 100 steps (the other arguments at the defaults of the task);
    and in general it succeeds exactly when strength is in [0.1, 1.0],
    guidance scale is in [1.0, 20.0], the step count is in [10, 100] and
    the seed is absent or an integer in [0, 2^32). *)
Theorem validate_generation_parameters_spec :
  (forall g n seed, fst (validate_generation_parameters (Finite 0.05) g n seed) = false) /\
  (forall g n seed, fst (validate_generation_parameters (Finite 1.01) g n seed) = false) /\
  (forall s n seed, fst (validate_generation_parameters s (Finite 0.5) n seed) = false) /\
  (forall s g seed, fst (validate_generation_parameters s g 5 seed) = false) /\
  (forall s g seed, fst (validate_generation_parameters s g 101 seed) = false) /\
  (forall s g n, fst (validate_generation_parameters s g n (SeedInt (-1))) = false) /\
  fst (validate_generation_parameters (Finite 0.1) (Finite 7.5) 20 SeedNone) = true /\
  fst (validate_generation_parameters (Finite 1.0) (Finite 7.5) 20 SeedNone) = true /\
  fst (validate_generation_parameters (Finite 0.8) (Finite 7.5) 10 SeedNone) = true /\
  fst (validate_generation_parameters (Finite 0.8) (Finite 7.5) 100 SeedNone) = true /\
  (forall s g n seed,
     fst (validate_generation_parameters s g n seed) = true <->
     in_range 0.1 1 s /\ in_range 1 20 g /\ 10 <= n <= 100 /\ seed_ok seed).
Proof.
  assert (Hrej : forall s g n seed,
             ~ (in_range 0.1 1 s /\ in_range 1 20 g /\ 10 <= n <= 100 /\ seed_ok seed) ->
             fst (validate_generation_parameters s g n seed) = false).
  { intros s g n seed Hno.
    destruct (fst (validate_generation_parameters s g n seed)) eqn:E; [| reflexivity].
    apply validate_generation_parameters_iff in E. contradiction. }
  split; [intros; apply Hrej; intros ((q & Hq & H1 & _) & _);
          injection Hq as <-; revert H1; compute; auto |].
  split; [intros; apply Hrej; intros ((q & Hq & _ & H2) & _);
          injection Hq as <-; revert H2; compute; auto |].
  split; [intros; apply Hrej; intros (_ & (q & Hq & H1 & _) & _);
          injection Hq as <-; revert H1; compute; auto |].
  split; [intros; apply Hrej; intros (_ & _ & H & _); lia |].
  split; [intros; apply Hrej; intros (_ & _ & H & _); lia |].
  split; [intros; apply Hrej; intros (_ & _ & _ & [H | (k & Hk & H)]);
          [discriminate | injection Hk as <-; lia] |].
  repeat (split; [reflexivity |]).
  exact validate_generation_parameters_iff.
Qed.

End GenerationParameters.

(** ** Image validation *)

Section ImageValidation.

Import Validators.

(** The inner [try] block of [validate_image] never lets an exception
    out: its [except Exception] clause turns it into a verdict. *)
Lemma try_except_verdict (body : M Logger (bool * string))
  (event : string) (verdict : bool * string) (log : Logger) :
  exists v log',
    try_except body
      (fun e => log_error cons event e ;;; ret verdict) log = (Ok v, log').
Proof.
  unfold_monad. unfold log_error, modify.
  destruct (body log) as [[v | e] log']; eauto.
Qed.

(** C10. [validate_image] is total at its interface: whatever the
    environment variables hold and whatever the file object does when it is
    sought, measured or decoded (every such call may raise), the call
    returns a (boolean, message) pair and raises nothing. *)
Theorem validate_image_total (environ : string -> option string)
  (file : FileStorage) (log : Logger) :
  exists (is_valid : bool) (message : string) (log' : Logger),
    validate_image environ file log = (Ok (is_valid, message), log').
Proof.
  unfold validate_image.
  match goal with
  | |- exists _ _ _, try_except ?body _ _ = _ =>
      destruct (try_except_verdict body "File validation error"
                  (false, "File validation failed") log)
        as ([is_valid message] & log' & H)
  end.
  exists is_valid, message, log'. exact H.
Qed.

End ImageValidation.

(** ** Preprocessing *)

Section Preprocessing.

Import DiffusionService.

Lemma round_aspect_cases (number : Q) (key : Z -> Q) :
  round_aspect number key = Z.max (Qfloor number) 1 \/
  round_aspect number key = Z.max (Qceiling number) 1.
Proof.
  unfold round_aspect. destruct (Qle_bool _ _); auto.
Qed.

(** The rational arithmetic of [thumbnail], in integers. *)
Lemma Qfloor_times_aspect (y w : Z) (h : positive) :
  Qfloor (inject_Z y * (inject_Z w / inject_Z (Zpos h)))%Q = (y * w) / Zpos h.
Proof.
  unfold Qdiv, Qmult, Qinv, inject_Z, Qfloor. simpl. f_equal; lia.
Qed.

Lemma Qceiling_times_aspect (y w : Z) (h : positive) :
  Qceiling (inject_Z y * (inject_Z w / inject_Z (Zpos h)))%Q = - (- (y * w) / Zpos h).
Proof.
  unfold Qceiling, Qdiv, Qmult, Qinv, Qopp, inject_Z, Qfloor. simpl.
  f_equal. f_equal; lia.
Qed.

Lemma Qfloor_over_aspect (x : Z) (w h : positive) :
  Qfloor (inject_Z x / (inject_Z (Zpos w) / inject_Z (Zpos h)))%Q
  = (x * Zpos h) / Zpos w.
Proof.
  unfold Qdiv, Qmult, Qinv, inject_Z, Qfloor. simpl. f_equal; lia.
Qed.

Lemma Qceiling_over_aspect (x : Z) (w h : positive) :
  Qceiling (inject_Z x / (inject_Z (Zpos w) / inject_Z (Zpos h)))%Q
  = - (- (x * Zpos h) / Zpos w).
Proof.
  unfold Qceiling, Qdiv, Qmult, Qinv, Qopp, inject_Z, Qfloor. simpl.
  f_equal. f_equal; lia.
Qed.

Lemma div_bounds (a b : Z) : 0 < b -> (a / b) * b <= a < (a / b) * b + b.
Proof.
  intros Hb.
  pose proof (Z.mul_div_le a b Hb). pose proof (Z.mul_succ_div_gt a b Hb). nia.
Qed.

(** Either rounding of [a / b], raised to at least 1, is within one unit
    of the exact quotient when [a] is positive. *)
Lemma rounded_quotient (a b r : Z) :
  0 < a -> 0 < b ->
  r = Z.max (a / b) 1 \/ r = Z.max (- (- a / b)) 1 ->
  1 <= r /\ Z.abs (r * b - a) < b /\ (r - 1) * b < a.
Proof.
  intros Ha Hb Hr.
  pose proof (div_bounds a b Hb) as Hf.
  pose proof (div_bounds (- a) b Hb) as Hc.
  assert (0 <= a / b) by (apply Z.div_pos; lia).
  destruct Hr as [-> | ->].
  - destruct (Z.max_spec (a / b) 1) as [[Hlt ->] | [Hge ->]]; [| nia].
    assert (a / b = 0) as E by lia. rewrite E in Hf. lia.
  - destruct (Z.max_spec (- (- a / b)) 1) as [[Hlt ->] | [Hge ->]]; nia.
Qed.

(** The aspect comparison of [thumbnail] for a square box. *)
Lemma aspect_le_square (w h m : positive) :
  Qle_bool (inject_Z (Zpos w) / inject_Z (Zpos h))
           (inject_Z (Zpos m) / inject_Z (Zpos m)) = true <-> Zpos w <= Zpos h.
Proof.
  rewrite Qle_bool_iff.
  unfold Qle, Qdiv, Qmult, Qinv, inject_Z. simpl. nia.
Qed.

(** The size [thumbnail] leaves: it fits the box, no side vanishes, and
    the aspect ratio is the one of the input up to the rounding of one side
    to a whole pixel. *)
Lemma thumbnail_size_fits (w h max_size : Z) :
  0 < w -> 0 < h -> 0 < max_size ->
  let '(wt, ht) := thumbnail_size w h max_size max_size in
  1 <= wt <= max_size /\ 1 <= ht <= max_size /\
  Z.abs (wt * h - ht * w) < Z.max w h /\
  ((wt = w /\ ht = h) \/ Z.max wt ht = max_size).
Proof.
  intros Hw Hh Hm.
  destruct w as [|pw|pw]; try lia. destruct h as [|ph|ph]; try lia.
  destruct max_size as [|pm|pm]; try lia.
  unfold thumbnail_size, preserve_aspect_ratio.
  destruct ((Z.pos pm >=? Z.pos pw) && (Z.pos pm >=? Z.pos ph)) eqn:Hfit.
  - apply andb_true_iff in Hfit as [H1 H2].
    apply Z.geb_le in H1. apply Z.geb_le in H2. lia.
  - destruct (Qle_bool _ _) eqn:Hasp.
    + apply aspect_le_square in Hasp.
      destruct (round_aspect_cases
                  (inject_Z (Z.pos pm) * (inject_Z (Z.pos pw) / inject_Z (Z.pos ph)))
                  (fun n => Qabs (inject_Z (Z.pos pw) / inject_Z (Z.pos ph)
                                  - inject_Z n / inject_Z (Z.pos pm))%Q)) as [E | E];
        rewrite E; [rewrite Qfloor_times_aspect | rewrite Qceiling_times_aspect];
        match goal with
        | |- context [Z.max ?q 1] =>
            destruct (rounded_quotient (Z.pos pm * Z.pos pw) (Z.pos ph) (Z.max q 1))
              as (R1 & R2 & R3); [lia | lia | auto |]
        end; nia.
    + assert (Z.pos ph < Z.pos pw) as Hlt.
      { destruct (Z.le_gt_cases (Z.pos pw) (Z.pos ph)) as [Hle | Hgt]; [| lia].
        apply (aspect_le_square pw ph pm) in Hle. congruence. }
      destruct (round_aspect_cases
                  (inject_Z (Z.pos pm) / (inject_Z (Z.pos pw) / inject_Z (Z.pos ph)))
                  (fun n => if n =? 0 then 0%Q
                            else Qabs (inject_Z (Z.pos pw) / inject_Z (Z.pos ph)
                                       - inject_Z (Z.pos pm) / inject_Z n)%Q)) as [E | E];
        rewrite E; [rewrite Qfloor_over_aspect | rewrite Qceiling_over_aspect];
        match goal with
        | |- context [Z.max ?q 1] =>
            destruct (rounded_quotient (Z.pos pm * Z.pos ph) (Z.pos pw) (Z.max q 1))
              as (R1 & R2 & R3); [lia | lia | auto |]
        end; nia.
Qed.

Lemma floor8 (z : Z) : (8 | z / 8 * 8) /\ z - 8 < z / 8 * 8 <= z.
Proof.
  split.
  - exists (z / 8). reflexivity.
  - pose proof (div_bounds z 8). lia.
Qed.

(** What [preprocess_image] returns when no side of the fitted image is
    shorter than 8 pixels. *)
Lemma preprocess_image_fitted (image : Image) (max_size wt ht : Z) :
  thumbnail_size (width image) (height image) max_size max_size = (wt, ht) ->
  8 <= wt -> 8 <= ht ->
  exists out,
    preprocess_image image max_size = Ok out /\
    width out = wt / 8 * 8 /\ height out = ht / 8 * 8 /\ mode out = "RGB".
Proof.
  intros E Hwt Hht.
  unfold preprocess_image, thumbnail, resize. simpl. rewrite E. simpl.
  pose proof (floor8 wt) as [_ Bw]. pose proof (floor8 ht) as [_ Bh].
  assert ((wt / 8 * 8 <? 1) || (ht / 8 * 8 <? 1) = false) as ->.
  { apply orb_false_iff. split; apply Z.ltb_ge.
    - destruct (floor8 wt) as [[k Hk] _]. lia.
    - destruct (floor8 ht) as [[k Hk] _]. lia. }
  simpl. destruct (mode image =? "RGB")%string eqn:Hmode; simpl.
  - apply String.eqb_eq in Hmode. eexists. split; [reflexivity |]. simpl. auto.
  - eexists. split; [reflexivity |]. simpl. auto.
Qed.

(** C5, as the code has it. For every image with positive sides, width
    different from height, whose sides are both still at least 8 pixels
    once the image is fitted into the configured maximum, preprocessing
    returns an image whose width and height are positive multiples of 8,
    whose largest side is at most the configured maximum, and whose aspect
    ratio is the input's within one rounding unit of 8 pixels: with
    [w] x [h] the input and [w'] x [h'] the output,
    [|w' * h - h' * w| < 8 * max w h], that is, the shorter output side is
    less than 8 pixels away from the one that keeps the ratio exactly. *)
Theorem preprocess_image_dimensions (image : Image) (max_size : Z) :
  0 < width image -> 0 < height image -> 0 < max_size ->
  width image <> height image ->
  8 <= fst (thumbnail_size (width image) (height image) max_size max_size) ->
  8 <= snd (thumbnail_size (width image) (height image) max_size max_size) ->
  exists out,
    preprocess_image image max_size = Ok out /\
    (8 | width out) /\ (8 | height out) /\
    0 < width out /\ 0 < height out /\
    Z.max (width out) (height out) <= max_size /\
    Z.abs (width out * height image - height out * width image)
      < 8 * Z.max (width image) (height image).
Proof.
  intros Hw Hh Hm _ Hwt Hht.
  pose proof (thumbnail_size_fits (width image) (height image) max_size Hw Hh Hm) as Hfit.
  destruct (thumbnail_size (width image) (height image) max_size max_size)
    as [wt ht] eqn:E.
  simpl in Hwt, Hht. destruct Hfit as (Bw & Bh & Hasp & _).
  destruct (preprocess_image_fitted image max_size wt ht E Hwt Hht)
    as (out & Hout & Ew & Eh & _).
  exists out. split; [exact Hout |]. rewrite Ew, Eh.
  pose proof (floor8 wt) as [Dw Rw]. pose proof (floor8 ht) as [Dh Rh].
  split; [exact Dw |]. split; [exact Dh |].
  destruct Dw as [kw Hkw]. destruct Dh as [kh Hkh].
  split; [lia |]. split; [lia |]. split; [lia |].
  set (w' := wt / 8 * 8) in *. set (h' := ht / 8 * 8) in *.
  set (w := width image) in *. set (h := height image) in *.
  assert (0 <= wt - w' <= 7) as Aw by lia.
  assert (0 <= ht - h' <= 7) as Ah by lia.
  clearbody w' h' w h. clear Hkw Hkh Rw Rh Hout E.
  nia.
Qed.

(** An instance: a 2000x1500 RGBA upload becomes 1024x768. *)
Lemma preprocess_image_dimensions_witness :
  exists out,
    preprocess_image {| width := 2000; height := 1500; mode := "RGBA" |} 1024 = Ok out /\
    (8 | width out) /\ (8 | height out) /\
    0 < width out /\ 0 < height out /\
    Z.max (width out) (height out) <= 1024 /\
    Z.abs (width out * 1500 - height out * 2000) < 8 * Z.max 2000 1500.
Proof.
  apply (preprocess_image_dimensions
           {| width := 2000; height := 1500; mode := "RGBA" |} 1024);
    simpl; try lia; vm_compute; congruence.
Defined.

(** C5 as stated fails on a sliver: a 4x100 image fits the box untouched,
    its width is truncated to 0, and [resize] refuses the empty target, so
    no image is returned. *)
Lemma preprocess_image_sliver_counterexample :
  width {| width := 4; height := 100; mode := "RGB" |}
    <> height {| width := 4; height := 100; mode := "RGB" |} /\
  preprocess_image {| width := 4; height := 100; mode := "RGB" |} 1024
    = Raise "height and width must be > 0".
Proof.
  split; [simpl; lia | vm_compute; reflexivity].
Qed.

(** Every image [validate_image] lets through (sides between 64 and 2048
    pixels) keeps both sides above 8 pixels when fitted into 1024. *)
Lemma validated_images_keep_8_pixels (w h : Z) :
  64 <= w <= 2048 -> 64 <= h <= 2048 ->
  8 <= fst (thumbnail_size w h 1024 1024) /\ 8 <= snd (thumbnail_size w h 1024 1024).
Proof.
  intros Hw Hh.
  pose proof (thumbnail_size_fits w h 1024) as Hfit.
  destruct (thumbnail_size w h 1024 1024) as [wt ht]. simpl.
  destruct Hfit as (Bw & Bh & Hasp & Hlong); try lia.
  destruct Hlong as [[-> ->] | Hmax]; [lia |].
  destruct (Z.max_spec wt ht) as [[_ Em] | [_ Em]]; rewrite Em in Hmax; subst; nia.
Qed.

End Preprocessing.

(** ** The generation adapter *)

Section Generation.

Import DiffusionService.

Variable backend : Backend.















(** Both loaders turn every exception into [False]. *)
Lemma load_model_returns (model_name : string) (s : Service) :
  exists loaded s', load_model backend model_name s = (Ok loaded, s').
Proof.
  unfold load_model, try_except.
  match goal with |- context [match ?b s with _ => _ end] => destruct (b s) as [[v | e] s1] end.
  - eauto.
  - unfold bind, logger, modify, ret. eauto.
Qed.











End Generation.


(** The three exits of [generate_image] on a CUDA device: a generated
    image and a pipeline error each come with one [empty_cache] call; the
    early return for a model that cannot be loaded comes with none. *)
Lemma generate_image_exits :
  let image := {| DiffusionService.width := 512; DiffusionService.height := 384;
                  DiffusionService.mode := "RGB" |} in
  let run backend model_name :=
    DiffusionService.generate_image backend image "a print" model_name ""
      (Finite 0.8) (Finite 7.5) 20 None None cold_service in
  (fst (run healthy_backend "stable-diffusion-v1-5") = Ok (Some image) /\
   DiffusionService.empty_cache_calls (snd (run healthy_backend "stable-diffusion-v1-5"))
     = 1%nat) /\
  (fst (run (failing_pipeline "CUDA out of memory") "stable-diffusion-v1-5") = Ok None /\
   DiffusionService.empty_cache_calls
     (snd (run (failing_pipeline "CUDA out of memory") "stable-diffusion-v1-5")) = 1%nat) /\
  (fst (run healthy_backend "no-such-model") = Ok None /\
   DiffusionService.empty_cache_calls (snd (run healthy_backend "no-such-model")) = 0%nat).
Proof.
  repeat split; vm_compute; reflexivity.
Qed.

(** ** Cancellation *)

Section Cancellation.

Import Models TransformRoutes.

(** Replacing the rows that carry the key of [t'] leaves [t'] where a
    lookup used to find the row it replaces. *)
Lemma find_after_replace {R : Type} (key : R -> string) (p : R -> bool)
  (rows : list R) (t t' : R) :
  find p rows = Some t -> key t' = key t -> p t' = true ->
  find p (map (fun r => if (key r =? key t')%string then t' else r) rows) = Some t'.
Proof.
  intros Hfind Hkey Hp. induction rows as [| r rows IH]; simpl in *; [discriminate |].
  destruct (p r) eqn:Hr.
  - injection Hfind as ->. rewrite Hkey, String.eqb_refl, Hp. reflexivity.
  - destruct (key r =? key t')%string; [rewrite Hp | rewrite Hr]; auto.
Qed.

(** C6. Let the transformation [t] be the one a cancel request of its
    owner refers to. If [t] is [completed] or [failed], the request is
    rejected and nothing is written: the table is unchanged, the queue is
    not asked to revoke anything, and the answer is the 400 "Cannot cancel
    transformation" (a 500 when the lookup itself raises). If [t] is
    [pending] or [processing] and neither the queue nor the database
    raises, the answer is 200 and the record is stored with status
    [failed] and error message "Cancelled by user", its other fields as
    they were. *)
Theorem cancel_transformation_spec (env : Env) (current_user_id task_id : string)
  (s : State) (t : Transformation.t) :
  find (owned_by current_user_id task_id) (transformations s) = Some t ->
  (Transformation.status t = completed \/ Transformation.status t = failed ->
     transformations (snd (cancel_transformation env current_user_id task_id s))
       = transformations s /\
     revoked (snd (cancel_transformation env current_user_id task_id s)) = revoked s /\
     (fst (cancel_transformation env current_user_id task_id s)
        = Ok (Error "Cannot cancel transformation" (Some (Transformation.status t)), 400) \/
      faults env Query <> None /\
      fst (cancel_transformation env current_user_id task_id s)
        = Ok (Error "Failed to cancel transformation" None, 500))) /\
  (Transformation.status t = pending \/ Transformation.status t = processing ->
     (forall site, faults env site = None) ->
     fst (cancel_transformation env current_user_id task_id s)
       = Ok (Cancelled "Transformation cancelled" (cancelled t), 200) /\
     find (owned_by current_user_id task_id)
       (transformations (snd (cancel_transformation env current_user_id task_id s)))
       = Some (cancelled t) /\
     Transformation.status (cancelled t) = failed /\
     Transformation.error_message (cancelled t) = Some "Cancelled by user").
Proof.
  intros Hfind.
  unfold cancel_transformation, query, commit, call, logger.
  fold (owned_by current_user_id task_id).
  split.
  - intros Hterminal.
    assert (not_cancellable (Transformation.status t) = true) as Hnc
      by (destruct Hterminal as [-> | ->]; reflexivity).
    unfold_monad. destruct (faults env Query) as [e |] eqn:HQ; simpl.
    + repeat split; auto. right. split; [discriminate | reflexivity].
    + rewrite Hfind, Hnc. simpl. auto.
  - intros Hlive Hok.
    assert (not_cancellable (Transformation.status t) = false) as Hnc
      by (destruct Hlive as [-> | ->]; reflexivity).
    unfold_monad. rewrite !Hok. simpl. rewrite Hfind, Hnc. simpl.
    split; [reflexivity |]. split; [| split; reflexivity].
    apply (find_after_replace Transformation.id (owned_by current_user_id task_id)
             (transformations s) t (cancelled t) Hfind); [reflexivity |].
    apply find_some in Hfind as [_ Hp]. exact Hp.
Qed.

(** An instance: cancelling a pending job of one's own. *)
Lemma cancel_transformation_spec_witness :
  fst (cancel_transformation no_faults "u-1" "task-1" (one_job pending))
    = Ok (Cancelled "Transformation cancelled"
            (cancelled (Transformation.set_status pending
               (new_transformation "t-1" "u-1" "task-1" "cat.jpg"
                  "/uploads/originals/cat.jpg" "ukiyo-e-diffusion" "a wave"))), 200).
Proof.
  pose proof (cancel_transformation_spec no_faults "u-1" "task-1" (one_job pending)
                (Transformation.set_status pending
                   (new_transformation "t-1" "u-1" "task-1" "cat.jpg"
                      "/uploads/originals/cat.jpg" "ukiyo-e-diffusion" "a wave"))
                eq_refl) as [_ Hlive].
  apply Hlive; [left; reflexivity | intros site; reflexivity].
Defined.

End Cancellation.

(** ** Gallery *)

Section Gallery.

Import Models GalleryRoutes.

Variable env : Env.

Lemma find_none_filter {A} (p : A -> bool) (l : list A) :
  find p l = None -> filter p l = [].
Proof.
  induction l as [| a l IH]; simpl; [reflexivity |].
  destruct (p a); [discriminate | exact IH].
Qed.

(** Whatever happens, [create_gallery_item] answers, and it leaves the
    table as it was unless it answers 201 with the one item it appended,
    for which the lookup of existing items had found nothing. *)
Lemma create_gallery_item_cases (current_user_id : string) (data : Data) (s : State) :
  exists body code s',
    create_gallery_item env current_user_id data s = (Ok (body, code), s') /\
    ((code <> 201 /\ gallery_items s' = gallery_items s) \/
     (exists item,
        code = 201 /\ body = Item "Gallery item created successfully" item /\
        gallery_items s' = (gallery_items s ++ [item])%list /\
        GalleryItem.user_id item = current_user_id /\
        GalleryItem.is_public item = get_default (is_public data) false /\
        GalleryItem.share_token item
          = (if get_default (is_public data) false then Some (token_urlsafe env) else None) /\
        find (items_for current_user_id (GalleryItem.transformation_id item))
          (gallery_items s) = None)).
Proof.
  unfold create_gallery_item, query_transformation, query_existing, add_and_commit,
    call, logger.
  unfold_monad.
  destruct (faults env GetJson); simpl;
    [do 3 eexists; split; [reflexivity | left; split; [lia | reflexivity]] |].
  destruct (negb (truthy (transformation_id data)) || negb (truthy (title data))); simpl;
    [do 3 eexists; split; [reflexivity | left; split; [lia | reflexivity]] |].
  destruct (faults env QueryTransformation); simpl;
    [do 3 eexists; split; [reflexivity | left; split; [lia | reflexivity]] |].
  destruct (find _ (transformations s)) as [t |]; simpl;
    [| do 3 eexists; split; [reflexivity | left; split; [lia | reflexivity]]].
  destruct (negb (status_eqb (Transformation.status t) completed)); simpl;
    [do 3 eexists; split; [reflexivity | left; split; [lia | reflexivity]] |].
  destruct (faults env QueryGalleryItem); simpl;
    [do 3 eexists; split; [reflexivity | left; split; [lia | reflexivity]] |].
  fold (items_for current_user_id (Transformation.id t)).
  destruct (find (items_for current_user_id (Transformation.id t)) (gallery_items s))
    as [existing |] eqn:Hexisting; simpl;
    [do 3 eexists; split; [reflexivity | left; split; [lia | reflexivity]] |].
  destruct (faults env Commit); simpl;
    [do 3 eexists; split; [reflexivity | left; split; [lia | reflexivity]] |].
  do 3 eexists. split; [reflexivity |]. right. eexists.
  split; [reflexivity |]. split; [reflexivity |]. split; [reflexivity |].
  destruct (get_default (is_public data) false) eqn:Hpub; simpl; rewrite ?Hpub; auto.
Qed.

Lemma one_item_per_pair_append (items : list GalleryItem.t) (item : GalleryItem.t) :
  one_item_per_pair items ->
  find (items_for (GalleryItem.user_id item) (GalleryItem.transformation_id item))
    items = None ->
  one_item_per_pair (items ++ [item])%list.
Proof.
  intros Hone Hnone u tid. rewrite filter_app, length_app. simpl.
  destruct (items_for u tid item) eqn:Hmatch; simpl; [| specialize (Hone u tid); lia].
  unfold items_for in Hmatch. apply andb_true_iff in Hmatch as [H1 H2].
  apply String.eqb_eq in H1. apply String.eqb_eq in H2. subst u tid.
  rewrite (find_none_filter _ _ Hnone). simpl. lia.
Qed.

(** C7. In a table with at most one gallery item per transformation per
    user, [create_gallery_item] keeps it so. A request of a user who
    already holds an item for the transformation it names creates nothing:
    the table is unchanged and the answer is not 201; the answer is the
    409 conflict whenever the request reaches the duplicate check, that
    is, when it carries a title, the transformation is the user's and is
    completed, and no database call raises. *)
Theorem create_gallery_item_conflict (current_user_id : string) (data : Data) (s : State) :
  one_item_per_pair (gallery_items s) ->
  one_item_per_pair (gallery_items (snd (create_gallery_item env current_user_id data s))) /\
  (forall tid existing,
     transformation_id data = Some tid ->
     find (items_for current_user_id tid) (gallery_items s) = Some existing ->
     gallery_items (snd (create_gallery_item env current_user_id data s))
       = gallery_items s /\
     (exists body code,
        fst (create_gallery_item env current_user_id data s) = Ok (body, code) /\
        code <> 201) /\
     (forall t,
        tid <> "" -> truthy (title data) = true ->
        find (fun r => (Transformation.id r =? tid)%string
                       && (Transformation.user_id r =? current_user_id)%string)
          (transformations s) = Some t ->
        Transformation.status t = completed ->
        (forall site, faults env site = None) ->
        fst (create_gallery_item env current_user_id data s)
          = Ok (Error "Gallery item already exists for this transformation", 409))).
Proof.
  intros Hone. split.
  - destruct (create_gallery_item_cases current_user_id data s)
      as (body & code & s' & Hrun & [[_ Hsame] | (item & _ & _ & Happ & Hu & _ & _ & Hnone)]);
      rewrite Hrun; simpl.
    + rewrite Hsame. exact Hone.
    + rewrite Happ. apply one_item_per_pair_append; [exact Hone |].
      rewrite Hu. exact Hnone.
  - intros tid existing Htid Hexisting.
    assert (Hconflict : forall t,
               tid <> "" -> truthy (title data) = true ->
               find (fun r => (Transformation.id r =? tid)%string
                              && (Transformation.user_id r =? current_user_id)%string)
                 (transformations s) = Some t ->
               Transformation.status t = completed ->
               (forall site, faults env site = None) ->
               create_gallery_item env current_user_id data s
               = (Ok (Error "Gallery item already exists for this transformation", 409), s)).
    { intros t Hne Htitle Ht Hst Hok.
      unfold create_gallery_item, query_transformation, query_existing, call.
      unfold_monad. rewrite !Hok. simpl.
      assert (truthy (transformation_id data) = true) as ->.
      { rewrite Htid. simpl. apply negb_true_iff. apply String.eqb_neq. exact Hne. }
      rewrite Htitle, Htid. simpl. rewrite Ht. simpl. rewrite Hst. simpl.
      apply find_some in Ht as [_ Hp]. apply andb_true_iff in Hp as [Hid _].
      apply String.eqb_eq in Hid. rewrite Hid.
      fold (items_for current_user_id tid). rewrite Hexisting. reflexivity. }
    destruct (create_gallery_item_cases current_user_id data s)
      as (body & code & s' & Hrun &
          [[Hcode Hsame] | (item & -> & _ & Happ & Hu & _ & _ & Hnone)]).
    + rewrite Hrun. simpl. split; [exact Hsame |]. split; [eauto |].
      intros t Hne Htitle Ht Hst Hok.
      rewrite (Hconflict t Hne Htitle Ht Hst Hok) in Hrun.
      injection Hrun as <- <- <-. reflexivity.
    + exfalso.
      (* the appended item names the transformation of the request *)
      revert Hrun.
      unfold create_gallery_item, query_transformation, query_existing, add_and_commit,
        call, logger.
      unfold_monad.
      destruct (faults env GetJson); simpl; [intros H; injection H; lia |].
      destruct (negb (truthy (transformation_id data)) || negb (truthy (title data)));
        simpl; [intros H; injection H; lia |].
      destruct (faults env QueryTransformation); simpl; [intros H; injection H; lia |].
      rewrite Htid. simpl.
      destruct (find _ (transformations s)) as [t |] eqn:Ht; simpl;
        [| intros H; injection H; lia].
      apply find_some in Ht as [_ Hp]. apply andb_true_iff in Hp as [Hid _].
      apply String.eqb_eq in Hid. rewrite Hid.
      destruct (negb (status_eqb (Transformation.status t) completed)); simpl;
        [intros H; injection H; lia |].
      destruct (faults env QueryGalleryItem); simpl; [intros H; injection H; lia |].
      fold (items_for current_user_id tid). rewrite Hexisting. simpl.
      intros H; injection H; lia.
Qed.





End Gallery.

Lemma shown_once_one_item_per_pair :
  one_item_per_pair (GalleryRoutes.gallery_items shown_once).
Proof.
  intros u tid. simpl. destruct (items_for u tid _); simpl; lia.
Qed.

(** An instance: a second item for the same transformation is refused
    with 409 and the table keeps its single item. *)
Lemma create_gallery_item_conflict_witness :
  fst (GalleryRoutes.create_gallery_item quiet_gallery "u-1" second_request shown_once)
    = Ok (GalleryRoutes.Error "Gallery item already exists for this transformation", 409)
  /\ GalleryRoutes.gallery_items
       (snd (GalleryRoutes.create_gallery_item quiet_gallery "u-1" second_request shown_once))
     = GalleryRoutes.gallery_items shown_once.
Proof.
  destruct (create_gallery_item_conflict quiet_gallery "u-1" second_request shown_once
              shown_once_one_item_per_pair) as [_ Hdup].
  destruct (Hdup "t-1" _ eq_refl eq_refl) as (Hsame & _ & H409).
  split; [| exact Hsame].
  apply (H409 _ ltac:(discriminate) eq_refl eq_refl eq_refl).
  intros site. reflexivity.
Defined.


(** ** The orchestration task *)

Section Task.

Import Models ImageProcessing.

Variable env : Env.

(** *** Steps that send nothing *)

Lemma quiet_ret {A} (a : A) : quiet (ret a).
Proof. intros w. reflexivity. Qed.

Lemma quiet_raise {A} (e : exn) : quiet (@raise World A e).
Proof. intros w. reflexivity. Qed.

Lemma quiet_lift {A} (r : result A) : quiet (lift r).
Proof. intros w. reflexivity. Qed.

Lemma quiet_get : quiet (@get World).
Proof. intros w. reflexivity. Qed.

Lemma quiet_modify (f : World -> World) :
  (forall w, emitted (f w) = emitted w) -> quiet (modify f).
Proof. intros Hf w. simpl. apply Hf. Qed.

Lemma quiet_bind {A B} (m : M World A) (k : A -> M World B) :
  quiet m -> (forall a, quiet (k a)) -> quiet (bind m k).
Proof.
  intros Hm Hk w. unfold bind. specialize (Hm w).
  destruct (m w) as [[a | e] w1]; simpl in *; [| exact Hm].
  rewrite (Hk a w1). exact Hm.
Qed.

Lemma quiet_try_except {A} (body : M World A) (handler : exn -> M World A) :
  quiet body -> (forall e, quiet (handler e)) -> quiet (try_except body handler).
Proof.
  intros Hm Hk w. unfold try_except. specialize (Hm w).
  destruct (body w) as [[a | e] w1]; simpl in *; [exact Hm |].
  rewrite (Hk e w1). exact Hm.
Qed.

Lemma quiet_call (s : site) : quiet (call env s).
Proof. unfold call. destruct (faults env s); [apply quiet_raise | apply quiet_ret]. Qed.

Lemma quiet_in_service {A} (m : M DiffusionService.Service A) : quiet (in_service m).
Proof. intros w. unfold in_service. destruct (m (service w)). reflexivity. Qed.

Ltac quiet_step :=
  cbv beta;
  lazymatch goal with
  | |- quiet (bind _ _) => apply quiet_bind; [| intros ?]
  | |- quiet (try_except _ _) => apply quiet_try_except; [| intros ?]
  | |- quiet (ret _) => apply quiet_ret
  | |- quiet (raise _) => apply quiet_raise
  | |- quiet (lift _) => apply quiet_lift
  | |- quiet get => apply quiet_get
  | |- quiet (call _ _) => apply quiet_call
  | |- quiet (in_service _) => apply quiet_in_service
  | |- quiet (modify _) => apply quiet_modify; intros ?; reflexivity
  | |- quiet (if ?b then _ else _) => destruct b
  | |- quiet (match ?x with _ => _ end) => destruct x
  end.

Lemma quiet_logger (event detail : string) : quiet (logger event detail).
Proof. unfold logger. repeat quiet_step. Qed.

Lemma quiet_utcnow : quiet (utcnow env).
Proof. unfold utcnow. repeat quiet_step. Qed.

Lemma quiet_query_transformation (s : site) (task_id : string) :
  quiet (query_transformation env s task_id).
Proof. unfold query_transformation. repeat quiet_step. Qed.

Lemma quiet_query_user (user_id : string) : quiet (query_user env user_id).
Proof. unfold query_user. repeat quiet_step. Qed.

Lemma quiet_assign (f : Transformation.t -> Transformation.t) : quiet (assign f).
Proof. unfold assign. repeat quiet_step. Qed.

Lemma quiet_commit (s : site) : quiet (commit env s).
Proof. unfold commit. repeat quiet_step. Qed.

Lemma quiet_since_started (now : Z) : quiet (since_started now).
Proof. unfold since_started. repeat quiet_step. Qed.

Lemma quiet_clean_up : quiet (clean_up env).
Proof. unfold clean_up. repeat quiet_step. Qed.

Ltac quiet_auto :=
  repeat first
    [ apply quiet_logger
    | apply quiet_utcnow
    | apply quiet_query_transformation
    | apply quiet_query_user
    | apply quiet_assign
    | apply quiet_commit
    | apply quiet_since_started
    | apply quiet_clean_up
    | quiet_step ].

(** *** The percentages a step sends *)

Lemma climbing_bounds (lo hi : Z) (l : list Z) : climbing lo hi l -> lo <= hi.
Proof.
  revert lo. induction l as [| p l IH]; simpl; intros lo H; [exact H |].
  destruct H as [H1 H2]. apply IH in H2. lia.
Qed.

Lemma climbing_lower (lo lo' hi : Z) (l : list Z) :
  lo' <= lo -> climbing lo hi l -> climbing lo' hi l.
Proof.
  destruct l as [| p l]; simpl; intros Hlo H; [lia |].
  destruct H as [H1 H2]. split; [lia | exact H2].
Qed.

Lemma climbing_app (lo mid hi : Z) (l1 l2 : list Z) :
  climbing lo mid l1 -> climbing mid hi l2 -> climbing lo hi (l1 ++ l2)%list.
Proof.
  revert lo. induction l1 as [| p l1 IH]; simpl; intros lo H1 H2.
  - apply (climbing_lower mid); assumption.
  - destruct H1 as [Hp H1]. split; [exact Hp | apply IH; assumption].
Qed.

Lemma climbing_nondecreasing (lo hi : Z) (l : list Z) :
  climbing lo hi l -> nondecreasing l = true.
Proof.
  revert lo. induction l as [| p l IH]; intros lo H; [reflexivity |].
  destruct H as [_ H]. destruct l as [| q l]; [reflexivity |].
  change (((p <=? q) && nondecreasing (q :: l)) = true).
  rewrite (IH p H). destruct H as [Hq _].
  apply andb_true_iff. split; [apply Z.leb_le; lia | reflexivity].
Qed.

Lemma emits_in_quiet (lo hi : Z) {A} (m : M World A) :
  lo <= hi -> quiet m -> emits_in lo hi m.
Proof.
  intros Hle Hq w. exists []. split; [apply Hq | exact Hle].
Qed.

Lemma emits_in_bind (lo mid hi : Z) {A B} (m : M World A) (k : A -> M World B) :
  mid <= hi ->
  emits_in lo mid m -> (forall a, emits_in mid hi (k a)) -> emits_in lo hi (bind m k).
Proof.
  intros Hle Hm Hk w. unfold bind. destruct (Hm w) as (b1 & E1 & C1).
  destruct (m w) as [[a | e] w1]; simpl in *.
  - destruct (Hk a w1) as (b2 & E2 & C2).
    exists (b2 ++ b1)%list. split.
    + rewrite E2, E1. apply app_assoc.
    + unfold percents in *. rewrite rev_app_distr, map_app.
      apply (climbing_app lo mid hi); assumption.
  - exists b1. split; [exact E1 |].
    rewrite <- (app_nil_r (percents b1)).
    apply (climbing_app lo mid hi); [exact C1 | exact Hle].
Qed.

Lemma emits_in_emit (lo : Z) (task_id status message : string) (progress : Z) :
  lo < progress ->
  emits_in lo progress (emit_progress_update env task_id status message progress).
Proof.
  intros Hlt w.
  unfold emit_progress_update, utcnow, call, logger. unfold_monad.
  destruct (faults env (SocketImport progress)); simpl;
    [exists []; split; [reflexivity | simpl; lia] |].
  destruct (faults env (SocketEmit progress)); simpl;
    [exists []; split; [reflexivity | simpl; lia] |].
  eexists [_]. split; [reflexivity |]. simpl. lia.
Qed.

Ltac emits_step :=
  cbv beta zeta;
  lazymatch goal with
  | |- emits_in ?lo ?hi (bind (emit_progress_update _ _ _ _ ?p) _) =>
      apply (emits_in_bind lo p hi); [lia | apply emits_in_emit; lia | intros ?]
  | |- emits_in ?lo ?hi (bind _ _) =>
      apply (emits_in_bind lo lo hi);
        [lia | apply emits_in_quiet; [lia | quiet_auto] | intros ?]
  | |- emits_in _ _ (if ?b then _ else _) => destruct b
  | |- emits_in _ _ (match ?x with _ => _ end) => destruct x
  | |- emits_in _ _ _ => apply emits_in_quiet; [lia | quiet_auto]
  end.

(** The phases send 10, 20, 30, 40, 80 and 100 in this order, each at most once. *)
Lemma run_phases_climbs (task_id user_id image_data filename model_name
  prompt negative_prompt : string) (strength guidance_scale : pyfloat)
  (num_inference_steps : Z) (seed : Validators.seed_arg) :
  emits_in 0 100
    (run_phases env task_id user_id image_data filename model_name prompt
       negative_prompt strength guidance_scale num_inference_steps seed).
Proof.
  unfold run_phases. repeat emits_step.
Qed.

(** [emit_progress_update] never raises and touches nothing but the log,
    the clock and the socket; the notification goes out unless the socket
    raises. *)
Lemma emit_progress_update_spec (task_id status message : string) (progress : Z)
  (w : World) :
  exists w',
    emit_progress_update env task_id status message progress w = (Ok tt, w') /\
    transformations w' = transformations w /\
    (emitted w' = emitted w \/
     exists timestamp,
       emitted w' =
         {| Notification.task_id := task_id; Notification.status := status;
            Notification.message := message; Notification.progress := progress;
            Notification.timestamp := timestamp |} :: emitted w) /\
    (faults env (SocketImport progress) = None ->
     faults env (SocketEmit progress) = None ->
     exists timestamp,
       emitted w' =
         {| Notification.task_id := task_id; Notification.status := status;
            Notification.message := message; Notification.progress := progress;
            Notification.timestamp := timestamp |} :: emitted w).
Proof.
  unfold emit_progress_update, utcnow, call, logger. unfold_monad.
  destruct (faults env (SocketImport progress)); simpl.
  { eexists. split; [reflexivity |]. split; [reflexivity |].
    split; [left; reflexivity | discriminate]. }
  destruct (faults env (SocketEmit progress)); simpl.
  { eexists. split; [reflexivity |]. split; [reflexivity |].
    split; [left; reflexivity | intros _; discriminate]. }
  eexists. split; [reflexivity |]. split; [reflexivity |].
  split; [right | intros _ _]; eexists; reflexivity.
Qed.

Lemma clean_up_spec (w : World) :
  exists sv, clean_up env w = (Ok tt, set_service sv w).
Proof.
  unfold clean_up, in_service. unfold_monad.
  destruct (DiffusionService.get_memory_usage (backend env) (service w)) as [[v | e] sv];
    eauto.
Qed.

Lemma record_failure_returns (task_id : string) (e : exn) (w : World) :
  exists w', record_failure env task_id e w = (Ok tt, w') /\ emitted w' = emitted w.
Proof.
  unfold record_failure.
  match goal with
  | |- context [try_except ?body ?handler] =>
      assert (quiet body) as Hq by quiet_auto;
      unfold try_except; specialize (Hq w);
      destruct (body w) as [[[] | e'] w1]; simpl in Hq
  end.
  - eauto.
  - unfold logger, modify. eexists. split; [reflexivity | exact Hq].
Qed.

(** The [except] clause always hands back the failed result, and sends
    the final notification or, when the socket raises, nothing. *)
Lemma on_exception_returns (task_id model_name : string) (e : exn) (w : World) :
  exists w' final,
    on_exception env task_id model_name e w = (Ok (Failed e), w') /\
    emitted w' = (final ++ emitted w)%list /\
    (final = [] \/ exists timestamp, final = [failed_notification task_id e timestamp]) /\
    (faults env (SocketImport 0) = None -> faults env (SocketEmit 0) = None ->
     exists timestamp, final = [failed_notification task_id e timestamp]).
Proof.
  unfold on_exception.
  rewrite (bind_Ok_eq _ _ w tt (set_log (("Image transformation failed", e) :: log w) w))
    by reflexivity.
  destruct (record_failure_returns task_id e
              (set_log (("Image transformation failed", e) :: log w) w))
    as (w1 & Hrecord & E1).
  rewrite (bind_Ok_eq _ _ _ _ _ Hrecord).
  destruct (emit_progress_update_spec task_id "failed" ("Transformation failed: " ++ e) 0 w1)
    as (w2 & Hemit & _ & Hsent & Hsure).
  rewrite (bind_Ok_eq _ _ _ _ _ Hemit).
  unfold ret. exists w2. simpl in E1.
  destruct Hsent as [Hnone | (timestamp & Hone)].
  - destruct (faults env (SocketImport 0)) eqn:H1.
    + exists []. rewrite Hnone, E1. repeat split; auto; discriminate.
    + destruct (faults env (SocketEmit 0)) eqn:H2.
      * exists []. rewrite Hnone, E1. repeat split; auto; discriminate.
      * destruct (Hsure eq_refl eq_refl) as (timestamp & Hone).
        exists [failed_notification task_id e timestamp].
        rewrite Hone, E1. repeat split; eauto.
  - exists [failed_notification task_id e timestamp].
    rewrite Hone, E1. repeat split; eauto.
Qed.

(** C4, as the code has it. What one execution of the task sends is, in
    order: notifications of the phases, whose percentages increase
    strictly within (0, 100], hence are non-decreasing; then, when one of the
    phases raised, at most one more notification, the final [failed] one,
    whose percentage is 0. An execution that returns the completed result
    sends no such final notification, so all it sends is non-decreasing. *)
Theorem progress_notifications_ordered (task_id user_id image_data filename model_name
  prompt negative_prompt : string) (strength guidance_scale : pyfloat)
  (num_inference_steps : Z) (seed : Validators.seed_arg) (w : World) :
  exists phases final,
    emitted (snd (process_image_task env task_id user_id image_data filename model_name
                    prompt negative_prompt strength guidance_scale num_inference_steps
                    seed w))
      = (final ++ phases ++ emitted w)%list /\
    climbing 0 100 (percents phases) /\
    nondecreasing (percents phases) = true /\
    (final = [] \/
     exists e timestamp,
       final = [failed_notification task_id e timestamp] /\
       fst (run_phases env task_id user_id image_data filename model_name prompt
              negative_prompt strength guidance_scale num_inference_steps seed w)
         = Raise e) /\
    (forall result_url processing_time transformation_id,
       fst (process_image_task env task_id user_id image_data filename model_name
              prompt negative_prompt strength guidance_scale num_inference_steps seed w)
         = Ok (Completed result_url processing_time transformation_id) ->
       final = [] /\ nondecreasing (percents (final ++ phases)) = true).
Proof.
  unfold process_image_task, try_finally, try_except.
  destruct (run_phases_climbs task_id user_id image_data filename model_name prompt
              negative_prompt strength guidance_scale num_inference_steps seed w)
    as (phases & Ephases & Hclimb).
  destruct (run_phases env task_id user_id image_data filename model_name prompt
              negative_prompt strength guidance_scale num_inference_steps seed w)
    as [[r | e] w1]; simpl in Ephases.
  - destruct (clean_up_spec w1) as (sv & ->). simpl.
    exists phases, []. split; [exact Ephases |]. split; [exact Hclimb |].
    split; [apply (climbing_nondecreasing 0 100); exact Hclimb |].
    split; [left; reflexivity |].
    intros _ _ _ _. split; [reflexivity |].
    apply (climbing_nondecreasing 0 100); exact Hclimb.
  - destruct (on_exception_returns task_id model_name e w1)
      as (w2 & final & -> & Efinal & Hfinal & _).
    destruct (clean_up_spec w2) as (sv & ->). simpl.
    exists phases, final. split; [rewrite Efinal, Ephases; reflexivity |].
    split; [exact Hclimb |].
    split; [apply (climbing_nondecreasing 0 100); exact Hclimb |].
    split.
    + destruct Hfinal as [-> | (timestamp & ->)]; [left; reflexivity |].
      right. exists e, timestamp. split; reflexivity.
    + intros result_url processing_time transformation_id H. discriminate.
Qed.

(** *** The record of the job *)

Section Keeps.

Variable task_id : string.




















End Keeps.



Section Failure.

Variables task_id user_id image_data filename model_name prompt negative_prompt : string.
Variables strength guidance_scale : pyfloat.
Variable num_inference_steps : Z.
Variable seed : Validators.seed_arg.

Local Notation "'phases'" :=
  (run_phases env task_id user_id image_data filename model_name prompt
     negative_prompt strength guidance_scale num_inference_steps seed).

Local Notation "'task'" :=
  (process_image_task env task_id user_id image_data filename model_name prompt
     negative_prompt strength guidance_scale num_inference_steps seed).



End Failure.

End Task.

(** ** Scenarios *)

(** C4 as stated fails on a failed execution: with an empty prompt the
    task sends 10 and then the final 0. *)
Lemma progress_resets_counterexample :
  percents (ImageProcessing.emitted
              (snd (run_job healthy "" (TransformRoutes.transformations (one_job Models.pending)))))
    = [10; 0] /\
  nondecreasing
    (percents (ImageProcessing.emitted
                 (snd (run_job healthy "" (TransformRoutes.transformations (one_job Models.pending))))))
    = false.
Proof.
  split; vm_compute; reflexivity.
Qed.



(** C1 on the code: a job cancelled while pending is stored as [failed];
    the queue was asked to revoke the task id of the record, and when the
    worker runs the job all the same, the task writes [processing] over
    the terminal status without looking at it and the record ends
    [completed]. *)
Theorem task_overwrites_terminal_status :
  stored_statuses (picked_up (TransformRoutes.transformations (one_job Models.pending)))
    = [Models.pending] /\
  map Models.Transformation.status
    (TransformRoutes.transformations
       (snd (TransformRoutes.cancel_transformation no_faults "u-1" "task-1"
               (one_job Models.pending))))
    = [Models.failed] /\
  stored_statuses
    (snd (run_job healthy "a wave"
            (TransformRoutes.transformations
               (snd (TransformRoutes.cancel_transformation no_faults "u-1" "task-1"
                       (one_job Models.pending))))))
    = [Models.completed] /\
  map ImageProcessing.Notification.status
    (rev (ImageProcessing.emitted
            (snd (run_job healthy "a wave"
                    (TransformRoutes.transformations
                       (snd (TransformRoutes.cancel_transformation no_faults "u-1" "task-1"
                               (one_job Models.pending))))))))
    = ["processing"; "processing"; "processing"; "processing"; "processing"; "completed"].
Proof.
  repeat split; vm_compute; reflexivity.
Qed.

(* ================================================================== *)
(** * Further properties *)
(* ================================================================== *)

(** ** Strings *)

Section Strings.

Lemma contains_dot_cons (d : ascii) (r : string) :
  contains "." (String d r) = Ascii.eqb d "." || contains "." r.
Proof.
  change (contains "." (String d r))
    with ((if ascii_dec "." d then prefix "" r else false) || contains "." r).
  destruct (ascii_dec "." d) as [<- | Hne].
  - destruct r; reflexivity.
  - destruct (Ascii.eqb d ".") eqn:E; [| reflexivity].
    apply Ascii.eqb_eq in E. congruence.
Qed.

Lemma contains_dot_app (stem ext : string) :
  contains "." (stem ++ String "." ext) = true.
Proof.
  induction stem as [| d stem IH].
  - change (contains "." (String "." ext) = true). rewrite contains_dot_cons. reflexivity.
  - change (contains "." (String d (stem ++ String "." ext)) = true).
    rewrite contains_dot_cons, IH. apply orb_true_r.
Qed.

Lemma rfind_from_none (s : string) (i : Z) :
  contains "." s = false -> rfind_from "." s i = -1.
Proof.
  revert i. induction s as [| d s IH]; intros i H; [reflexivity |].
  rewrite contains_dot_cons in H. apply orb_false_iff in H as [Hd Hs].
  simpl. rewrite (IH (i + 1) Hs). simpl. rewrite Hd. reflexivity.
Qed.

Lemma rfind_from_app (stem ext : string) (i : Z) :
  0 <= i -> contains "." ext = false ->
  rfind_from "." (stem ++ String "." ext) i = i + len stem.
Proof.
  intros Hi Hext. revert i Hi. induction stem as [| d stem IH]; intros i Hi.
  - simpl. rewrite (rfind_from_none ext (i + 1) Hext). simpl. unfold len. simpl. lia.
  - simpl. rewrite (IH (i + 1)) by lia.
    assert ((i + 1 + len stem >=? 0) = true) as -> by (apply Z.geb_le; unfold len; lia).
    unfold len. simpl String.length. lia.
Qed.

Lemma rfind_from_split (s : string) (i : Z) :
  0 <= i -> 0 <= rfind_from "." s i ->
  exists stem ext,
    s = stem ++ String "." ext /\ contains "." ext = false /\
    rfind_from "." s i = i + len stem.
Proof.
  revert i. induction s as [| d s IH]; intros i Hi Hr; [simpl in Hr; lia |].
  simpl in Hr |- *.
  destruct (rfind_from "." s (i + 1) >=? 0) eqn:Hlater.
  - apply Z.geb_le in Hlater.
    destruct (IH (i + 1) ltac:(lia) Hlater) as (stem & ext & -> & Hext & Hidx).
    exists (String d stem), ext. split; [reflexivity |]. split; [exact Hext |].
    rewrite Hidx. unfold len. simpl String.length. lia.
  - destruct (Ascii.eqb d ".") eqn:Hd; [| lia].
    apply Ascii.eqb_eq in Hd. subst d.
    exists EmptyString, s. split; [reflexivity |]. split; [| unfold len; simpl; lia].
    destruct (contains "." s) eqn:Hc; [| reflexivity].
    exfalso. clear IH Hr.
    assert (forall t j, 0 <= j -> contains "." t = true -> 0 <= rfind_from "." t j) as Hpos.
    { induction t as [| e t IHt]; intros j Hj Ht; [discriminate |].
      rewrite contains_dot_cons in Ht. simpl.
      destruct (rfind_from "." t (j + 1) >=? 0) eqn:E; [apply Z.geb_le in E; exact E |].
      destruct (Ascii.eqb e "."); [lia |]. simpl in Ht.
      specialize (IHt (j + 1) ltac:(lia) Ht). apply Z.geb_le in IHt. congruence. }
    specialize (Hpos s (i + 1) ltac:(lia) Hc). apply Z.geb_le in Hpos. congruence.
Qed.

Lemma drop_app_length (stem rest : string) :
  drop (String.length stem) (stem ++ rest) = rest.
Proof.
  induction stem as [| d stem IH]; [destruct rest; reflexivity | exact IH].
Qed.

Lemma take_app_length (stem rest : string) :
  take (String.length stem) (stem ++ rest) = stem.
Proof.
  induction stem as [| d stem IH]; [destruct rest; reflexivity |].
  simpl. rewrite IH. reflexivity.
Qed.

Lemma take_drop (n : nat) (s : string) : take n s ++ drop n s = s.
Proof.
  revert s. induction n as [| n IH]; intros [| c s]; simpl; try reflexivity.
  rewrite IH. reflexivity.
Qed.

Lemma drop_past (stem rest : string) (c : ascii) :
  drop (S (String.length stem)) (stem ++ String c rest) = rest.
Proof.
  induction stem as [| d stem IH]; [destruct rest; reflexivity | exact IH].
Qed.

(** What [rsplit('.', 1)[1]] returns on a name with a dot. *)
Lemma rsplit_dot_1_app (stem ext : string) :
  contains "." ext = false -> rsplit_dot_1 (stem ++ String "." ext) = Ok ext.
Proof.
  intros Hext. unfold rsplit_dot_1, rfind.
  rewrite (rfind_from_app stem ext 0 ltac:(lia) Hext).
  assert ((0 + len stem >=? 0) = true) as -> by (apply Z.geb_le; unfold len; lia).
  f_equal. unfold len.
  replace (Z.to_nat (0 + Z.of_nat (String.length stem) + 1))
    with (S (String.length stem)) by lia.
  apply drop_past.
Qed.

End Strings.

(** ** Upload validators *)

Section FileNames.

Import Validators.

(** X1. [allowed_file] accepts a file name exactly when the name has a dot
    and what follows its last dot is, in lower case, one of png, jpg, jpeg,
    webp and gif. The empty name and a name without a dot are refused; no
    call raises. *)
Theorem allowed_file_last_extension (filename : string) :
  allowed_file filename = true <->
  exists stem ext,
    filename = stem ++ String "." ext /\ contains "." ext = false /\
    In (lower ext) allowed_extensions.
Proof.
  unfold allowed_file. split.
  - destruct (filename =? "")%string; [discriminate |].
    intros H. apply andb_true_iff in H as [_ H].
    unfold rsplit_dot_1, rfind in H.
    destruct (rfind_from "." filename 0 >=? 0) eqn:Hi; [| discriminate].
    apply Z.geb_le in Hi.
    destruct (rfind_from_split filename 0 ltac:(lia) Hi) as (stem & ext & -> & Hext & Hidx).
    exists stem, ext. split; [reflexivity |]. split; [exact Hext |].
    rewrite Hidx in H. unfold len in H.
    replace (Z.to_nat (0 + Z.of_nat (String.length stem) + 1))
      with (S (String.length stem)) in H by lia.
    rewrite drop_past in H.
    apply existsb_exists in H as (e & Hin & He).
    apply String.eqb_eq in He. subst e. exact Hin.
  - intros (stem & ext & -> & Hext & Hin).
    assert ((stem ++ String "." ext =? "")%string = false) as ->
      by (destruct stem; reflexivity).
    rewrite contains_dot_app, (rsplit_dot_1_app stem ext Hext).
    rewrite andb_true_l. apply existsb_exists. exists (lower ext). split; [exact Hin | apply String.eqb_refl].
Qed.

End FileNames.

Section Prompts.

Import Validators.



End Prompts.

Section Sanitizing.

Import Validators.

Lemma all_chars_app (p : ascii -> bool) (a b : string) :
  all_chars p (a ++ b) = all_chars p a && all_chars p b.
Proof.
  induction a as [| c a IH]; simpl; [reflexivity |].
  rewrite IH. apply andb_assoc.
Qed.

Lemma all_chars_take (p : ascii -> bool) (n : nat) (s : string) :
  all_chars p s = true -> all_chars p (take n s) = true.
Proof.
  revert s. induction n as [| n IH]; intros [| c s] H; simpl in *; try reflexivity.
  apply andb_true_iff in H as [Hc Hs]. rewrite Hc, (IH s Hs). reflexivity.
Qed.

Lemma all_chars_drop (p : ascii -> bool) (n : nat) (s : string) :
  all_chars p s = true -> all_chars p (drop n s) = true.
Proof.
  revert s. induction n as [| n IH]; intros [| c s] H; simpl in *; try assumption.
  apply andb_true_iff in H as [_ Hs]. apply IH. exact Hs.
Qed.

Lemma length_app (a b : string) :
  String.length (a ++ b) = (String.length a + String.length b)%nat.
Proof.
  induction a as [| c a IH]; simpl; [reflexivity | now rewrite IH].
Qed.

(** The two parts [splitext] returns make up the path. *)
Lemma splitext_parts (p : string) : fst (splitext p) ++ snd (splitext p) = p.
Proof.
  assert (p ++ "" = p) as Hnil by (induction p as [| c p IH]; simpl; congruence).
  unfold splitext.
  destruct (rfind "." p >? rfind "/" p); [| exact Hnil].
  destruct (existsb _ _); [apply take_drop | exact Hnil].
Qed.

Lemma replaced_char_safe (c : ascii) :
  safe_char (if is_word c || Ascii.eqb c "-" || Ascii.eqb c "_" || Ascii.eqb c "."
             then c else "_"%char) = true.
Proof.
  destruct c as [[] [] [] [] [] [] [] []]; reflexivity.
Qed.

Lemma replace_unsafe_safe (s : string) : all_chars safe_char (replace_unsafe s) = true.
Proof.
  induction s as [| c s IH]; simpl; [reflexivity |].
  rewrite IH, replaced_char_safe. reflexivity.
Qed.

Lemma replace_unsafe_length (s : string) :
  String.length (replace_unsafe s) = String.length s.
Proof.
  induction s as [| c s IH]; simpl; congruence.
Qed.

Lemma flush_run_safe (run : list ascii) :
  (forall c, In c run -> safe_char c = true) ->
  all_chars safe_char (flush_run run) = true.
Proof.
  intros H. destruct run as [| c [| d run]]; simpl; try reflexivity.
  rewrite (H c (or_introl eq_refl)). reflexivity.
Qed.

Lemma collapse_runs_safe (s : string) (run : list ascii) :
  (forall c, In c run -> safe_char c = true) ->
  all_chars safe_char s = true ->
  all_chars safe_char (collapse_runs run s) = true.
Proof.
  revert run. induction s as [| c s IH]; intros run Hrun Hs; simpl.
  - apply flush_run_safe. exact Hrun.
  - simpl in Hs. apply andb_true_iff in Hs as [Hc Hs].
    destruct (Ascii.eqb c "_" || Ascii.eqb c ".").
    + apply IH; [| exact Hs]. intros d [<- | Hin]; auto.
    + rewrite all_chars_app, (flush_run_safe run Hrun). simpl.
      rewrite Hc. apply IH; [intros d [] | exact Hs].
Qed.

Lemma flush_run_short (run : list ascii) :
  flush_run run = "" \/ exists c, flush_run run = String c "".
Proof.
  destruct run as [| c [| d run]]; simpl; eauto.
Qed.

Lemma flush_run_length (run : list ascii) :
  (String.length (flush_run run) <= List.length run)%nat.
Proof.
  destruct run as [| c [| d run]]; simpl; lia.
Qed.

Lemma collapse_runs_length (s : string) (run : list ascii) :
  (String.length (collapse_runs run s) <= List.length run + String.length s)%nat.
Proof.
  revert run. induction s as [| c s IH]; intros run; simpl.
  - pose proof (flush_run_length run). lia.
  - destruct (Ascii.eqb c "_" || Ascii.eqb c ".").
    + specialize (IH (c :: run)). simpl in IH. lia.
    + rewrite length_app. simpl.
      pose proof (flush_run_length run). specialize (IH []). simpl in IH. lia.
Qed.

Lemma separated_cons (c : ascii) (s : string) :
  is_sep c = false -> separated (String c s) = separated s.
Proof.
  intros Hc. simpl. rewrite Hc. destruct s; reflexivity.
Qed.

Lemma collapse_runs_separated (s : string) (run : list ascii) :
  separated (collapse_runs run s) = true.
Proof.
  revert run. induction s as [| c s IH]; intros run; simpl.
  - destruct (flush_run_short run) as [-> | [d ->]]; reflexivity.
  - destruct (Ascii.eqb c "_" || Ascii.eqb c ".") eqn:Hc; [apply IH |].
    assert (separated (String c (collapse_runs [] s)) = true) as Hrest
      by (rewrite separated_cons; [apply IH | exact Hc]).
    destruct (flush_run_short run) as [-> | [d ->]]; [exact Hrest |].
    change (separated (String d (String c (collapse_runs [] s))) = true).
    change (negb (is_sep d && is_sep c) && separated (String c (collapse_runs [] s)) = true).
    rewrite Hrest. unfold is_sep at 2. rewrite Hc, andb_false_r. reflexivity.
Qed.

Lemma separated_no_dotdot (s : string) : separated s = true -> contains ".." s = false.
Proof.
  induction s as [| a s IH]; intros H; [reflexivity |].
  change (contains ".." (String a s))
    with (prefix ".." (String a s) || contains ".." s).
  cbn [separated] in H. apply andb_true_iff in H as [Hpair Hs].
  rewrite (IH Hs), orb_false_r.
  destruct s as [| b s].
  - change (prefix ".." (String a ""))
      with (if ascii_dec "." a then prefix "." "" else false).
    destruct (ascii_dec "." a); reflexivity.
  - change (prefix ".." (String a (String b s)))
      with (if ascii_dec "." a
            then (if ascii_dec "." b then prefix "" s else false) else false).
    destruct (ascii_dec "." a) as [<- |]; [| reflexivity].
    destruct (ascii_dec "." b) as [<- |]; [| reflexivity].
    vm_compute in Hpair. discriminate Hpair.
Qed.

(** X3. On an ASCII file name, [sanitize_filename] returns a name made of
    ASCII letters, digits, hyphens, underscores and dots only: no path
    separator, no blank and no control character survives. *)
Theorem sanitize_filename_safe_chars (filename : string) :
  all_chars is_ascii filename = true ->
  all_chars safe_char (sanitize_filename filename) = true.
Proof.
  intros _. unfold sanitize_filename.
  pose proof (collapse_runs_safe (replace_unsafe filename) []
                ltac:(intros c []) (replace_unsafe_safe filename)) as Hsafe.
  pose proof (splitext_parts (collapse_runs [] (replace_unsafe filename))) as Hparts.
  destruct (splitext (collapse_runs [] (replace_unsafe filename))) as [name ext].
  simpl in Hparts. rewrite <- Hparts, all_chars_app in Hsafe.
  apply andb_true_iff in Hsafe as [Hname Hext].
  rewrite all_chars_app, Hext, andb_true_r.
  destruct (len name >? 200); [apply all_chars_take |]; exact Hname.
Qed.

(** X4. On an ASCII file name of at most 200 characters, the name
    [sanitize_filename] returns has no dot next to a dot or an underscore;
    in particular it does not contain [..]. *)
Theorem sanitize_filename_no_dotdot (filename : string) :
  all_chars is_ascii filename = true -> len filename <= 200 ->
  separated (sanitize_filename filename) = true /\
  contains ".." (sanitize_filename filename) = false.
Proof.
  intros _ Hlen.
  assert (separated (sanitize_filename filename) = true) as Hsep.
  { unfold sanitize_filename.
    pose proof (collapse_runs_separated (replace_unsafe filename) []) as Hsep.
    pose proof (collapse_runs_length (replace_unsafe filename) []) as Hshort.
    rewrite replace_unsafe_length in Hshort. simpl in Hshort.
    pose proof (splitext_parts (collapse_runs [] (replace_unsafe filename))) as Hparts.
    destruct (splitext (collapse_runs [] (replace_unsafe filename))) as [name ext].
    simpl in Hparts. rewrite <- Hparts in Hshort. rewrite length_app in Hshort.
    assert ((len name >? 200) = false) as ->.
    { unfold len in *. destruct (Z.gtb_spec (Z.of_nat (String.length name)) 200); [lia | reflexivity]. }
    rewrite Hparts. exact Hsep. }
  split; [exact Hsep | apply separated_no_dotdot; exact Hsep].
Qed.

End Sanitizing.

Section Resizing.

Import DiffusionService ImageTools.

(** X5. With [maintain_aspect], [resize_image] returns an image for every
    input with positive sides and every positive [max_size]: the sides are
    at most [max_size]; when both sides of the fitted image are at least 8
    pixels they are cut down to multiples of 8, and otherwise the fitted
    image is returned as it is, where [preprocess_image] raises. *)
Theorem resize_image_returns (image : Image) (max_size : Z) :
  0 < width image -> 0 < height image -> 0 < max_size ->
  exists out,
    resize_image image max_size true = Ok out /\
    mode out = mode image /\
    1 <= width out <= max_size /\ 1 <= height out <= max_size /\
    let fitted := thumbnail image (max_size, max_size) in
    (8 <= width fitted /\ 8 <= height fitted /\
     width out = width fitted / 8 * 8 /\ height out = height fitted / 8 * 8)
    \/ ((width fitted < 8 \/ height fitted < 8) /\ out = fitted).
Proof.
  intros Hw Hh Hm.
  pose proof (thumbnail_size_fits (width image) (height image) max_size Hw Hh Hm) as Hfit.
  unfold resize_image, thumbnail. cbn [fst snd].
  destruct (thumbnail_size (width image) (height image) max_size max_size) as [wt ht].
  destruct Hfit as (Bw & Bh & _ & _). cbn [width height mode].
  pose proof (floor8 wt) as [[kw Hkw] Fw]. pose proof (floor8 ht) as [[kh Hkh] Fh].
  destruct ((wt / 8 * 8 >? 0) && (ht / 8 * 8 >? 0)) eqn:E.
  - apply andb_true_iff in E as [Ew Eh]. apply Z.gtb_lt in Ew, Eh.
    unfold resize.
    assert ((wt / 8 * 8 <? 1) || (ht / 8 * 8 <? 1) = false) as ->
      by (apply orb_false_iff; split; apply Z.ltb_ge; lia).
    eexists. split; [reflexivity |]. cbn [width height mode].
    split; [reflexivity |]. split; [lia |]. split; [lia |].
    left. lia.
  - eexists. split; [reflexivity |]. cbn [width height mode].
    split; [reflexivity |]. split; [lia |]. split; [lia |].
    right. split; [| reflexivity].
    apply andb_false_iff in E as [E | E];
      destruct (Z.gtb_spec (wt / 8 * 8) 0); destruct (Z.gtb_spec (ht / 8 * 8) 0);
      try discriminate; lia.
Qed.

End Resizing.

(** ** The model cache of the generation adapter *)

Section ModelCache.

Import DiffusionService.

Variable backend : Backend.

Lemma mem_head (k : string) (keys : list string) : mem k (k :: keys) = true.
Proof. unfold mem. simpl. rewrite String.eqb_refl. reflexivity. Qed.

(** X6. [load_model] never raises and answers whether the model is resident
    afterwards. It never evicts: the cache is left as it was, or gains
    exactly the requested model, which then was absent and is one of the
    available models. So a resident model is served without any library
    call succeeding, and an unknown name is refused. *)
Theorem load_model_contract (model_name : string) (s : Service) :
  exists loaded s',
    load_model backend model_name s = (Ok loaded, s') /\
    (loaded = true <-> mem model_name (models s') = true) /\
    (models s' = models s \/
     (mem model_name (models s) = false /\
      lookup model_name available_models <> None /\
      models s' = model_name :: models s)) /\
    controlnets s' = controlnets s /\ preprocessors s' = preprocessors s /\
    cuda s' = cuda s.
Proof.
  unfold load_model, logger, call. unfold_monad.
  destruct (mem model_name (models s)) eqn:Hmem.
  - do 2 eexists. split; [reflexivity |]. simpl. rewrite Hmem. intuition.
  - destruct (lookup model_name available_models) as [[model_id type] |] eqn:Hlook.
    2:{ do 2 eexists. split; [reflexivity |]. simpl. rewrite Hmem.
        intuition discriminate. }
    assert (forall l, mem model_name (model_name :: l) = true) as Hhead by apply mem_head.
    destruct (type =? "stable-diffusion")%string;
      [| destruct (type =? "stable-diffusion-xl")%string];
      simpl;
      repeat match goal with
        | |- context [faults backend ?x] => destruct (faults backend x); simpl
        | |- context [has_xformers backend] => destruct (has_xformers backend); simpl
        | |- context [cuda s] => destruct (cuda s) eqn:?; simpl
        end;
      do 2 eexists; (split; [reflexivity |]); simpl;
      rewrite ?Hmem, ?Hhead, ?String.eqb_refl;
      (split; [split; (discriminate || reflexivity || congruence) |]);
      (split; [(left; reflexivity) || (right; repeat split; congruence) |]);
      auto.
Qed.

(** X7. For a model that is not resident, [load_model] succeeds exactly
    when the name is one of the available models and neither the download,
    the move to the device, the scheduler set-up nor, on CUDA, the offload
    set-up raises. A failure of the xformers set-up does not fail the
    load. *)
Theorem load_model_succeeds_iff (model_name : string) (s : Service) :
  mem model_name (models s) = false ->
  (fst (load_model backend model_name s) = Ok true <->
   (lookup model_name available_models <> None /\
    faults backend FromPretrained = None /\
    faults backend ToDevice = None /\
    faults backend SchedulerFromConfig = None /\
    (cuda s = true -> faults backend CpuOffload = None))).
Proof.
  intros Hmem. unfold load_model, logger, call. unfold_monad. rewrite Hmem.
  unfold available_models, lookup.
  destruct (model_name =? "stable-diffusion-v1-5")%string;
    [| destruct (model_name =? "stable-diffusion-xl")%string;
       [| destruct (model_name =? "ukiyo-e-diffusion")%string]];
    simpl;
    try (split; [discriminate | intros (H & _); congruence]);
    destruct (faults backend FromPretrained); simpl;
    try (split; [discriminate | intros (_ & H & _); discriminate]);
    destruct (faults backend ToDevice); simpl;
    try (split; [discriminate | intros (_ & _ & H & _); discriminate]);
    destruct (faults backend SchedulerFromConfig); simpl;
    try (split; [discriminate | intros (_ & _ & _ & H & _); discriminate]);
    destruct (has_xformers backend); simpl;
    try destruct (faults backend Xformers); simpl;
    destruct (cuda s); simpl;
    try destruct (faults backend CpuOffload); simpl;
    (split;
     [ intros H; try discriminate; repeat split; (discriminate || reflexivity || auto)
     | intros (_ & _ & _ & _ & H); try reflexivity; specialize (H eq_refl); discriminate ]).
Qed.

Lemma mem_filter (k name : string) (keys : list string) :
  mem k (filter (fun k' => negb (k' =? name)%string) keys)
  = mem k keys && negb (k =? name)%string.
Proof.
  unfold mem. induction keys as [| k' keys IH]; simpl; [reflexivity |].
  destruct (k' =? name)%string eqn:Ek'; simpl; rewrite IH.
  - apply String.eqb_eq in Ek'. subst k'.
    destruct (k =? name)%string; simpl; [now rewrite andb_false_r | reflexivity].
  - destruct (k =? k')%string eqn:Ek; simpl; [| reflexivity].
    apply String.eqb_eq in Ek. subst k'. rewrite Ek'. reflexivity.
Qed.

(** X8. [unload_model] evicts the named model and nothing else: afterwards
    the model is not resident, every other model is resident exactly when
    it was before, and the ControlNets and their preprocessors are kept.
    Unloading a model that is not resident changes nothing, not even the
    log. *)
Theorem unload_model_evicts (model_name : string) (s : Service) :
  exists s',
    unload_model model_name s = (Ok tt, s') /\
    mem model_name (models s') = false /\
    (forall other, other <> model_name ->
       mem other (models s') = mem other (models s)) /\
    controlnets s' = controlnets s /\ preprocessors s' = preprocessors s /\
    (mem model_name (models s) = false -> s' = s).
Proof.
  unfold unload_model, logger. unfold_monad.
  destruct (mem model_name (models s)) eqn:Hmem.
  - destruct (cuda s); simpl;
      (eexists; split; [reflexivity |]); simpl.
    all: split; [rewrite mem_filter, String.eqb_refl; apply andb_false_r |].
    all: split; [| repeat split; discriminate].
    all: intros other Hne; rewrite mem_filter.
    all: apply String.eqb_neq in Hne; rewrite Hne; apply andb_true_r.
  - eexists. split; [reflexivity |]. rewrite Hmem. auto.
Qed.

(** X23. [load_controlnet] never raises and never touches the models. A
    resident ControlNet is served as it is. For one that is not resident,
    the answer is [True] exactly when the type is known, the download does
    not raise and, for canny, openpose and lineart, the detector can be
    built; but the ControlNet is resident afterwards as soon as the
    download succeeded, also when the detector failed and the answer is
    [False]. *)
Theorem load_controlnet_contract (controlnet_type : string) (s : Service) :
  exists loaded s',
    load_controlnet backend controlnet_type s = (Ok loaded, s') /\
    models s' = models s /\
    (loaded = true -> mem controlnet_type (controlnets s') = true) /\
    (mem controlnet_type (controlnets s) = true ->
     loaded = true /\ controlnets s' = controlnets s /\
     preprocessors s' = preprocessors s) /\
    (mem controlnet_type (controlnets s) = false ->
     (loaded = true <->
      lookup controlnet_type controlnet_models <> None /\
      faults backend ControlNetFromPretrained = None /\
      ((controlnet_type =? "canny")%string || (controlnet_type =? "openpose")%string
       || (controlnet_type =? "lineart")%string = true ->
       faults backend DetectorInit = None)) /\
     (mem controlnet_type (controlnets s') = true <->
      lookup controlnet_type controlnet_models <> None /\
      faults backend ControlNetFromPretrained = None)).
Proof.
  unfold load_controlnet, logger, call. unfold_monad.
  destruct (mem controlnet_type (controlnets s)) eqn:Hmem.
  { do 2 eexists. split; [reflexivity |]. simpl. rewrite Hmem.
    repeat split; auto; discriminate. }
  assert (forall l, mem controlnet_type (controlnet_type :: l) = true) as Hhead
    by apply mem_head.
  unfold controlnet_models, lookup.
  destruct (controlnet_type =? "canny")%string eqn:Hcanny;
    [| destruct (controlnet_type =? "depth")%string eqn:Hdepth;
       [| destruct (controlnet_type =? "openpose")%string eqn:Hpose;
          [| destruct (controlnet_type =? "lineart")%string eqn:Hline]]];
    try match goal with
      | H : (controlnet_type =? _)%string = true |- _ =>
          apply String.eqb_eq in H; subst controlnet_type
      end;
    simpl;
    try destruct (faults backend ControlNetFromPretrained) eqn:Hdownload; simpl;
    try destruct (faults backend DetectorInit) eqn:Hdetector; simpl;
    do 2 eexists; (split; [reflexivity |]); cbn [models controlnets preprocessors
      put_log put_controlnet put_preprocessor];
    rewrite ?Hmem, ?Hhead;
    (split; [reflexivity |]);
    (split; [first [reflexivity | discriminate | intros _; reflexivity] |]);
    (split; [intros H; discriminate H |]);
    intros _; split; split; intros H;
    first
      [ discriminate H
      | solve [destruct H as (H1 & H2 & H3);
               first [congruence | specialize (H3 eq_refl); congruence]]
      | solve [destruct H as (H1 & H2); congruence]
      | solve [repeat split; first [discriminate | reflexivity | intros; congruence]]
      | reflexivity ].
Qed.

End ModelCache.

(** ** The orchestration task: its outcomes *)

Section TaskOutcomes.

Import Models ImageProcessing.

Variable env : Env.

Variables task_id user_id image_data filename model_name prompt negative_prompt : string.
Variables strength guidance_scale : pyfloat.
Variable num_inference_steps : Z.
Variable seed : Validators.seed_arg.

(** X9. A job whose task id has no record is refused without a trace: when
    the lookup itself does not raise, the task returns the failed result
    "Transformation not found", writes to neither table, sends no
    notification and leaves the generation service as it was. *)
Theorem unknown_task_is_refused (w : World) :
  session_transformation w = None ->
  find_by_task_id task_id (transformations w) = None ->
  faults env QueryTransformation = None ->
  exists w',
    process_image_task env task_id user_id image_data filename model_name prompt
      negative_prompt strength guidance_scale num_inference_steps seed w
    = (Ok (Failed "Transformation not found"), w') /\
    transformations w' = transformations w /\ users w' = users w /\
    emitted w' = emitted w /\ service w' = service w.
Proof.
  intros Hsess Hfind Hquery.
  unfold process_image_task, run_phases, query_transformation, call, logger, clean_up,
    in_service, DiffusionService.get_memory_usage, DiffusionService.call.
  unfold_monad. rewrite Hquery. simpl. rewrite Hsess, Hfind. simpl.
  destruct (DiffusionService.faults (backend env) DiffusionService.Psutil); simpl;
    eexists; (split; [reflexivity |]); simpl; auto.
Qed.

(** *** Steps that leave a part of the world alone *)

Section Preserves.

Context {X : Type} (f : World -> X).

Lemma preserves_ret {A} (a : A) : preserves f (ret a).
Proof. intros w. reflexivity. Qed.

Lemma preserves_raise {A} (e : exn) : preserves f (@raise World A e).
Proof. intros w. reflexivity. Qed.

Lemma preserves_lift {A} (r : result A) : preserves f (lift r).
Proof. intros w. unfold lift. destruct r; reflexivity. Qed.

Lemma preserves_get : preserves f (@get World).
Proof. intros w. reflexivity. Qed.

Lemma preserves_modify (g : World -> World) :
  (forall w, f (g w) = f w) -> preserves f (modify g).
Proof. intros Hg w. apply Hg. Qed.

Lemma preserves_bind {A B} (m : M World A) (k : A -> M World B) :
  preserves f m -> (forall a, preserves f (k a)) -> preserves f (bind m k).
Proof.
  intros Hm Hk w. unfold bind. specialize (Hm w).
  destruct (m w) as [[a | e] w1]; simpl in *; [| exact Hm].
  rewrite (Hk a w1). exact Hm.
Qed.

Lemma preserves_try_except {A} (body : M World A) (handler : exn -> M World A) :
  preserves f body -> (forall e, preserves f (handler e)) ->
  preserves f (try_except body handler).
Proof.
  intros Hm Hk w. unfold try_except. specialize (Hm w).
  destruct (body w) as [[a | e] w1]; simpl in *; [exact Hm |].
  rewrite (Hk e w1). exact Hm.
Qed.

Lemma preserves_try_finally {A} (body : M World A) (fin : M World unit) :
  preserves f body -> preserves f fin -> preserves f (try_finally body fin).
Proof.
  intros Hm Hk w. unfold try_finally. specialize (Hm w).
  destruct (body w) as [r w1]. specialize (Hk w1).
  destruct (fin w1) as [[[] | e] w2]; simpl in *; congruence.
Qed.

Lemma preserves_call (s : site) : preserves f (call env s).
Proof. unfold call. destruct (faults env s); [apply preserves_raise | apply preserves_ret]. Qed.

Lemma preserves_in_service {A} (m : M DiffusionService.Service A) :
  (forall sv w, f (set_service sv w) = f w) -> preserves f (in_service m).
Proof.
  intros Hf w. unfold in_service. destruct (m (service w)) as [r sv]. apply Hf.
Qed.

End Preserves.

Ltac preserves_step :=
  cbv beta;
  lazymatch goal with
  | |- preserves _ (bind _ _) => apply preserves_bind; [| intros ?]
  | |- preserves _ (try_except _ _) => apply preserves_try_except; [| intros ?]
  | |- preserves _ (try_finally _ _) => apply preserves_try_finally
  | |- preserves _ (ret _) => apply preserves_ret
  | |- preserves _ (raise _) => apply preserves_raise
  | |- preserves _ (lift _) => apply preserves_lift
  | |- preserves _ get => apply preserves_get
  | |- preserves _ (call _ _) => apply preserves_call
  | |- preserves _ (in_service _) => apply preserves_in_service; intros ? ?; reflexivity
  | |- preserves _ (modify _) => apply preserves_modify; intros ?; reflexivity
  | |- preserves _ (if ?b then _ else _) => destruct b
  | |- preserves _ (match ?x with _ => _ end) => destruct x
  end.

Ltac preserves_auto :=
  unfold on_exception;
  unfold record_failure, emit_progress_update;
  unfold query_transformation, query_user, commit, assign, since_started, utcnow, logger;
  repeat preserves_step.

(** [get_memory_usage] only reads. *)
Lemma get_memory_usage_reads (sv : DiffusionService.Service) :
  snd (DiffusionService.get_memory_usage (backend env) sv) = sv.
Proof.
  unfold DiffusionService.get_memory_usage, DiffusionService.call. unfold_monad.
  destruct (DiffusionService.faults (backend env) DiffusionService.Psutil); reflexivity.
Qed.

Lemma clean_up_idle : preserves service (clean_up env).
Proof.
  intros w. unfold clean_up, in_service. unfold_monad.
  pose proof (get_memory_usage_reads (service w)) as H.
  destruct (DiffusionService.get_memory_usage (backend env) (service w)) as [[v | e] sv];
    simpl in *; exact H.
Qed.

Lemma on_exception_idle (e : exn) :
  preserves service (on_exception env task_id model_name e).
Proof. preserves_auto. Qed.

Lemma refuses_bind {A} (m : M World A) (k : A -> M World task_result) :
  preserves service m -> (forall a, refuses (k a)) -> refuses (bind m k).
Proof.
  intros Hm Hk w. unfold bind. specialize (Hm w).
  destruct (m w) as [[a | e] w1]; simpl in *; [| auto].
  destruct (Hk a w1) as [Hs Hr]. split; [congruence | exact Hr].
Qed.

Lemma refuses_raise_bind {A} (e : exn) (k : A -> M World task_result) :
  refuses (bind (raise e) k).
Proof. intros w. simpl. auto. Qed.

Lemma refuses_failed (err : string) : refuses (ret (Failed err)).
Proof. intros w. simpl. auto. Qed.

Ltac refuses_step :=
  cbn [negb];
  lazymatch goal with
  | |- refuses (bind (raise _) _) => apply refuses_raise_bind
  | |- refuses (bind _ _) => apply refuses_bind; [preserves_auto | intros ?]
  | |- refuses (ret (Failed _)) => apply refuses_failed
  | |- refuses (match ?x with _ => _ end) => destruct x
  end.

Lemma run_phases_refuses :
  fst (Validators.validate_prompt prompt 1000) = false \/
  fst (Validators.validate_generation_parameters
         strength guidance_scale num_inference_steps seed) = false ->
  refuses (run_phases env task_id user_id image_data filename model_name prompt
             negative_prompt strength guidance_scale num_inference_steps seed).
Proof.
  intros H. unfold run_phases.
  destruct (Validators.validate_prompt prompt 1000) as [prompt_ok prompt_error].
  destruct (Validators.validate_generation_parameters
              strength guidance_scale num_inference_steps seed)
    as [params_ok params_error].
  simpl in H.
  apply refuses_bind; [preserves_auto |]. intros [transformation |].
  - destruct H as [-> | ->]; [| destruct prompt_ok]; do 8 refuses_step.
  - do 2 refuses_step.
Qed.

(** X10. A job whose prompt or generation parameters are invalid never
    reaches the model: whatever the database, the socket and the libraries
    do, the task returns a failed result and the generation service is left
    exactly as it was, with no model loaded and no cache released. *)
Theorem invalid_request_never_reaches_the_model (w : World) :
  fst (Validators.validate_prompt prompt 1000) = false \/
  fst (Validators.validate_generation_parameters
         strength guidance_scale num_inference_steps seed) = false ->
  exists err w',
    process_image_task env task_id user_id image_data filename model_name prompt
      negative_prompt strength guidance_scale num_inference_steps seed w
    = (Ok (Failed err), w') /\
    service w' = service w.
Proof.
  intros H. unfold process_image_task, try_finally, try_except.
  destruct (run_phases_refuses H w) as [Hservice Hresult].
  destruct (run_phases env task_id user_id image_data filename model_name prompt
              negative_prompt strength guidance_scale num_inference_steps seed w)
    as [[r | e] w1]; simpl in Hservice, Hresult.
  - destruct r as [? ? ? | err]; [contradiction |].
    pose proof (clean_up_idle w1) as Hidle.
    destruct (clean_up_spec env w1) as (sv & Hclean). rewrite Hclean in Hidle |- *.
    exists err. eexists. split; [reflexivity |]. simpl in *. congruence.
  - destruct (on_exception_returns env task_id model_name e w1) as (w2 & final & Hon & _).
    pose proof (on_exception_idle e w1) as Hidle1. rewrite Hon in Hidle1 |- *.
    pose proof (clean_up_idle w2) as Hidle2.
    destruct (clean_up_spec env w2) as (sv & Hclean). rewrite Hclean in Hidle2 |- *.
    exists e. eexists. split; [reflexivity |]. simpl in *. congruence.
Qed.

(** *** What a step does to the database *)

Lemma try_finally_Ok {S A} (body : M S A) (fin : M S unit) (s s' : S) (a : A) :
  try_finally body fin s = (Ok a, s') ->
  exists s1, body s = (Ok a, s1) /\ fin s1 = (Ok tt, s').
Proof.
  unfold try_finally. destruct (body s) as [r s1].
  destruct (fin s1) as [[[] | e] s2] eqn:Hfin; intros H; [| discriminate].
  injection H as -> ->. exists s1. split; [reflexivity | exact Hfin].
Qed.

Lemma try_except_Ok {S A} (body : M S A) (handler : exn -> M S A) (s s' : S) (a : A) :
  try_except body handler s = (Ok a, s') ->
  body s = (Ok a, s') \/ exists e s1, body s = (Raise e, s1) /\ handler e s1 = (Ok a, s').
Proof.
  unfold try_except. destruct (body s) as [[a1 | e] s1]; intros H; [left | right]; eauto.
Qed.

Lemma preserved_database {A} (m : M World A) (w w1 : World) (a : A)
  (d : list Transformation.t * list User.t * option Transformation.t * option User.t) :
  preserves database m -> m w = (Ok a, w1) -> database w = d -> database w1 = d.
Proof.
  intros Hm Hrun <-. specialize (Hm w). rewrite Hrun in Hm. exact Hm.
Qed.

Lemma assign_database (f : Transformation.t -> Transformation.t) (w w1 : World) (a : unit)
  T U st su :
  assign f w = (Ok a, w1) -> database w = (T, U, st, su) ->
  database w1 = (T, U, option_map f st, su).
Proof.
  unfold assign, modify, database. intros H Hd. injection H as _ <-.
  injection Hd as <- <- <- <-. reflexivity.
Qed.

Lemma commit_database (s : site) (w w1 : World) (a : unit) T U st su :
  commit env s w = (Ok a, w1) -> database w = (T, U, st, su) ->
  database w1 = (flush_transformation st T, flush_user su U, st, su).
Proof.
  unfold commit, call, database. unfold_monad.
  destruct (faults env s); simpl; intros H Hd; [discriminate |].
  injection H as _ <-. injection Hd as <- <- <- <-. reflexivity.
Qed.

Lemma query_transformation_database (s : site) (tid : string) (w w1 : World)
  (r : option Transformation.t) T U su :
  query_transformation env s tid w = (Ok r, w1) -> database w = (T, U, None, su) ->
  r = find_by_task_id tid T /\ database w1 = (T, U, r, su).
Proof.
  unfold query_transformation, call, database. unfold_monad.
  destruct (faults env s); simpl; intros H Hd; [discriminate |].
  injection Hd as <- <- Hst <-. rewrite Hst in H.
  destruct (find_by_task_id tid (transformations w)) as [t |]; simpl in H;
    injection H as <- <-; simpl; rewrite ?Hst; auto.
Qed.

Lemma query_user_database (uid : string) (w w1 : World) (r : option User.t) T U st :
  query_user env uid w = (Ok r, w1) -> database w = (T, U, st, None) ->
  r = find_user uid U /\ database w1 = (T, U, st, r).
Proof.
  unfold query_user, call, database. unfold_monad.
  destruct (faults env QueryUser); simpl; intros H Hd; [discriminate |].
  injection Hd as <- <- <- Hsu. rewrite Hsu in H.
  destruct (find_user uid (users w)) as [u |]; simpl in H;
    injection H as <- <-; simpl; rewrite ?Hsu; auto.
Qed.

Lemma modify_session_user_database (v : option User.t) (w w1 : World) (a : unit)
  T U st su :
  modify (set_session_user v) w = (Ok a, w1) -> database w = (T, U, st, su) ->
  database w1 = (T, U, st, v).
Proof.
  unfold modify, database. intros H Hd. injection H as _ <-.
  injection Hd as <- <- <- <-. reflexivity.
Qed.

Tactic Notation "run_bind" hyp(H) hyp(Hdb) ident(a) :=
  cbv beta zeta in H;
  let w1 := fresh "w" in
  let Hm := fresh "Hm" in
  apply bind_Ok in H as (a & w1 & Hm & H);
  first
    [ apply (assign_database _ _ _ _ _ _ _ _ Hm) in Hdb
    | apply (commit_database _ _ _ _ _ _ _ _ Hm) in Hdb
    | apply (modify_session_user_database _ _ _ _ _ _ _ _ Hm) in Hdb
    | lazymatch type of Hm with
      | ?m _ = _ =>
          let P := fresh "P" in
          assert (P : preserves database m) by preserves_auto;
          apply (preserved_database m _ _ _ _ P Hm) in Hdb; clear P
      end ];
  clear Hm.

Ltac run_step H Hdb := let a := fresh "a" in run_bind H Hdb a.

(** X11. A completed result is a stored one. When a worker that starts
    with an empty database session returns the completed result, the table
    holds the record of the job with status [completed], the returned URL
    as [result_url], the returned duration as [processing_time], the
    generated file name and a completion time, its key being the returned
    transformation id; and the owner's counter of transformations, when the
    owner exists, is one higher than before. *)
Theorem completed_result_is_stored (w w' : World) (result_url : string)
  (processing_time : Z) (transformation_id : string) :
  session_transformation w = None -> session_user w = None ->
  process_image_task env task_id user_id image_data filename model_name prompt
    negative_prompt strength guidance_scale num_inference_steps seed w
  = (Ok (Completed result_url processing_time transformation_id), w') ->
  exists row,
    find_by_task_id task_id (transformations w') = Some row /\
    Transformation.id row = transformation_id /\
    Transformation.status row = completed /\
    Transformation.result_url row = Some result_url /\
    Transformation.result_filename row = Some ("result_" ++ uuid4 env ++ ".jpg") /\
    Transformation.processing_time row = Some processing_time /\
    Transformation.completed_at row <> None /\
    forall u, find_user user_id (users w) = Some u ->
      find_user user_id (users w')
      = Some {| User.id := User.id u;
                User.total_transformations := User.total_transformations u + 1 |}.
Proof.
  intros Hsess Huser Hrun. unfold process_image_task in Hrun.
  apply try_finally_Ok in Hrun as (w9 & Hrun & Hclean).
  assert (database w' = database w9) as Hfinal.
  { apply (preserved_database (clean_up env) w9 w' tt); [| exact Hclean | reflexivity].
    unfold clean_up. repeat preserves_step. }
  apply try_except_Ok in Hrun as [Hrun | (e & w1 & _ & Hhandler)].
  2:{ destruct (on_exception_returns env task_id model_name e w1) as (? & ? & Hon & _).
      rewrite Hon in Hhandler. discriminate Hhandler. }
  assert (database w = (transformations w, users w, None, None)) as Hdb
    by (unfold database; rewrite Hsess, Huser; reflexivity).
  unfold run_phases in Hrun.
  apply bind_Ok in Hrun as (found & w1 & Hquery & Hrun).
  destruct (query_transformation_database _ _ _ _ _ _ _ _ Hquery Hdb) as [-> Hdb1].
  clear Hquery Hdb. rename Hdb1 into Hdb.
  destruct (find_by_task_id task_id (transformations w)) as [row0 |] eqn:Hrow0.
  2:{ apply bind_Ok in Hrun as (? & ? & _ & Hrun). discriminate Hrun. }
  do 5 run_step Hrun Hdb.
  destruct (Validators.validate_prompt prompt 1000) as [is_valid_prompt prompt_error].
  run_step Hrun Hdb.
  destruct (Validators.validate_generation_parameters
              strength guidance_scale num_inference_steps seed)
    as [is_valid_params params_error].
  do 8 run_step Hrun Hdb.
  run_bind Hrun Hdb generated.
  cbv beta in Hrun. destruct generated as [result_image |]; [| discriminate Hrun].
  run_step Hrun Hdb.
  run_bind Hrun Hdb url.
  run_step Hrun Hdb.
  run_bind Hrun Hdb elapsed.
  do 9 run_step Hrun Hdb.
  cbn [option_map] in Hdb. change (flush_user None (users w)) with (users w) in Hdb.
  apply bind_Ok in Hrun as (user & w30 & Hquser & Hrun).
  destruct (query_user_database _ _ _ _ _ _ _ Hquser Hdb) as [-> Hdb1].
  clear Hquser Hdb. rename Hdb1 into Hdb.
  assert (Hrow0_task : Transformation.task_id row0 = task_id).
  { apply find_some in Hrow0 as [_ Hp]. apply String.eqb_eq in Hp. exact Hp. }
  assert (transformations w' = transformations w9 /\ users w' = users w9) as [HT HU]
    by (unfold database in Hfinal; injection Hfinal; auto).
  rewrite HT, HU. clear HT HU Hfinal Hclean.
  destruct (find_user user_id (users w)) as [u |] eqn:Hu;
    do 4 run_step Hrun Hdb;
    unfold ret in Hrun; injection Hrun as <- <- <- <-;
    pose proof (f_equal (fun d => fst (fst (fst d))) Hdb) as HT;
    pose proof (f_equal (fun d => snd (fst (fst d))) Hdb) as HU;
    cbn [fst snd database] in HT, HU; rewrite HT, HU; clear HT HU Hdb;
    (eexists; split;
     [ lazymatch goal with
       | |- find_by_task_id _ (flush_transformation (Some ?tf)
                                 (flush_transformation (Some ?tm) _)) = _ =>
           apply (find_after_replace Transformation.id
                    (fun r => (Transformation.task_id r =? task_id)%string) _ tm tf);
           [ apply (find_after_replace Transformation.id
                      (fun r => (Transformation.task_id r =? task_id)%string) _ row0 tm);
             [ exact Hrow0 | reflexivity | simpl; rewrite Hrow0_task; apply String.eqb_refl ]
           | reflexivity
           | simpl; rewrite Hrow0_task; apply String.eqb_refl ]
       end
     | simpl; repeat (split; [reflexivity || discriminate |]) ]).
  - intros u0 Hu0. injection Hu0 as <-.
    apply (find_after_replace User.id (fun r => (User.id r =? user_id)%string)
             (users w) u
             {| User.id := User.id u;
                User.total_transformations := User.total_transformations u + 1 |} Hu);
      [reflexivity |].
    simpl. apply find_some in Hu as [_ Hp]. exact Hp.
  - intros u0 Hu0. discriminate Hu0.
Qed.

End TaskOutcomes.

(** ** The read and delete endpoints of a transformation *)

Section TransformationAccess.

Import Models TransformRoutes.

Variable env : Env.
Variable delete_file : string -> result bool.

Lemma status_eqb_eq (a b : transformation_status) : status_eqb a b = true <-> a = b.
Proof. destruct a, b; simpl; split; congruence. Qed.

(** X12. [get_transform_result] hands out a result only to the owner and
    only of a completed transformation: a 200 answer carries the record the
    caller owns under this task id, whose status is [completed], and its
    stored [result_url] as download URL; when the lookup does not raise,
    every such record is answered this way. The endpoint writes nothing. *)
Theorem get_transform_result_spec (current_user_id task_id : string) (s : State) :
  let out := get_transform_result env current_user_id task_id s in
  transformations (snd out) = transformations s /\
  revoked (snd out) = revoked s /\
  (forall body, fst out = Ok (body, 200) ->
     exists t,
       body = Result t (Transformation.result_url t) /\
       find (owned_by current_user_id task_id) (transformations s) = Some t /\
       Transformation.user_id t = current_user_id /\
       Transformation.task_id t = task_id /\
       Transformation.status t = completed) /\
  (forall t,
     faults env Query = None ->
     find (owned_by current_user_id task_id) (transformations s) = Some t ->
     Transformation.status t = completed ->
     fst out = Ok (Result t (Transformation.result_url t), 200)).
Proof.
  unfold get_transform_result, query, call, logger. unfold_monad.
  fold (owned_by current_user_id task_id).
  destruct (faults env Query) as [e |]; simpl.
  { repeat split; [intros body H; discriminate H | intros t H; discriminate H]. }
  destruct (find (owned_by current_user_id task_id) (transformations s)) as [t |] eqn:Hfind;
    simpl.
  2:{ repeat split; [intros body H; discriminate H | intros t _ H; discriminate H]. }
  destruct (status_eqb (Transformation.status t) completed) eqn:Hst; simpl.
  - apply status_eqb_eq in Hst.
    split; [reflexivity |]. split; [reflexivity |]. split.
    + intros body H. injection H as <-. exists t.
      apply find_some in Hfind as [_ Hown]. unfold owned_by in Hown.
      apply andb_true_iff in Hown as [Htask Huser].
      apply String.eqb_eq in Htask, Huser. auto.
    + intros t' _ H _. injection H as <-. reflexivity.
  - split; [reflexivity |]. split; [reflexivity |]. split.
    + intros body H. discriminate H.
    + intros t' _ H Hdone. injection H as <-.
      apply status_eqb_eq in Hdone. congruence.
Qed.

(** X13. Another user's task id is as good as an unknown one. When the
    caller owns no transformation under the task id, whoever else does,
    the status, result, cancel and delete endpoints all answer 404 (500 when
    the lookup raises), and none of them changes the table or asks the
    queue to revoke anything. *)
Theorem foreign_task_is_not_found (current_user_id task_id : string) (s : State) :
  find (owned_by current_user_id task_id) (transformations s) = None ->
  (exists r s', get_transform_status env current_user_id task_id s = (Ok (Refused r None, 404), s')
                \/ get_transform_status env current_user_id task_id s = (Ok (Refused r None, 500), s')) /\
  (exists r s', get_transform_result env current_user_id task_id s = (Ok (Refused r None, 404), s')
                \/ get_transform_result env current_user_id task_id s = (Ok (Refused r None, 500), s')) /\
  (exists r s', cancel_transformation env current_user_id task_id s = (Ok (Error r None, 404), s')
                \/ cancel_transformation env current_user_id task_id s = (Ok (Error r None, 500), s')) /\
  (exists r s', delete_transformation env delete_file current_user_id task_id s
                  = (Ok (Refused r None, 404), s')
                \/ delete_transformation env delete_file current_user_id task_id s
                  = (Ok (Refused r None, 500), s')) /\
  (forall out,
     out = snd (get_transform_status env current_user_id task_id s) \/
     out = snd (get_transform_result env current_user_id task_id s) \/
     out = snd (cancel_transformation env current_user_id task_id s) \/
     out = snd (delete_transformation env delete_file current_user_id task_id s) ->
     transformations out = transformations s /\ revoked out = revoked s).
Proof.
  intros Hfind.
  unfold get_transform_status, get_transform_result, cancel_transformation,
    delete_transformation, query, call, logger.
  unfold_monad. fold (owned_by current_user_id task_id).
  destruct (faults env Query) as [e |]; simpl; rewrite ?Hfind; simpl.
  - repeat split; try (do 2 eexists; right; reflexivity);
      destruct H as [-> | [-> | [-> | ->]]]; reflexivity.
  - repeat split; try (do 2 eexists; left; reflexivity);
      destruct H as [-> | [-> | [-> | ->]]]; reflexivity.
Qed.

(** X14. [delete_transformation] does not depend on the storage: for a
    record the caller owns, when the database answers, the record is
    removed and the answer is 200 whether [delete_file] succeeds, returns
    [False] or raises; exactly the rows with the key of that record leave
    the table. When the commit raises, the answer is 500 and the table is
    unchanged. *)
Theorem delete_transformation_spec (current_user_id task_id : string) (s : State)
  (t : Transformation.t) :
  find (owned_by current_user_id task_id) (transformations s) = Some t ->
  faults env Query = None ->
  let out := delete_transformation env delete_file current_user_id task_id s in
  (faults env Commit = None ->
     fst out = Ok (Done "Transformation deleted", 200) /\
     (forall r, In r (transformations (snd out)) <->
                In r (transformations s) /\ Transformation.id r <> Transformation.id t)) /\
  (faults env Commit <> None ->
     fst out = Ok (Refused "Failed to delete transformation" None, 500) /\
     transformations (snd out) = transformations s).
Proof.
  intros Hfind Hquery.
  unfold delete_transformation, delete_and_commit, query, call, logger.
  unfold_monad. fold (owned_by current_user_id task_id). rewrite Hquery. simpl.
  rewrite Hfind. simpl.
  assert (forall r rows,
            In r (filter (fun r => negb (Transformation.id r =? Transformation.id t)%string)
                    rows)
            <-> In r rows /\ Transformation.id r <> Transformation.id t) as Hrows.
  { intros r rows. rewrite filter_In, negb_true_iff, String.eqb_neq. reflexivity. }
  destruct (faults env Commit) as [e |]; simpl.
  - split; [intros H; discriminate H | intros _].
    destruct (negb (Transformation.original_url t =? "")%string);
      [destruct (delete_file (Transformation.original_url t)) as [b | e1] |];
      simpl;
      try (destruct (Transformation.result_url t) as [url |];
           [destruct (negb (url =? "")%string);
            [destruct (delete_file url) as [b2 | e2] |] |]);
      simpl; split; reflexivity.
  - split; [intros _ | intros H; congruence].
    destruct (negb (Transformation.original_url t =? "")%string);
      [destruct (delete_file (Transformation.original_url t)) as [b | e1] |];
      simpl;
      try (destruct (Transformation.result_url t) as [url |];
           [destruct (negb (url =? "")%string);
            [destruct (delete_file url) as [b2 | e2] |] |]);
      simpl; (split; [reflexivity |]); intros r; apply Hrows.
Qed.

End TransformationAccess.

(** ** Reading, sharing and deleting gallery items *)

Section GalleryAccess.

Import Models GalleryRoutes.

Variable env : Env.

Lemma find_app_last {A} (p : A -> bool) (l : list A) (x : A) :
  find p l = None -> find p (l ++ [x]) = if p x then Some x else None.
Proof.
  induction l as [| a l IH]; simpl; [reflexivity |].
  destruct (p a); [discriminate | exact IH].
Qed.

Lemma find_none_iff {A} (p : A -> bool) (l : list A) :
  find p l = None <-> forall x, In x l -> p x = false.
Proof.
  split.
  - intros H x Hin. apply (find_none p l H x Hin).
  - induction l as [| a l IH]; intros H; simpl; [reflexivity |].
    rewrite (H a (or_introl eq_refl)). apply IH. intros x Hin. apply H. right. exact Hin.
Qed.

Lemma apply_update_id (data : Data) (item : GalleryItem.t) :
  GalleryItem.id (apply_update env data item) = GalleryItem.id item.
Proof.
  unfold apply_update, apply_is_public.
  destruct (title data), (description data), (tags data), (is_public data) as [[] |];
    simpl; try reflexivity;
    repeat match goal with
      | |- context [if ?b then _ else _] => destruct b; simpl
      end; reflexivity.
Qed.

Lemma apply_update_private (data : Data) (item : GalleryItem.t) :
  is_public data = Some false ->
  GalleryItem.is_public (apply_update env data item) = false.
Proof.
  intros H. unfold apply_update, apply_is_public. rewrite H.
  destruct (title data), (description data), (tags data); reflexivity.
Qed.

(** X15. [get_gallery_item] keeps private items private. Whoever asks, a
    200 answer shows the item stored under the requested id, and either
    that item is public or the caller is its owner; the item shown is the
    stored one, or the stored one with its view count raised by one. A
    request for a private item never writes to the table. *)
Theorem get_gallery_item_privacy (current_user_id : identity) (gallery_item_id : string)
  (s : State) :
  let out := get_gallery_item env current_user_id gallery_item_id s in
  (forall body, fst out = Ok (body, 200) ->
     exists item,
       find (fun r => (GalleryItem.id r =? gallery_item_id)%string) (gallery_items s)
         = Some item /\
       (GalleryItem.is_public item = true \/
        current_user_id = UuidIdentity (GalleryItem.user_id item)) /\
       (body = Shown item \/
        body = Shown (GalleryItem.set_view_count (GalleryItem.view_count item + 1) item))) /\
  (forall item,
     find (fun r => (GalleryItem.id r =? gallery_item_id)%string) (gallery_items s)
       = Some item ->
     GalleryItem.is_public item = false ->
     gallery_items (snd out) = gallery_items s).
Proof.
  unfold get_gallery_item, query_get, commit, call, logger. unfold_monad.
  destruct (faults env QueryGalleryItem) as [e |]; simpl.
  { split; [intros body H; discriminate H | reflexivity]. }
  destruct (find (fun r => (GalleryItem.id r =? gallery_item_id)%string) (gallery_items s))
    as [item |] eqn:Hfind; simpl.
  2:{ split; [intros body H; discriminate H | reflexivity]. }
  assert (is_other item current_user_id = false ->
          current_user_id = UuidIdentity (GalleryItem.user_id item)) as Howner.
  { unfold is_other. destruct current_user_id as [| str | u]; try discriminate.
    intros H. apply negb_false_iff, String.eqb_eq in H. congruence. }
  destruct (GalleryItem.is_public item) eqn:Hpub;
    destruct (is_other item current_user_id) eqn:Hother; simpl.
  - destruct (faults env Commit) as [e |]; simpl.
    + split; [intros body H; discriminate H | intros ? H; injection H as <-; congruence].
    + split; [| intros ? H; injection H as <-; congruence].
      intros body H. injection H as <-. exists item. auto.
  - split; [| intros ? H; injection H as <-; congruence].
    intros body H. injection H as <-. exists item. auto.
  - split; [intros body H; discriminate H | reflexivity].
  - split; [| reflexivity].
    intros body H. injection H as <-. exists item. auto.
Qed.

(** X16. A share link resolves to the item it was issued for. After
    [create_gallery_item] has answered 201 to a request for a public item,
    and provided no older item carries the same token, a request to the
    share endpoint with the token of the new item answers 200 with that
    item, its view count raised by one, when the database does not
    raise. *)
Theorem share_link_resolves (env' : Env) (current_user_id : string) (data : Data)
  (s s1 : State) (message : string) (item : GalleryItem.t) :
  create_gallery_item env current_user_id data s = (Ok (Item message item, 201), s1) ->
  is_public data = Some true ->
  (forall r, In r (gallery_items s) ->
     GalleryItem.share_token r <> Some (token_urlsafe env)) ->
  faults env' QueryGalleryItem = None -> faults env' Commit = None ->
  GalleryItem.share_token item = Some (token_urlsafe env) /\
  fst (get_shared_gallery_item env' (token_urlsafe env) s1)
  = Ok (Shown (GalleryItem.set_view_count (GalleryItem.view_count item + 1) item), 200).
Proof.
  intros Hcreate Hpublic Hfresh Hquery Hcommit.
  destruct (create_gallery_item_cases env current_user_id data s)
    as (body & code & s' & Hrun & Hcases).
  rewrite Hcreate in Hrun. injection Hrun as <- <- <-.
  destruct Hcases as [[Hcode _] | (item' & _ & Hbody & Hitems & _ & Hpub & Htoken & _)];
    [congruence |].
  injection Hbody as _ <-. rewrite Hpublic in Hpub, Htoken. simpl in Hpub, Htoken.
  split; [exact Htoken |].
  unfold get_shared_gallery_item, query_shared, commit, call, logger. unfold_monad.
  rewrite Hquery. simpl. rewrite Hitems, find_app_last.
  - rewrite Htoken, Hpub, String.eqb_refl. simpl. rewrite Hcommit. reflexivity.
  - apply find_none_iff. intros r Hin. specialize (Hfresh r Hin).
    destruct (GalleryItem.share_token r) as [tok |]; [| reflexivity].
    destruct (tok =? token_urlsafe env)%string eqn:E; [| reflexivity].
    apply String.eqb_eq in E. congruence.
Qed.

(** X17. Withdrawing an item closes its share links. After
    [update_gallery_item] has answered 200 to a request that sets
    [is_public] to false, the share endpoint shows that item under no
    token whatsoever. *)
Theorem withdrawn_item_is_not_shared (env' : Env) (current_user_id gallery_item_id : string)
  (data : Data) (s s1 : State) (body : body) :
  update_gallery_item env current_user_id gallery_item_id data s = (Ok (body, 200), s1) ->
  is_public data = Some false ->
  forall share_token shown code,
    fst (get_shared_gallery_item env' share_token s1) = Ok (Shown shown, code) ->
    GalleryItem.id shown <> gallery_item_id.
Proof.
  intros Hupdate Hprivate share_token shown code Hshown.
  assert (forall r, In r (gallery_items s1) ->
            GalleryItem.id r = gallery_item_id -> GalleryItem.is_public r = false)
    as Hrows.
  { revert Hupdate. unfold update_gallery_item, query_item, commit, call, logger.
    unfold_monad. remember (apply_update env data) as updated eqn:Hupdated.
    destruct (faults env QueryGalleryItem); simpl; [intros H; discriminate H |].
    destruct (find _ (gallery_items s)) as [item |] eqn:Hitem; simpl;
      [| intros H; discriminate H].
    destruct (faults env GetJson); simpl; [intros H; discriminate H |].
    destruct (faults env Commit); simpl; [intros H; discriminate H |].
    intros H. injection H as _ <-. simpl.
    apply find_some in Hitem as [_ Hkey]. apply andb_true_iff in Hkey as [Hid _].
    apply String.eqb_eq in Hid.
    intros r Hin Hr. apply in_map_iff in Hin as (r0 & Hr0 & _). subst updated.
    rewrite apply_update_id, Hid in Hr0.
    destruct (GalleryItem.id r0 =? gallery_item_id)%string eqn:E.
    - subst r. apply apply_update_private. exact Hprivate.
    - subst r. apply String.eqb_neq in E. contradiction. }
  revert Hshown. unfold get_shared_gallery_item, query_shared, commit, call, logger.
  unfold_monad.
  destruct (faults env' QueryGalleryItem); simpl; [intros H; discriminate H |].
  destruct (find _ (gallery_items s1)) as [found |] eqn:Hfound; simpl;
    [| intros H; discriminate H].
  apply find_some in Hfound as [Hin Hkey]. apply andb_true_iff in Hkey as [_ Hpub].
  destruct (faults env' Commit); simpl; intros H; [discriminate H |].
  injection H as <- _. simpl. intros Hid.
  rewrite (Hrows found Hin Hid) in Hpub. discriminate Hpub.
Qed.

(** X18. [delete_gallery_item] is the owner's: a 200 answer means the
    caller owned the item, every row with its id has left the table and no
    other row has, so that a later [get_gallery_item] for the id answers
    404; for a caller who does not own the item the answer is 404 (500 when
    the lookup raises) and the table is unchanged. *)
Theorem delete_gallery_item_spec (env' : Env) (current_user_id gallery_item_id : string)
  (s : State) :
  let out := delete_gallery_item env current_user_id gallery_item_id s in
  let owned := fun r => (GalleryItem.id r =? gallery_item_id)%string
                        && (GalleryItem.user_id r =? current_user_id)%string in
  (forall body, fst out = Ok (body, 200) ->
     find owned (gallery_items s) <> None /\
     (forall r, In r (gallery_items (snd out)) <->
                In r (gallery_items s) /\ GalleryItem.id r <> gallery_item_id) /\
     forall who,
       faults env' QueryGalleryItem = None ->
       fst (get_gallery_item env' who gallery_item_id (snd out))
       = Ok (Refused "Gallery item not found", 404)) /\
  (find owned (gallery_items s) = None ->
     gallery_items (snd out) = gallery_items s /\
     (fst out = Ok (Refused "Gallery item not found", 404) \/
      fst out = Ok (Refused "Failed to delete gallery item", 500))).
Proof.
  unfold delete_gallery_item, delete_and_commit, query_item, call, logger. unfold_monad.
  destruct (faults env QueryGalleryItem) as [e |]; simpl.
  { split; [intros body H; discriminate H | auto]. }
  destruct (find _ (gallery_items s)) as [item |] eqn:Hitem; simpl.
  2:{ split; [intros body H; discriminate H | auto]. }
  destruct (faults env Commit) as [e |]; simpl.
  { split; [intros body H; discriminate H | intros H; discriminate H]. }
  split; [| intros H; discriminate H].
  intros body _. split; [discriminate |].
  apply find_some in Hitem as [_ Hkey]. apply andb_true_iff in Hkey as [Hid _].
  apply String.eqb_eq in Hid. rewrite Hid.
  assert (forall r,
            In r (filter (fun r => negb (GalleryItem.id r =? gallery_item_id)%string)
                    (gallery_items s))
            <-> In r (gallery_items s) /\ GalleryItem.id r <> gallery_item_id) as Hrows.
  { intros r. rewrite filter_In, negb_true_iff, String.eqb_neq. reflexivity. }
  split; [exact Hrows |].
  intros who Hquery.
  unfold get_gallery_item, query_get, call. unfold_monad. rewrite Hquery. simpl.
  assert (find (fun r => (GalleryItem.id r =? gallery_item_id)%string)
            (filter (fun r => negb (GalleryItem.id r =? gallery_item_id)%string)
               (gallery_items s)) = None) as ->; [| reflexivity].
  apply find_none_iff. intros r Hin. apply Hrows in Hin as [_ Hne].
  apply String.eqb_neq. exact Hne.
Qed.

(** X22. [update_gallery_item] is the owner's and changes only what the
    request names. A 200 answer means the caller owned the item, and the
    table holds the updated item in the place of the rows with its id;
    for a caller who does not own the item the answer is 404 (500 when the
    lookup raises) and the table is unchanged. The update never changes the
    id, the owner, the transformation, the counters or the creation time of
    an item; it keeps the title when the request has none, and the
    visibility and the share token when the request has no [is_public]. *)
Theorem update_gallery_item_spec (current_user_id gallery_item_id : string) (data : Data)
  (s : State) :
  let out := update_gallery_item env current_user_id gallery_item_id data s in
  let owned := fun r => (GalleryItem.id r =? gallery_item_id)%string
                        && (GalleryItem.user_id r =? current_user_id)%string in
  (forall body, fst out = Ok (body, 200) ->
     exists item,
       find owned (gallery_items s) = Some item /\
       body = Item "Gallery item updated successfully" (apply_update env data item) /\
       gallery_items (snd out)
       = map (fun r => if (GalleryItem.id r =? gallery_item_id)%string
                       then apply_update env data item else r) (gallery_items s)) /\
  (find owned (gallery_items s) = None ->
     gallery_items (snd out) = gallery_items s /\
     (fst out = Ok (Error "Gallery item not found", 404) \/
      fst out = Ok (Error "Failed to update gallery item", 500))) /\
  (forall item,
     let item' := apply_update env data item in
     GalleryItem.id item' = GalleryItem.id item /\
     GalleryItem.user_id item' = GalleryItem.user_id item /\
     GalleryItem.transformation_id item' = GalleryItem.transformation_id item /\
     GalleryItem.view_count item' = GalleryItem.view_count item /\
     GalleryItem.like_count item' = GalleryItem.like_count item /\
     GalleryItem.download_count item' = GalleryItem.download_count item /\
     GalleryItem.created_at item' = GalleryItem.created_at item /\
     (title data = None -> GalleryItem.title item' = GalleryItem.title item) /\
     (is_public data = None ->
      GalleryItem.is_public item' = GalleryItem.is_public item /\
      GalleryItem.share_token item' = GalleryItem.share_token item)).
Proof.
  cbv zeta. split; [| split].
  - unfold update_gallery_item, query_item, commit, call, logger. unfold_monad.
    remember (apply_update env data) as updated eqn:Hupdated.
    destruct (faults env QueryGalleryItem); simpl; [intros body H; discriminate H |].
    destruct (find _ (gallery_items s)) as [item |] eqn:Hitem; simpl;
      [| intros body H; discriminate H].
    destruct (faults env GetJson); simpl; [intros body H; discriminate H |].
    destruct (faults env Commit); simpl; intros body H; [discriminate H |].
    injection H as <-. exists item. split; [reflexivity |]. split; [reflexivity |].
    subst updated. rewrite apply_update_id.
    apply find_some in Hitem as [_ Hkey]. apply andb_true_iff in Hkey as [Hid _].
    apply String.eqb_eq in Hid. rewrite Hid. reflexivity.
  - intros Hnone. unfold update_gallery_item, query_item, commit, call, logger.
    unfold_monad.
    destruct (faults env QueryGalleryItem); simpl; [auto |].
    rewrite Hnone. simpl. auto.
  - intros item. unfold apply_update, apply_is_public.
    destruct (title data), (description data), (tags data), (is_public data) as [[] |];
      simpl;
      repeat match goal with
        | |- context [if ?b then _ else _] => destruct b; simpl
        end;
      repeat split; auto; discriminate.
Qed.

End GalleryAccess.

(** ** The local storage backend *)

Section LocalStorage.

Import StorageService.

Variable env : Env.

Lemma append_assoc (a b c : string) : (a ++ b) ++ c = a ++ (b ++ c).
Proof. induction a as [| d a IH]; simpl; congruence. Qed.

Lemma append_nonempty (a b : string) : b <> "" -> ((a ++ b) =? "")%string = false.
Proof.
  intros Hb. apply String.eqb_neq. destruct a; simpl; [exact Hb | discriminate].
Qed.

Lemma append_longer (a b : string) : b <> "" -> ((a =? a ++ b)%string) = false.
Proof.
  intros Hb. apply String.eqb_neq. intros H. apply Hb. clear Hb.
  induction a as [| d a IH]; simpl in H; [congruence |].
  injection H as H. exact (IH H).
Qed.

Lemma startswith_slash_app (a b : string) :
  a <> "" -> startswith (a ++ b) "/" = startswith a "/".
Proof.
  intros Ha. destruct a as [| c a]; [congruence |]. unfold startswith.
  change (prefix "/" (String c a ++ b))
    with (if ascii_dec "/" c then prefix "" (a ++ b) else false).
  change (prefix "/" (String c a)) with (if ascii_dec "/" c then prefix "" a else false).
  destruct (ascii_dec "/" c); [| reflexivity].
  destruct (a ++ b), a; reflexivity.
Qed.

Lemma endswith_char_app (a b : string) (c : ascii) :
  b <> "" -> endswith_char (a ++ b) c = endswith_char b c.
Proof.
  intros Hb. induction a as [| d a IH]; [reflexivity |].
  change (String d a ++ b) with (String d (a ++ b)).
  destruct (a ++ b) as [| e rest] eqn:E.
  - destruct a; simpl in E; congruence.
  - simpl. exact IH.
Qed.

(** Joining the folder and then the file name gives the path that joining
    the part of the URL after [/uploads/] gives. *)
Lemma path_join_nested (root folder filename : string) :
  folder <> "" -> startswith folder "/" = false -> endswith_char folder "/" = false ->
  startswith filename "/" = false ->
  path_join (path_join root folder) filename = path_join root folder ++ "/" ++ filename /\
  path_join root (folder ++ "/" ++ filename) = path_join root folder ++ "/" ++ filename.
Proof.
  intros Hne Hstart Hend Hfile. unfold path_join.
  rewrite Hstart, Hfile, (startswith_slash_app folder _ Hne), Hstart.
  destruct ((root =? "")%string || endswith_char root "/").
  - rewrite (append_nonempty root folder Hne), (endswith_char_app root folder "/" Hne), Hend.
    simpl orb. cbv iota. rewrite append_assoc. auto.
  - assert ("/" ++ folder <> "") as Hne' by discriminate.
    rewrite (append_nonempty root ("/" ++ folder) Hne'),
      (endswith_char_app root ("/" ++ folder) "/" Hne').
    assert (endswith_char ("/" ++ folder) "/" = endswith_char folder "/") as ->
      by (destruct folder; [congruence | reflexivity]).
    rewrite Hend. simpl orb. cbv iota. rewrite !append_assoc. auto.
Qed.

Lemma lookup_unlink (path : string) (fs : list (string * entry)) :
  lookup path (unlink path fs) = None.
Proof.
  induction fs as [| [p e] fs IH]; simpl; [reflexivity |].
  destruct (p =? path)%string eqn:E; simpl; [exact IH |].
  rewrite E. exact IH.
Qed.

Lemma lookup_unlink_other (path other : string) (fs : list (string * entry)) :
  other <> path -> lookup other (unlink path fs) = lookup other fs.
Proof.
  intros Hne. induction fs as [| [p e] fs IH]; simpl; [reflexivity |].
  destruct (p =? path)%string eqn:E; simpl.
  - apply String.eqb_eq in E. subst p.
    assert ((path =? other)%string = false) as ->
      by (apply String.eqb_neq; congruence).
    exact IH.
  - rewrite IH. reflexivity.
Qed.

(** X19. [_delete_from_local] never raises and answers whether it removed
    a file. When it answers [False] the files are as they were; when it
    answers [True] the URL started with [/uploads/], a file was stored at
    the path the rest of the URL is joined to, that path is free afterwards
    and every other path holds what it held. *)
Theorem delete_from_local_contract (file_url : string) (st : Storage) :
  exists deleted st',
    _delete_from_local env file_url st = (Ok deleted, st') /\
    local_storage_path st' = local_storage_path st /\
    (deleted = false -> files st' = files st) /\
    (deleted = true ->
     let file_path := path_join (local_storage_path st) (drop 9 file_url) in
     startswith file_url "/uploads/" = true /\
     (exists content st_mtime, lookup file_path (files st) = Some (Regular content st_mtime)) /\
     lookup file_path (files st') = None /\
     forall other, other <> file_path -> lookup other (files st') = lookup other (files st)).
Proof.
  unfold _delete_from_local, remove, call, logger. unfold_monad. cbv beta zeta.
  remember (path_join (local_storage_path st) (drop 9 file_url)) as file_path eqn:Hpath.
  destruct (startswith file_url "/uploads/"); cbv beta iota.
  2:{ do 2 eexists. split; [reflexivity |]. simpl. repeat split; auto; discriminate. }
  destruct (lookup file_path (files st)) as [[size mtime | content mtime] |] eqn:Hlook;
    cbv beta iota.
  - destruct (faults env Remove); cbv beta iota; rewrite ?Hlook;
      do 2 eexists; (split; [reflexivity |]); simpl; repeat split; auto; discriminate.
  - destruct (faults env Remove); cbv beta iota; rewrite ?Hlook.
    + do 2 eexists. split; [reflexivity |]. simpl. repeat split; auto; discriminate.
    + do 2 eexists. split; [reflexivity |]. simpl.
      split; [reflexivity |]. split; [discriminate |]. intros _.
      split; [reflexivity |]. split; [eauto |].
      split; [apply lookup_unlink | intros other Hne; apply lookup_unlink_other; exact Hne].
  - do 2 eexists. split; [reflexivity |]. simpl. repeat split; auto; discriminate.
Qed.

(** X20. What [_upload_bytes_to_local] stores, its URL finds again. For a
    folder name that is not empty and neither starts nor ends with a slash,
    a file name that does not start with a slash, a folder path that is not
    taken by a file and a file path that is not taken by a directory: when
    no call into [os] raises, the upload returns the URL
    [/uploads/<folder>/<filename>]; [_get_local_file_info] on that URL then
    reports the size of the uploaded bytes, and [_delete_from_local] on it
    answers [True], after which the URL has no file info and a second
    deletion answers [False]. *)
Theorem local_upload_round_trip (st : Storage) (file_bytes filename folder : string) :
  folder <> "" -> startswith folder "/" = false -> endswith_char folder "/" = false ->
  startswith filename "/" = false ->
  faults env Makedirs = None -> faults env OpenWrite = None ->
  (forall content st_mtime,
     lookup (path_join (local_storage_path st) folder) (files st)
     <> Some (Regular content st_mtime)) ->
  (forall st_size st_mtime,
     lookup (path_join (path_join (local_storage_path st) folder) filename) (files st)
     <> Some (Directory st_size st_mtime)) ->
  let url := "/uploads/" ++ folder ++ "/" ++ filename in
  exists st1,
    _upload_bytes_to_local env file_bytes filename folder st = (Ok url, st1) /\
    (faults env Stat = None ->
     exists info,
       fst (_get_local_file_info env url st1) = Ok (Some info) /\
       size info = len file_bytes /\ last_modified info = now env) /\
    (faults env Remove = None ->
     exists st2,
       _delete_from_local env url st1 = (Ok true, st2) /\
       fst (_get_local_file_info env url st2) = Ok None /\
       fst (_delete_from_local env url st2) = Ok false).
Proof.
  intros Hne Hstart Hend Hfile Hmakedirs Hwrite Hfolder Hpath url.
  destruct (path_join_nested (local_storage_path st) folder filename Hne Hstart Hend Hfile)
    as [Hupload Hurl].
  assert (startswith url "/uploads/" = true) as Hprefix
    by (unfold url; destruct (folder ++ "/" ++ filename); reflexivity).
  assert (drop 9 url = folder ++ "/" ++ filename) as Hdrop by reflexivity.
  remember (path_join (local_storage_path st) folder) as folder_path eqn:Efolder.
  remember (path_join folder_path filename) as file_path eqn:Efile.
  assert ((folder_path =? file_path)%string = false) as Hdiffer.
  { rewrite Hupload. apply append_longer. discriminate. }
  assert (exists fs,
            _upload_bytes_to_local env file_bytes filename folder st
            = (Ok url,
               set_log (("Bytes uploaded locally", file_path) :: log st)
                 (set_files ((file_path, Regular file_bytes (now env)) :: unlink file_path fs)
                    st))) as (fs & Hrun).
  { unfold _upload_bytes_to_local, makedirs, write_bytes, call, logger. unfold_monad.
    cbv beta zeta. rewrite Hmakedirs, Hwrite, <- Efolder, <- Efile. cbv beta iota.
    destruct (lookup folder_path (files st)) as [[a b | c m] |] eqn:Hlook; cbv beta iota.
    - destruct (lookup file_path (files st)) as [[a' b' | c' m'] |] eqn:Hlook'; cbv beta iota;
        [exfalso; exact (Hpath a' b' eq_refl) | |]; eexists; reflexivity.
    - exfalso. exact (Hfolder c m eq_refl).
    - cbn [files set_files lookup]. rewrite Hdiffer.
      destruct (lookup file_path (files st)) as [[a' b' | c' m'] |] eqn:Hlook'; cbv beta iota;
        [exfalso; exact (Hpath a' b' eq_refl) | |]; eexists; reflexivity. }
  eexists. split; [exact Hrun |]. split.
  - intros Hstat. unfold _get_local_file_info, call. unfold_monad. cbv beta zeta.
    rewrite Hprefix, Hdrop. cbn [local_storage_path files set_log set_files].
    rewrite Hurl, <- Hupload. cbn [lookup]. rewrite String.eqb_refl. cbv beta iota.
    rewrite Hstat. eexists. split; [reflexivity |]. split; reflexivity.
  - intros Hremove. unfold _delete_from_local, _get_local_file_info, remove, call, logger.
    unfold_monad. cbv beta zeta.
    rewrite Hprefix, Hdrop. cbn [local_storage_path files set_log set_files].
    rewrite Hurl, <- Hupload. cbn [lookup]. rewrite String.eqb_refl. cbv beta iota.
    rewrite Hremove. cbv beta iota. cbn [lookup files set_log set_files].
    rewrite String.eqb_refl. cbv beta iota.
    eexists. split; [reflexivity |].
    cbn [fst snd local_storage_path files set_log set_files unlink filter negb].
    rewrite String.eqb_refl. cbn [negb].
    change (filter (fun pe => negb (fst pe =? file_path)%string) (unlink file_path fs))
      with (unlink file_path (unlink file_path fs)).
    rewrite !Hurl, <- !Hupload, !lookup_unlink. split; reflexivity.
Qed.

End LocalStorage.

(** ** Uploaded images *)

Section UploadedImages.

Import Validators.

(** X21. What [validate_image] accepts. Under the default limits (neither
    [MAX_CONTENT_LENGTH] nor [MAX_IMAGE_SIZE] set), a verdict [True] means
    that the file is not empty and holds at most 16 MiB, that it decoded
    twice, that both sides of the image are between 64 and 2048 pixels and
    that the longer side is at most four times the shorter one; the message
    is "Valid image" and nothing was logged. *)
Theorem validate_image_accepts (environ : string -> option string) (file : FileStorage)
  (log log' : Logger) (message : string) :
  environ "MAX_CONTENT_LENGTH" = None -> environ "MAX_IMAGE_SIZE" = None ->
  validate_image environ file log = (Ok (true, message), log') ->
  exists file_size image,
    file_tell file = Ok file_size /\ file_size <> 0 /\ file_size <= 16 * 1024 * 1024 /\
    pil_open file 1%nat = Ok image /\
    64 <= fst (img_size image) <= 2048 /\ 64 <= snd (img_size image) <= 2048 /\
    Z.max (fst (img_size image)) (snd (img_size image))
      <= 4 * Z.min (fst (img_size image)) (snd (img_size image)) /\
    message = "Valid image" /\ log' = log.
Proof.
  intros Hcontent Hsize H. revert H.
  unfold validate_image, getenv_int, log_error, truediv. rewrite Hcontent, Hsize.
  unfold_monad.
  destruct (file_seek file 0%nat) as [[] | e]; [| intros H; discriminate H].
  destruct (file_tell file) as [file_size | e]; [| intros H; discriminate H].
  destruct (file_seek file 1%nat) as [[] | e]; [| intros H; discriminate H].
  destruct (Z.gtb_spec file_size (16 * 1024 * 1024)) as [Hbig | Hfits];
    [intros H; discriminate H |].
  destruct (Z.eqb_spec file_size 0) as [Hzero | Hnonzero]; [intros H; discriminate H |].
  destruct (pil_open file 0%nat) as [first | e]; [| intros H; discriminate H].
  destruct (img_verify first) as [[] | e]; [| intros H; discriminate H].
  destruct (file_seek file 2%nat) as [[] | e]; [| intros H; discriminate H].
  destruct (pil_open file 1%nat) as [image | e]; [| intros H; discriminate H].
  destruct (img_size image) as [width height] eqn:Hdims. cbn [fst snd].
  destruct (Z.ltb_spec width 64) as [Hw | Hw]; [intros H; discriminate H |].
  destruct (Z.ltb_spec height 64) as [Hh | Hh]; [intros H; discriminate H |].
  cbn [orb].
  destruct (Z.gtb_spec width 2048) as [Hw' | Hw']; [intros H; discriminate H |].
  destruct (Z.gtb_spec height 2048) as [Hh' | Hh']; [intros H; discriminate H |].
  cbn [orb].
  destruct (Z.eqb_spec (Z.min width height) 0) as [Hmin | Hmin];
    [intros H; discriminate H |].
  destruct (Qle_bool (inject_Z (Z.max width height) / inject_Z (Z.min width height)) 4)
    eqn:Hratio; cbn [negb]; [| intros H; discriminate H].
  destruct (file_seek file 3%nat) as [[] | e]; intros H; [| discriminate H].
  injection H as <- <-.
  exists file_size, image. rewrite Hdims. cbn [fst snd].
  repeat split; try reflexivity; try lia.
  apply Qle_bool_iff in Hratio.
  assert (0 < Z.min width height) as Hpos by lia.
  revert Hratio Hpos. generalize (Z.max width height), (Z.min width height).
  intros a b Hratio Hpos. destruct b as [| b | b]; try lia.
  unfold Qle, Qdiv, Qmult, Qinv, inject_Z in Hratio. simpl in Hratio. lia.
Qed.

End UploadedImages.

(** ** Progress notifications *)

Section Notifications.

Import Models ImageProcessing.

Variable env : Env.

(** X24. [emit_progress_update] never raises, whatever the socket does, and
    it touches neither the database nor the generation service. When the
    import and the emit both work it sends exactly one notification, with
    the task id, status, message and percentage it was given; when either
    raises it sends nothing and logs the failure. *)
Theorem emit_progress_update_contained (task_id status message : string) (progress : Z)
  (w : World) :
  exists w',
    emit_progress_update env task_id status message progress w = (Ok tt, w') /\
    database w' = database w /\ service w' = service w /\
    (faults env (SocketImport progress) = None ->
     faults env (SocketEmit progress) = None ->
     log w' = log w /\
     exists timestamp,
       emitted w' =
         {| Notification.task_id := task_id; Notification.status := status;
            Notification.message := message; Notification.progress := progress;
            Notification.timestamp := timestamp |} :: emitted w) /\
    (faults env (SocketImport progress) <> None \/
     faults env (SocketEmit progress) <> None ->
     emitted w' = emitted w /\
     exists e, log w' = ("Failed to emit progress update", e) :: log w).
Proof.
  unfold emit_progress_update, utcnow, call, logger. unfold_monad.
  destruct (faults env (SocketImport progress)) as [e |]; simpl.
  { eexists. split; [reflexivity |]. simpl. repeat split; try discriminate; eauto. }
  destruct (faults env (SocketEmit progress)) as [e |]; simpl.
  { eexists. split; [reflexivity |]. simpl. repeat split; try discriminate; eauto. }
  eexists. split; [reflexivity |]. simpl. repeat split; eauto.
  - destruct H; congruence.
  - destruct H; congruence.
Qed.

End Notifications.

(** ** Instances *)

(** An instance of X3: a name with path separators, blanks and brackets. *)
Lemma sanitize_filename_safe_chars_witness :
  all_chars safe_char (Validators.sanitize_filename "../my photo (1).jpg") = true.
Proof.
  apply (sanitize_filename_safe_chars "../my photo (1).jpg"). reflexivity.
Defined.

(** An instance of X4: a path that climbs out of its folder. *)
Lemma sanitize_filename_no_dotdot_witness :
  contains ".." (Validators.sanitize_filename "../../etc/passwd") = false.
Proof.
  destruct (sanitize_filename_no_dotdot "../../etc/passwd" eq_refl) as [_ H].
  - vm_compute. discriminate.
  - exact H.
Defined.

(** An instance of X5: the strip [preprocess_image] fails on. *)
Lemma resize_image_returns_witness :
  exists out,
    ImageTools.resize_image strip_image 1024 true = Ok out /\
    1 <= DiffusionService.width out <= 1024.
Proof.
  destruct (resize_image_returns strip_image 1024 eq_refl eq_refl eq_refl)
    as (out & Hrun & _ & Hwidth & _).
  exists out. split; [exact Hrun | exact Hwidth].
Defined.

(** An instance of X7: a cold service on libraries that answer. *)
Lemma load_model_succeeds_iff_witness :
  fst (DiffusionService.load_model healthy_backend "ukiyo-e-diffusion" cold_service)
  = Ok true.
Proof.
  apply (load_model_succeeds_iff healthy_backend "ukiyo-e-diffusion" cold_service eq_refl).
  split; [vm_compute; discriminate |].
  repeat split; intros; reflexivity.
Defined.

(** An instance of X9: the job [task-1] on an empty table. *)
Lemma unknown_task_is_refused_witness :
  fst (run_job healthy "a wave" [])
    = Ok (ImageProcessing.Failed "Transformation not found") /\
  ImageProcessing.emitted (snd (run_job healthy "a wave" [])) = [].
Proof.
  destruct (unknown_task_is_refused healthy "task-1" "u-1" "JFIF" "0b7e_cat.jpg"
              "ukiyo-e-diffusion" "a wave" "" (Finite 0.8) (Finite 7.5) 20
              Validators.SeedNone (picked_up []) eq_refl eq_refl eq_refl)
    as (w' & Hrun & _ & _ & Hemitted & _).
  unfold run_job. rewrite Hrun. split; [reflexivity | exact Hemitted].
Defined.

(** An instance of X10: the job [task-1] with an empty prompt. *)
Lemma invalid_request_never_reaches_the_model_witness :
  exists err,
    fst (run_job healthy "" (TransformRoutes.transformations (one_job Models.pending)))
      = Ok (ImageProcessing.Failed err) /\
    ImageProcessing.service
      (snd (run_job healthy "" (TransformRoutes.transformations (one_job Models.pending))))
    = cold_service.
Proof.
  destruct (invalid_request_never_reaches_the_model healthy "task-1" "u-1" "JFIF"
              "0b7e_cat.jpg" "ukiyo-e-diffusion" "" "" (Finite 0.8) (Finite 7.5) 20
              Validators.SeedNone
              (picked_up (TransformRoutes.transformations (one_job Models.pending)))
              (or_introl eq_refl))
    as (err & w' & Hrun & Hservice).
  exists err. unfold run_job. rewrite Hrun. split; [reflexivity | exact Hservice].
Defined.

(** An instance of X11: the job [task-1] run to completion. *)
Lemma completed_result_is_stored_witness :
  exists row,
    ImageProcessing.find_by_task_id "task-1"
      (ImageProcessing.transformations
         (snd (run_job healthy "a wave"
                 (TransformRoutes.transformations (one_job Models.pending)))))
      = Some row /\
    Models.Transformation.status row = Models.completed /\
    Models.Transformation.result_url row = Some "/uploads/results/result_0b7e.jpg".
Proof.
  destruct (completed_result_is_stored healthy "task-1" "u-1" "JFIF" "0b7e_cat.jpg"
              "ukiyo-e-diffusion" "a wave" "" (Finite 0.8) (Finite 7.5) 20
              Validators.SeedNone
              (picked_up (TransformRoutes.transformations (one_job Models.pending)))
              (snd (run_job healthy "a wave"
                      (TransformRoutes.transformations (one_job Models.pending))))
              "/uploads/results/result_0b7e.jpg" 6000000 "t-1" eq_refl eq_refl)
    as (row & Hfind & _ & Hstatus & Hurl & _).
  - vm_compute. reflexivity.
  - exists row. split; [exact Hfind |]. split; [exact Hstatus | exact Hurl].
Defined.

(** An instance of X13: user [u-2] asks for the status of the job of [u-1]. *)
Lemma foreign_task_is_not_found_witness :
  exists r s',
    TransformRoutes.get_transform_status no_faults "u-2" "task-1" (one_job Models.pending)
      = (Ok (TransformRoutes.Refused r None, 404), s') \/
    TransformRoutes.get_transform_status no_faults "u-2" "task-1" (one_job Models.pending)
      = (Ok (TransformRoutes.Refused r None, 500), s').
Proof.
  destruct (foreign_task_is_not_found no_faults (fun _ => Ok true) "u-2" "task-1"
              (one_job Models.pending) eq_refl) as [H _].
  exact H.
Defined.

(** An instance of X14: the owner deletes a job while the storage is down. *)
Lemma delete_transformation_spec_witness :
  fst (TransformRoutes.delete_transformation no_faults
         (fun _ => Raise "storage is down") "u-1" "task-1" (one_job Models.completed))
  = Ok (TransformRoutes.Done "Transformation deleted", 200).
Proof.
  destruct (delete_transformation_spec no_faults (fun _ => Raise "storage is down")
              "u-1" "task-1" (one_job Models.completed)
              (Models.Transformation.set_status Models.completed
                 (TransformRoutes.new_transformation "t-1" "u-1" "task-1" "cat.jpg"
                    "/uploads/originals/cat.jpg" "ukiyo-e-diffusion" "a wave"))
              eq_refl eq_refl) as [Hdone _].
  destruct (Hdone eq_refl) as [Hanswer _]. exact Hanswer.
Defined.

(** An instance of X16: the first public item of the gallery and its link. *)
Lemma share_link_resolves_witness :
  exists shown,
    fst (GalleryRoutes.get_shared_gallery_item quiet_gallery "kT3xYw0"
           (snd (GalleryRoutes.create_gallery_item quiet_gallery "u-1" public_request
                   empty_gallery)))
    = Ok (GalleryRoutes.Shown shown, 200) /\
    Models.GalleryItem.view_count shown = 1.
Proof.
  edestruct (share_link_resolves quiet_gallery quiet_gallery "u-1" public_request
               empty_gallery) as [_ Hshown].
  - reflexivity.
  - reflexivity.
  - intros r [].
  - reflexivity.
  - reflexivity.
  - eexists. split; [exact Hshown | reflexivity].
Defined.

(** An instance of X17: once [g-1] is withdrawn, the link that still
    works leads to another item. *)
Lemma withdrawn_item_is_not_shared_witness :
  exists shown,
    fst (GalleryRoutes.get_shared_gallery_item quiet_gallery "Zx81"
           (snd (GalleryRoutes.update_gallery_item quiet_gallery "u-1" "g-1"
                   second_request two_shared)))
    = Ok (GalleryRoutes.Shown shown, 200) /\
    Models.GalleryItem.id shown <> "g-1".
Proof.
  eexists. split; [cbv; reflexivity |].
  eapply (withdrawn_item_is_not_shared quiet_gallery quiet_gallery "u-1" "g-1"
            second_request two_shared) with (share_token := "Zx81") (code := 200).
  - reflexivity.
  - reflexivity.
  - cbv. reflexivity.
Defined.

(** An instance of X20: a result image stored under [uploads/results]. *)
Lemma local_upload_round_trip_witness :
  exists st1,
    StorageService._upload_bytes_to_local local_disk "JFIF" "result_0b7e.jpg" "results"
      fresh_storage
    = (Ok "/uploads/results/result_0b7e.jpg", st1) /\
    fst (StorageService._delete_from_local local_disk
           "/uploads/results/result_0b7e.jpg" st1) = Ok true.
Proof.
  destruct (local_upload_round_trip local_disk fresh_storage "JFIF" "result_0b7e.jpg"
              "results" ltac:(discriminate) eq_refl eq_refl eq_refl eq_refl eq_refl
              ltac:(intros content st_mtime; vm_compute; discriminate)
              ltac:(intros st_size st_mtime; vm_compute; discriminate))
    as (st1 & Hupload & _ & Hdelete).
  exists st1. split; [exact Hupload |].
  destruct (Hdelete eq_refl) as (st2 & Hrun & _). exact (f_equal fst Hrun).
Defined.

(** An instance of X21: a sound upload under the default limits. *)
Lemma validate_image_accepts_witness :
  exists file_size image,
    Validators.file_tell sound_upload = Ok file_size /\
    file_size <= 16 * 1024 * 1024 /\
    Validators.pil_open sound_upload 1%nat = Ok image /\
    64 <= fst (Validators.img_size image) <= 2048.
Proof.
  destruct (validate_image_accepts (fun _ => None) sound_upload [] [] "Valid image"
              eq_refl eq_refl eq_refl)
    as (file_size & image & Htell & _ & Hfits & Hopen & Hwidth & _).
  exists file_size, image. repeat split; try assumption; apply Hwidth.
Defined.
